(** * cx-case-study: complaint themes and question routing

    A shallow embedding of the decision logic of the two tools of the
    repository, and the properties of it that the specification states.

    - [1_complaints_tool/theme_extractor.py]: the theme labeller
      [_auto_label] and the driver [extract_themes];
    - [2_ai_data_analyzer/router.py]: [classify] and [Router.answer];
    - [2_ai_data_analyzer/quant_handler.py]: [QuantHandler], with its
      dispatch and its queries;
    - [2_ai_data_analyzer/qual_handler.py]: [QualHandler], with its
      retrieval and its summary;
    - [2_ai_data_analyzer/llm_client.py]: [complete] and the offline
      fallback [_no_key];
    - [2_ai_data_analyzer/main.py]: the display [_fmt] and the loop of the
      chat [_run_chat].

    The file has four parts: the model, module by module; the vocabulary of
    the statements; sample inputs; the properties.

    Conventions of the model.

    - A Python [str] is a [string].  The character classes of [re] and of
      the [str] methods are those of the ASCII range (letters, digits, the
      underscore, the ten ASCII white-space characters), so the model
      speaks about questions and texts written in ASCII.
    - Code that can raise returns a [result]: [Ok v] or [Raise e].
    - A pandas [DataFrame] is a row count and an ordered list of named
      columns of cells; a cell is missing, a text or an integer.
    - [extract_themes] updates the frame of its caller and writes to the
      log: it runs on a state that holds the frame and a trace.
    - What the third-party packages compute (the analyzer and the weights
      of the vectorizer, k-means, the parsing of dates, the text of a
      period, floating point formatting, the answer of a completion
      provider) is a parameter of the definitions that use it. *)

From Stdlib Require Import ZArith Lia Ascii String DecimalString.
From stdpp Require Import base option list strings gmap sorting.

Local Open Scope string_scope.

(** * The model *)

(** ** Python strings *)

Module PyStr.

Definition code (c : ascii) : N := N_of_ascii c.

Definition is_digit (c : ascii) : bool :=
  ((48 <=? code c) && (code c <=? 57))%N.

Definition is_upper (c : ascii) : bool :=
  ((65 <=? code c) && (code c <=? 90))%N.

Definition is_lower (c : ascii) : bool :=
  ((97 <=? code c) && (code c <=? 122))%N.

Definition is_alpha (c : ascii) : bool := is_upper c || is_lower c.

(** [\w] *)
Definition is_word (c : ascii) : bool :=
  is_alpha c || is_digit c || (code c =? 95)%N.

(** [str.isspace], [\s]: tab, line feed, vertical tab, form feed, carriage
    return, the four separators 28 to 31 and the space. *)
Definition is_space (c : ascii) : bool :=
  ((9 <=? code c) && (code c <=? 13) || (28 <=? code c) && (code c <=? 32))%N.

(** The case of a letter is folded in the ASCII range; any other
    character is left as it is. *)
Definition lower_char (c : ascii) : ascii :=
  if is_upper c then ascii_of_N (code c + 32) else c.

Definition upper_char (c : ascii) : ascii :=
  if is_lower c then ascii_of_N (code c - 32) else c.

(** [s.lower()] *)
Fixpoint lower (s : string) : string :=
  match s with
  | EmptyString => EmptyString
  | String c r => String (lower_char c) (lower r)
  end.

(** [s.upper()] *)
Fixpoint upper (s : string) : string :=
  match s with
  | EmptyString => EmptyString
  | String c r => String (upper_char c) (upper r)
  end.

Definition is_empty (s : string) : bool :=
  match s with EmptyString => true | _ => false end.

(** [len(s)] *)
Definition len (s : string) : nat := String.length s.

(** [s[:n]] for a constant [n >= 0] *)
Fixpoint upto (n : nat) (s : string) : string :=
  match n, s with
  | S m, String c r => String c (upto m r)
  | _, _ => EmptyString
  end.

(** [s.startswith(p)] *)
Fixpoint startswith (p s : string) : bool :=
  match p, s with
  | EmptyString, _ => true
  | String a p', String b s' => Ascii.eqb a b && startswith p' s'
  | String _ _, EmptyString => false
  end.

(** [needle in s] *)
Fixpoint contains (needle s : string) : bool :=
  startswith needle s ||
  match s with
  | EmptyString => false
  | String _ r => contains needle r
  end.

(** [s.lstrip()] and [s.lstrip(chars)] through the predicate of the
    characters to remove. *)
Fixpoint lstrip_by (p : ascii -> bool) (s : string) : string :=
  match s with
  | EmptyString => EmptyString
  | String c r => if p c then lstrip_by p r else s
  end.

Fixpoint rstrip_by (p : ascii -> bool) (s : string) : string :=
  match s with
  | EmptyString => EmptyString
  | String c r =>
      let r' := rstrip_by p r in
      if is_empty r' && p c then EmptyString else String c r'
  end.

Definition strip_by (p : ascii -> bool) (s : string) : string :=
  rstrip_by p (lstrip_by p s).

(** [s.strip()] *)
Definition strip (s : string) : string := strip_by is_space s.

(** [sep.join(l)] *)
Fixpoint join (sep : string) (l : list string) : string :=
  match l with
  | [] => EmptyString
  | [x] => x
  | x :: r => x +:+ sep +:+ join sep r
  end.

(** Line boundaries of [str.splitlines] in the ASCII range: line feed,
    vertical tab, form feed, carriage return and the separators 28 to 30;
    a carriage return followed by a line feed is one boundary. *)
Definition is_linebreak (c : ascii) : bool :=
  ((10 <=? code c) && (code c <=? 13) || (28 <=? code c) && (code c <=? 30))%N.

(** [s.splitlines()] *)
Fixpoint splitlines (s : string) : list string :=
  match s with
  | EmptyString => []
  | String c r =>
      if is_linebreak c then
        match r with
        | String c2 r2 =>
            if ((code c =? 13) && (code c2 =? 10))%N
            then EmptyString :: splitlines r2
            else EmptyString :: splitlines r
        | EmptyString => [EmptyString]
        end
      else
        match splitlines r with
        | [] => [String c EmptyString]
        | l :: ls => String c l :: ls
        end
  end.

Definition cons_nonempty (w : string) (ws : list string) : list string :=
  if is_empty w then ws else w :: ws.

(** The word that starts at the head of [s] (empty when [s] starts with
    white space) and the words after it. *)
Fixpoint split_aux (s : string) : string * list string :=
  match s with
  | EmptyString => (EmptyString, [])
  | String c r =>
      let '(w, ws) := split_aux r in
      if is_space c then (EmptyString, cons_nonempty w ws)
      else (String c w, ws)
  end.

(** [s.split()] *)
Definition split (s : string) : list string :=
  let '(w, ws) := split_aux s in cons_nonempty w ws.

(** [s.title()]: a letter that follows a letter is lowered, any other
    letter is capitalised. *)
Fixpoint title_from (prev_cased : bool) (s : string) : string :=
  match s with
  | EmptyString => EmptyString
  | String c r =>
      if is_alpha c
      then String (if prev_cased then lower_char c else upper_char c)
                  (title_from true r)
      else String c (title_from false r)
  end.

Definition title (s : string) : string := title_from false s.

(** The double quote character. *)
Definition dquote : ascii := "034"%char.
Definition dash : ascii := "-"%char.

(** [str(n)] and [f"{n:,}"] for an integer. *)
Definition str_of_Z (z : Z) : string :=
  NilZero.string_of_int (Z.to_int z).

(** Digits from the least significant one, a comma before every fourth. *)
Fixpoint commas_rev (ds : list ascii) (i : nat) : list ascii :=
  match ds with
  | [] => []
  | d :: r =>
      match i with
      | 3 => ","%char :: d :: commas_rev r 1
      | _ => d :: commas_rev r (S i)
      end
  end.

Definition fmt_commas (z : Z) : string :=
  let digits := list_ascii_of_string (str_of_Z (Z.abs z)) in
  let body := string_of_list_ascii (rev (commas_rev (rev digits) 0)) in
  if (z <? 0)%Z then String dash body else body.

End PyStr.

(** ** Results of code that can raise *)

Inductive exn : Type :=
| TypeError
| KeyError (key : string)
| IndexError
| ValueError (msg : string)
| ZeroDivisionError
| LibraryError (msg : string).

Inductive result (A : Type) : Type :=
| Ok (v : A)
| Raise (e : exn).
Arguments Ok {A} v.
Arguments Raise {A} e.

#[global] Instance result_ret : MRet result := fun A v => Ok v.

#[global] Instance result_bind : MBind result := fun A B f m =>
  match m with
  | Ok v => f v
  | Raise e => Raise e
  end.

(** ** The fragment of Python's [re] that the repository uses

    Patterns are built from literal characters, the word boundary, a greedy
    star over a character class, concatenation and alternation.  Matching is
    by backtracking, as in [re]: the alternatives of [|] are tried from left
    to right, a star first takes as many characters as it can, and the first
    way through that reaches the end of the pattern is the match. *)

Module Re.

Import PyStr.

Inductive cclass : Type := Digit | Space.

Definition in_class (k : cclass) (c : ascii) : bool :=
  match k with
  | Digit => is_digit c
  | Space => is_space c
  end.

Inductive regex : Type :=
| Eps
| Chr (c : ascii)
| Bnd
| StarC (k : cclass)
| Seq (a b : regex)
| Alt (a b : regex).

(** A literal string. *)
Fixpoint lit (s : string) : regex :=
  match s with
  | EmptyString => Eps
  | String c r => Seq (Chr c) (lit r)
  end.

Fixpoint seq (rs : list regex) : regex :=
  match rs with
  | [] => Eps
  | [r] => r
  | r :: rest => Seq r (seq rest)
  end.

(** The pattern of ["|".join(patterns)]. *)
Fixpoint alts (rs : list regex) : regex :=
  match rs with
  | [] => Eps
  | [r] => r
  | r :: rest => Alt r (alts rest)
  end.

(** Equality of characters, under [re.IGNORECASE] when [ic] is set. *)
Definition chr_eq (ic : bool) (c c' : ascii) : bool :=
  if ic then Ascii.eqb (lower_char c) (lower_char c') else Ascii.eqb c c'.

Definition is_word_opt (o : option ascii) : bool :=
  match o with Some c => is_word c | None => false end.

Definition head (s : string) : option ascii :=
  match s with String c _ => Some c | EmptyString => None end.

(** [\b]: exactly one of the characters before and after the position is a
    word character; the two ends of the string count as non-word. *)
Definition at_boundary (prev : option ascii) (s : string) : bool :=
  xorb (is_word_opt prev) (is_word_opt (head s)).

Definition cont : Type := option ascii -> string -> option string.

Fixpoint star_greedy (k : cclass) (prev : option ascii) (s : string)
    (next : cont) : option string :=
  match s with
  | String c s' =>
      if in_class k c then
        match star_greedy k (Some c) s' next with
        | Some rest => Some rest
        | None => next prev s
        end
      else next prev s
  | EmptyString => next prev s
  end.

(** [rmatch ic r prev s next]: match [r] at the head of [s], the character
    before it being [prev], then go on with [next]. *)
Fixpoint rmatch (ic : bool) (r : regex) (prev : option ascii) (s : string)
    (next : cont) : option string :=
  match r with
  | Eps => next prev s
  | Chr c =>
      match s with
      | String c' s' => if chr_eq ic c c' then next (Some c') s' else None
      | EmptyString => None
      end
  | Bnd => if at_boundary prev s then next prev s else None
  | StarC k => star_greedy k prev s next
  | Seq a b => rmatch ic a prev s (fun p' s' => rmatch ic b p' s' next)
  | Alt a b =>
      match rmatch ic a prev s next with
      | Some rest => Some rest
      | None => rmatch ic b prev s next
      end
  end.

(** The match that starts at the head of [s], as what is left of [s]. *)
Definition match_at (ic : bool) (r : regex) (prev : option ascii)
    (s : string) : option string :=
  rmatch ic r prev s (fun _ rest => Some rest).

(** [re.search]: is there a match at some position. *)
Fixpoint search_from (ic : bool) (r : regex) (prev : option ascii)
    (s : string) : bool :=
  match match_at ic r prev s with
  | Some _ => true
  | None =>
      match s with
      | EmptyString => false
      | String c s' => search_from ic r (Some c) s'
      end
  end.

Definition search (ic : bool) (r : regex) (s : string) : bool :=
  search_from ic r None s.

(** [len(re.findall)]: the number of matches of one scan from the left; the
    scan resumes where a match ended ([skip] counts the characters of the
    last match still to pass).  A match of no character is counted and the
    scan moves on by one character. *)
Fixpoint findall_from (ic : bool) (r : regex) (prev : option ascii)
    (s : string) (skip : nat) {struct s} : nat :=
  match skip with
  | S n =>
      match s with
      | String c s' => findall_from ic r (Some c) s' n
      | EmptyString => 0
      end
  | O =>
      match match_at ic r prev s with
      | Some rest =>
          match s with
          | String c s' =>
              S (findall_from ic r (Some c) s'
                   (pred (String.length s - String.length rest)))
          | EmptyString => 1
          end
      | None =>
          match s with
          | String c s' => findall_from ic r (Some c) s' 0
          | EmptyString => 0
          end
      end
  end.

Definition findall_count (ic : bool) (r : regex) (s : string) : nat :=
  findall_from ic r None s 0.

(** [\bWORDS\b] *)
Definition word (s : string) : regex := Seq Bnd (Seq (lit s) Bnd).

(** [\bWORDS], with no boundary at the end. *)
Definition word_start (s : string) : regex := Seq Bnd (lit s).

(** The pieces of [re.split] on runs of non-word characters: the piece that
    starts at the head of [s] and the pieces after it. *)
Fixpoint split_nonword_aux (s : string) : string * list string :=
  match s with
  | EmptyString => (EmptyString, [])
  | String c r =>
      let '(w, ws) := split_nonword_aux r in
      if is_word c then (String c w, ws)
      else
        match head r with
        | Some c2 => if is_word c2 then (EmptyString, w :: ws) else (w, ws)
        | None => (EmptyString, w :: ws)
        end
  end.

Definition split_nonword (s : string) : list string :=
  let '(w, ws) := split_nonword_aux s in w :: ws.

End Re.

(** ** pandas data frames *)

Inductive cell : Type :=
| NA
| Str (s : string)
| Int (z : Z).

#[global] Instance cell_eq_dec : EqDecision cell.
Proof. solve_decision. Defined.

Module Frame.

(** A frame: the length of its index and its columns in order. *)
Record DataFrame : Type := mkFrame {
  nrows : nat;
  columns : list (string * list cell)
}.

Definition names (df : DataFrame) : list string := map fst (columns df).

(** Every column holds one cell per row. *)
Definition wf (df : DataFrame) : Prop :=
  Forall (fun c => length (snd c) = nrows df) (columns df).

(** [name in df.columns] *)
Definition has_col (name : string) (df : DataFrame) : bool :=
  bool_decide (name ∈ names df).

Fixpoint lookup_col (name : string) (cols : list (string * list cell))
    : option (list cell) :=
  match cols with
  | [] => None
  | (n, v) :: r => if String.eqb n name then Some v else lookup_col name r
  end.

(** [df[name]] *)
Definition col (name : string) (df : DataFrame) : result (list cell) :=
  match lookup_col name (columns df) with
  | Some v => Ok v
  | None => Raise (KeyError name)
  end.

Fixpoint replace_col (name : string) (v : list cell)
    (cols : list (string * list cell)) : list (string * list cell) :=
  match cols with
  | [] => [(name, v)]
  | (n, w) :: r =>
      if String.eqb n name then (n, v) :: r else (n, w) :: replace_col name v r
  end.

Definition assign (name : string) (v : list cell) (df : DataFrame) : DataFrame :=
  mkFrame (nrows df) (replace_col name v (columns df)).

(** [df[name] = values]: the column is replaced where it stands, or added
    after the last one; the values must be as many as the rows. *)
Definition set_col (name : string) (v : list cell) (df : DataFrame)
    : result DataFrame :=
  if bool_decide (length v = nrows df)
  then Ok (assign name v df)
  else Raise (ValueError "Length of values does not match length of index").

(** The elements of [l] at the places where [mask] holds. *)
Fixpoint select {A : Type} (mask : list bool) (l : list A) : list A :=
  match mask, l with
  | b :: m, x :: r => if b then x :: select m r else select m r
  | _, _ => []
  end.

(** [df[mask]] *)
Definition filter_rows (mask : list bool) (df : DataFrame) : DataFrame :=
  mkFrame (length (select mask (seq 0 (nrows df))))
          (map (fun '(n, v) => (n, select mask v)) (columns df)).

(** [series.fillna(v)] *)
Definition fillna (v : cell) (l : list cell) : list cell :=
  map (fun c => match c with NA => v | _ => c end) l.

(** [series.dropna()] *)
Definition dropna (l : list cell) : list cell :=
  filter (fun c => c <> NA) l.

(** [series == v]: a missing value equals nothing. *)
Definition eq_mask (v : cell) (l : list cell) : list bool :=
  map (fun c => bool_decide (c = v /\ c <> NA)) l.

(** [int(mask.sum())] *)
Definition mask_sum (mask : list bool) : Z :=
  Z.of_nat (length (filter (fun b => b = true) mask)).

(** The row at position [i], as the pairs of a column name and its cell. *)
Definition row_at (df : DataFrame) (i : nat) : list (string * cell) :=
  map (fun '(n, v) => (n, nth i v NA)) (columns df).

Definition rows (df : DataFrame) : list (list (string * cell)) :=
  map (row_at df) (seq 0 (nrows df)).

(** [row[key]] on a row that is a Series ([df.iloc[i]], [iterrows]) *)
Fixpoint series_get (key : string) (row : list (string * cell)) : result cell :=
  match row with
  | [] => Raise (KeyError key)
  | (n, c) :: r => if String.eqb n key then Ok c else series_get key r
  end.

(** [df.iloc[0]] *)
Definition iloc0 (df : DataFrame) : result (list (string * cell)) :=
  match rows df with
  | r :: _ => Ok r
  | [] => Raise IndexError
  end.

(** The keys of a tuple subscript. *)
Inductive subscript : Type :=
| ByPos (i : nat)
| ByName (s : string).

(** [row[key]] on a row of [df.itertuples()]: a named tuple, whose place 0
    is the index; a tuple takes positions, not names. *)
Definition tuple_get (row_index : nat) (row : list (string * cell))
    (key : subscript) : result cell :=
  match key with
  | ByName _ => Raise TypeError
  | ByPos 0 => Ok (Int (Z.of_nat row_index))
  | ByPos (S i) =>
      match nth_error row i with
      | Some (_, c) => Ok c
      | None => Raise IndexError
      end
  end.

(** [row.name] on a row of [df.itertuples()] *)
Definition tuple_attr (row : list (string * cell)) (name : string) : result cell :=
  match series_get name row with
  | Ok c => Ok c
  | Raise _ => Raise (LibraryError "AttributeError")
  end.

(** [int(c)]: an integer, or a text that is a decimal numeral. *)
Definition py_int (c : cell) : result Z :=
  match c with
  | Int z => Ok z
  | Str s =>
      match NilZero.int_of_string (PyStr.strip s) with
      | Some i => Ok (Z.of_int i)
      | None => Raise (ValueError "invalid literal for int()")
      end
  | NA => Raise (ValueError "cannot convert float NaN to integer")
  end.

(** Insertion of [x] after the elements that come strictly before it: the
    step of a stable sort. *)
Fixpoint insert_by {A : Type} (before : A -> A -> bool) (x : A) (l : list A)
    : list A :=
  match l with
  | [] => [x]
  | y :: r => if before y x then y :: insert_by before x r else x :: l
  end.

Definition sort_by {A : Type} (before : A -> A -> bool) (l : list A) : list A :=
  foldr (insert_by before) [] l.

(** The distinct values of [l] with the number of times each occurs, in the
    order of their first occurrence. *)
Fixpoint tally_from (seen : list cell) (l : list cell) : list (cell * Z) :=
  match l with
  | [] => []
  | c :: r =>
      if bool_decide (c ∈ seen) then tally_from seen r
      else (c, Z.of_nat (S (length (filter (fun d => d = c) r))))
             :: tally_from (c :: seen) r
  end.

Definition tally (l : list cell) : list (cell * Z) := tally_from [] l.

(** [series.value_counts()]: the values that are not missing, the most
    frequent first. *)
Definition value_counts (l : list cell) : list (cell * Z) :=
  sort_by (fun a b => (snd b <? snd a)%Z) (tally (dropna l)).

Definition cell_text (c : cell) : string :=
  match c with
  | NA => "nan"
  | Str s => s
  | Int z => PyStr.str_of_Z z
  end.

(** [df.groupby(name).size()] on a column of texts: one group per text that
    occurs, a row with a missing key in none, the groups in the order of
    their keys. *)
Definition groupby_size (keys : list cell) : list (cell * Z) :=
  sort_by (fun a b => String.ltb (cell_text (fst a)) (cell_text (fst b)))
          (tally (dropna keys)).

End Frame.

(** ** theme_extractor.py *)

Module ThemeExtractor.

Import Frame.

(** Heuristic label rules: keyword set, human-readable label *)
Definition _LABEL_RULES : list (gset string * string) :=
  [ (list_to_set
       ["app"; "mobile"; "login"; "crash"; "password"; "screen"; "error";
        "loading"; "authentication"; "fingerprint"; "face"; "update"; "ios";
        "android"], "App & Login Issues");
    (list_to_set
       ["charge"; "fee"; "charged"; "overdraft"; "statement"; "billing";
        "refund"; "maintenance"; "annual"; "late"; "penalty";
        "balance transfer"], "Billing & Fee Disputes");
    (list_to_set
       ["transaction"; "payment"; "declined"; "transfer"; "unauthorized";
        "fraud"; "purchase"; "debit"; "atm"; "withdrawal"; "deposit"; "wire"],
     "Transaction Problems");
    (list_to_set
       ["account"; "locked"; "access"; "blocked"; "frozen"; "verification";
        "reset"; "security"; "flag"; "suspended"; "recover"],
     "Account Access Issues");
    (list_to_set
       ["service"; "representative"; "staff"; "wait"; "hold"; "support";
        "agent"; "call"; "phone"; "transferred"; "rude"; "unhelpful";
        "callback"], "Customer Service Quality");
    (list_to_set
       ["loan"; "mortgage"; "interest"; "rate"; "application"; "approval";
        "personal"; "refinance"; "payoff"; "equity"], "Loan & Mortgage Issues");
    (list_to_set
       ["card"; "chip"; "tap"; "contactless"; "apple"; "google"; "pay";
        "pin"; "credit"; "limit"], "Card & Payment Method Issues") ].

(** [kw_set & keyword_group] is not empty *)
Definition intersects (a b : gset string) : bool := bool_decide (a ∩ b ≠ ∅).

(** The loop over the rules: the label of the first rule that matches. *)
Fixpoint first_label (kw_set : gset string) (rules : list (gset string * string))
    : option string :=
  match rules with
  | [] => None
  | (keyword_group, label) :: rest =>
      if intersects kw_set keyword_group then Some label
      else first_label kw_set rest
  end.

Definition _auto_label (top_keywords : list string) : string :=
  let kw_set : gset string := list_to_set (take 8 top_keywords) in
  match first_label kw_set _LABEL_RULES with
  | Some label => label
  | None => PyStr.join " & " (map PyStr.title (take 2 top_keywords))
  end.

(** [l[:n]] for an integer [n]: a negative [n] counts from the end. *)
Definition slice_to {A : Type} (n : Z) (l : list A) : list A :=
  if (0 <=? n)%Z then take (Z.to_nat n) l
  else take (length l - Z.to_nat (- n)) l.

Record ThemeRecord : Type := mkTheme {
  theme_id : Z;
  label : string;
  count : Z;
  top_keywords : string;
  example_texts : string
}.

(** [sum(theme.count for theme in themes)] *)
Definition total_count (themes : list ThemeRecord) : Z :=
  foldr (fun r acc => (count r + acc)%Z) 0%Z themes.

(** What a run leaves behind besides its value: the messages of the logger
    and the calls to scikit-learn, in order. *)
Inductive event : Type :=
| LogWarning (n_docs : nat) (n_themes : Z)
| CallFitTransform (n_docs : nat)
| CallKMeans (n_clusters : Z) (n_samples : nat)
| LogInfo (n_themes : Z) (top_label : string) (top_count : Z).

(** The state a run works on: the caller's frame, which [extract_themes]
    updates in place, and the trace. *)
Record state : Type := mkState {
  df : DataFrame;
  trace : list event
}.

Definition Eff (A : Type) : Type := state -> state * result A.

#[global] Instance Eff_ret : MRet Eff := fun A v st => (st, Ok v).

#[global] Instance Eff_bind : MBind Eff := fun A B f m st =>
  match m st with
  | (st', Ok v) => f v st'
  | (st', Raise e) => (st', Raise e)
  end.

Definition lift {A : Type} (r : result A) : Eff A := fun st => (st, r).
Definition emit (e : event) : Eff unit :=
  fun st => (mkState (df st) (trace st ++ [e])%list, Ok tt).
Definition get_df : Eff DataFrame := fun st => (st, Ok (df st)).
Definition put_df (d : DataFrame) : Eff unit :=
  fun st => (mkState d (trace st), Ok tt).

(** A cell of the text column as a document. *)
Definition as_text (c : cell) : result string :=
  match c with
  | Str s => Ok s
  | _ => Raise TypeError
  end.

Section Extraction.

(** scikit-learn, as far as the driver depends on it.  [analyze] is the
    analyzer of the vectorizer (lower-casing, tokens, the stop words of
    [_STOPWORDS], unigrams and bigrams).  [Matrix] is the weighted
    document-term matrix; [tfidf max_features terms texts] gives the
    feature names kept and the matrix.  [kmeans n_clusters seed X] gives
    the label of each document and, for each centroid, the indices of the
    features by decreasing weight. *)
Variable analyze : string -> list string.
Variable Matrix : Type.
Variable tfidf : Z -> list string -> list string -> list string * Matrix.
Variable kmeans : Z -> Z -> Matrix -> result (list Z * list (list nat)).

(** The number of documents a term occurs in. *)
Definition doc_freq (t : string) (texts : list string) : nat :=
  length (filter (fun d => t ∈ analyze d) texts).

(** [min_df=2]: the terms that occur in two documents or more. *)
Definition frequent_terms (texts : list string) : list string :=
  filter (fun t => 2 <= doc_freq t texts)
         (remove_dups (concat (map analyze texts))).

(** [vectorizer.fit_transform(texts)]: a vocabulary left empty by the
    pruning is an error. *)
Definition fit_transform (max_features : Z) (texts : list string)
    : result (list string * Matrix) :=
  match frequent_terms texts with
  | [] => Raise (ValueError "After pruning, no terms remain")
  | terms => Ok (tfidf max_features terms texts)
  end.

(** A cell of the text column as the vectorizer reads it. *)
Definition doc_of_cell (c : cell) : result string :=
  match c with
  | Str s => Ok s
  | _ => Raise (LibraryError "AttributeError")
  end.

Definition get {A : Type} (l : list A) (i : nat) : result A :=
  match l !! i with
  | Some x => Ok x
  | None => Raise IndexError
  end.

(** [DataFrame(records).sort_values("count", ascending=False)]: a frame
    made of no record has no such column. *)
Definition sort_by_count (records : list ThemeRecord) : result (list ThemeRecord) :=
  match records with
  | [] => Raise (KeyError "count")
  | _ => Ok (sort_by (fun a b => (count b <? count a)%Z) records)
  end.

(** The body of the loop over the cluster ids. *)
Definition theme_record (text_col : string) (n_top_keywords : Z)
    (feature_names : list string) (order_centroids : list (list nat))
    (i : nat) : Eff ThemeRecord :=
  order ← lift (get order_centroids i);
  top_kw ← lift (mapM (get feature_names) (slice_to n_top_keywords order));
  d ← get_df;
  ids ← lift (col "theme_id" d);
  let mask := eq_mask (Int (Z.of_nat i)) ids in
  let count := mask_sum mask in
  texts ← lift (col text_col d);
  let examples := take 3 (select mask texts) in
  let label := _auto_label top_kw in
  shown ← lift (mapM as_text examples);
  mret (mkTheme (Z.of_nat i) label count
          (PyStr.join ", " top_kw) (PyStr.join " | " shown)).

Definition extract_themes (text_col : string)
    (n_themes seed n_top_keywords max_features : Z) : Eff (list ThemeRecord) :=
  d ← get_df;
  column ← lift (col text_col d);
  let texts := fillna (Str EmptyString) column in
  let n := length texts in
  n_themes ←
    (if (Z.of_nat n <? n_themes)%Z then
       let reduced := Z.max 2 (Z.of_nat n / 2) in
       _ ← emit (LogWarning n reduced); mret reduced
     else mret n_themes);
  _ ← emit (CallFitTransform n);
  docs ← lift (mapM doc_of_cell texts);
  '(feature_names, X) ← lift (fit_transform max_features docs);
  _ ← emit (CallKMeans n_themes n);
  '(labels, order_centroids) ← lift (kmeans n_themes seed X);
  d ← get_df;
  d' ← lift (set_col "theme_id" (map Int labels) d);
  _ ← put_df d';
  records ← mapM (theme_record text_col n_top_keywords feature_names
                    order_centroids) (seq 0 (Z.to_nat n_themes));
  themes_df ← lift (sort_by_count records);
  top ← lift (get themes_df 0);
  _ ← emit (LogInfo n_themes (label top) (count top));
  mret themes_df.

End Extraction.

End ThemeExtractor.

(** ** llm_client.py *)

Module LlmClient.

Import PyStr.

Definition nl : string := String "010"%char EmptyString.

(** The environment of the client: the two keys read at import time and
    the two providers; a provider answers with a text or fails with the
    text of its exception. *)
Record Env : Type := mkEnv {
  _ANTHROPIC_KEY : string;
  _OPENAI_KEY : string;
  anthropic_api : string -> string + string;
  openai_api : string -> string + string
}.

Definition is_bullet (line : string) : bool :=
  startswith "-" (strip line) || startswith (String dquote EmptyString) (strip line).

(** [line.strip().lstrip("-").strip().strip(QUOTE).strip()] *)
Definition bullet_text (line : string) : string :=
  strip (strip_by (Ascii.eqb dquote)
           (strip (lstrip_by (Ascii.eqb dash) (strip line)))).

(** The two comprehensions of [_no_key]. *)
Definition bullet_examples (prompt : string) : list string :=
  let examples := map bullet_text (filter is_bullet (splitlines prompt)) in
  take 4 (filter (fun e => 15 < len e) examples).

Definition no_key_tag : string :=
  "_(NO-KEY MODE — set OPENAI_API_KEY or ANTHROPIC_API_KEY for " +:+
  "AI-generated analysis)_".

Definition no_key_intro : string :=
  "Based on the retrieved complaint examples, customers are " +:+
  "experiencing the following issues:" +:+ nl.

Definition no_key_recommendation : string :=
  "Recommendation: Prioritise root-cause investigation for the " +:+
  "most-frequent pain point and set up a dedicated fast-resolution " +:+
  "queue with a 24-hour SLA target." +:+ nl +:+ nl.

Definition no_key_default : string :=
  "The selected complaints share themes around service quality, " +:+
  "technical reliability, and billing transparency. " +:+
  "Recommend monitoring complaint volume weekly and escalating any " +:+
  "theme that grows more than 20% week-over-week." +:+ nl +:+ nl +:+
  no_key_tag.

Definition bullet (e : string) : string := "  • " +:+ upto 120 e.

(** Deterministic rule-based summary used when no API key is present. *)
Definition _no_key (prompt : string) : string :=
  match bullet_examples prompt with
  | [] => no_key_default
  | examples =>
      let bullets := join nl (map bullet examples) in
      no_key_intro +:+ bullets +:+ nl +:+ nl +:+
      no_key_recommendation +:+ no_key_tag
  end.

Definition _anthropic (env : Env) (prompt : string) : string * string :=
  match anthropic_api env prompt with
  | inl text => (strip text, "anthropic")
  | inr exc => ("[Anthropic error — " +:+ exc +:+ "]", "anthropic-error")
  end.

Definition _openai (env : Env) (prompt : string) : string * string :=
  match openai_api env prompt with
  | inl text => (strip text, "openai")
  | inr exc => ("[OpenAI error — " +:+ exc +:+ "]", "openai-error")
  end.

(** Priority: Anthropic, OpenAI, no-key rule-based fallback. *)
Definition complete (env : Env) (prompt : string) : string * string :=
  if negb (is_empty (_ANTHROPIC_KEY env)) then _anthropic env prompt
  else if negb (is_empty (_OPENAI_KEY env)) then _openai env prompt
  else (_no_key prompt, "no-key").

End LlmClient.

(** ** The result of a query *)

Inductive payload : Type :=
| Dict (items : list (cell * cell))
| Records (rows : list (list (string * cell))).

(** The dictionary a handler returns; a key that is not set is [None]. *)
Record QueryResult : Type := mkResult {
  answer : string;
  data : option payload;
  examples : option (list cell);
  confidence : string;
  llm_mode : option string;
  query_type : option string
}.

(** ** qual_handler.py *)

Module QualHandler.

Import Frame.

(** Max examples sent to LLM / shown in output *)
Definition _MAX_EXAMPLES : nat := 8.

Record t : Type := mkHandler {
  df : DataFrame;
  themes : DataFrame;
  _text_col : string
}.

(** [QualHandler(cleaned_df, themes_df)] *)
Definition init (cleaned_df themes_df : DataFrame) : t :=
  mkHandler cleaned_df themes_df
    (if has_col "complaint_text" cleaned_df then "complaint_text"
     else "text_clean").

Definition word_set (s : string) : gset string := list_to_set (PyStr.split s).

(** 1. Try to match a known theme label: the loop over [themes.itertuples()]. *)
Fixpoint theme_pool (h : t) (q_lower : string)
    (theme_rows : list (list (string * cell))) : result DataFrame :=
  match theme_rows with
  | [] => Ok (df h)
  | row :: rest =>
      label ← tuple_attr row "label";
      let label_words := word_set (PyStr.lower (cell_text label)) in
      let query_words := word_set q_lower in
      if bool_decide (label_words ∩ query_words ≠ ∅) then
        ids ← col "theme_id" (df h);
        theme_id ← tuple_attr row "theme_id";
        Ok (filter_rows (eq_mask theme_id ids) (df h))
      else theme_pool h q_lower rest
  end.

Definition stop_set : gset string :=
  list_to_set
    ["what"; "show"; "give"; "tell"; "about"; "with"; "from";
     "that"; "have"; "more"; "some"; "many"; "which"; "this";
     "they"; "their"; "customers"; "complaints"; "issues"].

Definition keywords (q_lower : string) : list string :=
  filter (fun w => 3 < PyStr.len w /\ w ∉ stop_set) (Re.split_nonword q_lower).

(** [series.str.contains(pattern, case=False, na=False)] on one cell *)
Definition cell_contains (pattern : Re.regex) (c : cell) : bool :=
  match c with
  | Str s => Re.search true pattern s
  | _ => false
  end.

(** 2. Keyword search within the chosen pool, with the fall back to the
    full pool. *)
Definition keyword_rows (h : t) (kws : list string) (pool : DataFrame)
    : result DataFrame :=
  matched ←
    match kws with
    | [] => Ok pool
    | _ =>
        let pattern := Re.alts (map Re.lit kws) in
        text_pool ← (if has_col "text_clean" pool then col "text_clean" pool
                     else col (_text_col h) pool);
        Ok (filter_rows (map (cell_contains pattern) text_pool) pool)
    end;
  Ok (if bool_decide (nrows matched = 0) then pool else matched).

Definition retrieval_info (n_matched n_examples : nat) : string :=
  PyStr.fmt_commas (Z.of_nat n_matched) +:+ " matching complaints retrieved " +:+
  "(showing top " +:+ PyStr.str_of_Z (Z.of_nat (n_examples `min` _MAX_EXAMPLES)) +:+ ")".

(** Return matching complaint texts and a retrieval metadata string. *)
Definition _retrieve (h : t) (query : string) : result (list cell * string) :=
  let q_lower := PyStr.lower query in
  pool ← theme_pool h q_lower (rows (themes h));
  matched ← keyword_rows h (keywords q_lower) pool;
  texts ← col (_text_col h) matched;
  let examples := take _MAX_EXAMPLES (dropna texts) in
  Ok (examples, retrieval_info (nrows matched) (length examples)).

(** [e[:200]] *)
Definition example_head (e : cell) : result string :=
  match e with
  | Str s => Ok (PyStr.upto 200 s)
  | _ => Raise TypeError
  end.

Definition quoted_bullet (e : string) : string :=
  "- " +:+ String PyStr.dquote e +:+ String PyStr.dquote EmptyString.

Definition build_prompt (query : string) (n : nat) (bullets : string) : string :=
  let nl := LlmClient.nl in
  "A customer experience analyst is reviewing customer complaints." +:+ nl +:+ nl +:+
  "Question: " +:+ query +:+ nl +:+ nl +:+
  "Relevant complaint examples (" +:+ PyStr.str_of_Z (Z.of_nat n) +:+ " retrieved):" +:+ nl +:+
  bullets +:+ nl +:+ nl +:+
  "Provide a concise analysis (3–5 sentences) that:" +:+ nl +:+
  "1. Identifies the core pain points" +:+ nl +:+
  "2. Notes any patterns (urgency, frequency, channel, severity)" +:+ nl +:+
  "3. Suggests one concrete, actionable recommendation" +:+ nl.

(** Build a prompt from the retrieved examples and call the LLM.  Beside
    the text and the mode, the prompts handed to [llm_client.complete]. *)
Definition _summarise (env : LlmClient.Env) (query : string)
    (examples : list cell) : result (string * string * list string) :=
  match examples with
  | [] => Ok ("No relevant complaints found for this query.", "no-key", [])
  | _ =>
      heads ← mapM example_head examples;
      let bullets := PyStr.join LlmClient.nl (map quoted_bullet heads) in
      let prompt := build_prompt query (length examples) bullets in
      let '(text, mode) := LlmClient.complete env prompt in
      Ok (text, mode, [prompt])
  end.

(** Retrieve relevant examples and return an analysis dict; beside it, the
    prompts handed to the completion client. *)
Definition handle (env : LlmClient.Env) (h : t) (query : string)
    : result (QueryResult * list string) :=
  '(examples, retrieval_info) ← _retrieve h query;
  '(summary, mode, calls) ← _summarise env query examples;
  Ok (mkResult summary None (Some (take 3 examples)) retrieval_info
        (Some mode) None, calls).

End QualHandler.

(** ** quant_handler.py *)

Module QuantHandler.

Import Frame.

(** What the handler takes from pandas and from floating point arithmetic.
    [to_datetime] is [pd.to_datetime] with [errors="coerce"] on one cell: the
    time stamp, or [None] for a date that does not parse.  [month_text] and
    [week_text] are the texts of the month and of the week of a time stamp;
    [missing_period] is what [astype(str)] makes of the period of a missing
    time stamp.  [percent a b] is the text of [a / b * 100] with one
    decimal, for [b] not zero. *)
Record Lib : Type := mkLib {
  to_datetime : cell -> option Z;
  month_text : Z -> string;
  week_text : Z -> string;
  missing_period : cell;
  percent : Z -> Z -> string
}.

Record t : Type := mkHandler {
  df : DataFrame;
  themes : DataFrame
}.

Definition date_cell (o : option Z) : cell :=
  match o with Some ts => Int ts | None => NA end.

Definition period_cell (L : Lib) (text : Z -> string) (o : option Z) : cell :=
  match o with Some ts => Str (text ts) | None => missing_period L end.

(** Pre-compute derived columns used by multiple methods. *)
Definition _prepare (L : Lib) (h : t) : t :=
  match col "date" (df h) with
  | Ok dates =>
      let parsed := map (to_datetime L) dates in
      let d1 := assign "_date" (map date_cell parsed) (df h) in
      let d2 := assign "_month" (map (period_cell L (month_text L)) parsed) d1 in
      let d3 := assign "_week" (map (period_cell L (week_text L)) parsed) d2 in
      mkHandler d3 (themes h)
  | Raise _ => h
  end.

(** [QuantHandler(cleaned_df, themes_df)] *)
Definition init (L : Lib) (cleaned_df themes_df : DataFrame) : t :=
  _prepare L (mkHandler cleaned_df themes_df).

Definition nl : string := LlmClient.nl.
Definition commas (n : Z) : string := PyStr.fmt_commas n.
Definition len (d : DataFrame) : Z := Z.of_nat (nrows d).

(** [a / b * 100] with one decimal *)
Definition pct (L : Lib) (a b : Z) : result string :=
  if (b =? 0)%Z then Raise ZeroDivisionError else Ok (percent L a b).

Definition quant_result (answer : string) (data : payload) (confidence : string)
    : QueryResult :=
  mkResult answer (Some data) None confidence None None.

Definition _count_query (L : Lib) (h : t) (q : string) : result QueryResult :=
  let total := len (df h) in
  extras1 ←
    (if PyStr.contains "theme" q && (0 <? len (themes h))%Z then
       top ← iloc0 (themes h);
       label ← series_get "label" top;
       c1 ← series_get "count" top;
       n1 ← py_int c1;
       c2 ← series_get "count" top;
       n2 ← py_int c2;
       share ← pct L n2 total;
       Ok ["The largest theme is **" +:+ cell_text label +:+ "** (" +:+
           commas n1 +:+ " complaints, " +:+ share +:+ "% of total)."]
     else Ok []);
  extras2 ←
    (if has_col "channel" (df h) then
       channel ← col "channel" (df h);
       let top_ch := value_counts channel in
       first ← ThemeExtractor.get top_ch 0;
       Ok ["Top channel: **" +:+ cell_text (fst first) +:+ "** (" +:+
           commas (snd first) +:+ " complaints)."]
     else Ok []);
  let extras := (extras1 ++ extras2)%list in
  let answer := "There are **" +:+ commas total +:+ "** complaints in the dataset." in
  let answer :=
    match extras with
    | [] => answer
    | _ => answer +:+ nl +:+ nl +:+ PyStr.join nl extras
    end in
  Ok (quant_result answer (Dict [(Str "total_complaints", Int total)])
        ("Based on all " +:+ commas total +:+ " rows")).

(** One line of the ranking: [row] is a row of [themes.itertuples()], and
    the line subscripts it with the names of the columns. *)
Definition theme_line (L : Lib) (h : t) (rank : nat)
    (row_index : nat) (row : list (string * cell)) : result string :=
  label ← tuple_get row_index row (ByName "label");
  c1 ← tuple_get row_index row (ByName "count");
  n1 ← py_int c1;
  c2 ← tuple_get row_index row (ByName "count");
  n2 ← py_int c2;
  share ← pct L n2 (len (df h));
  Ok ("  " +:+ PyStr.str_of_Z (Z.of_nat rank) +:+ ". **" +:+ cell_text label +:+
      "** — " +:+ commas n1 +:+ " complaints (" +:+ share +:+ "%)").

(** [df[[a, b, c]].to_dict(orient="records")] *)
Definition records_of (names : list string) (d : DataFrame)
    : result (list (list (string * cell))) :=
  cols ← mapM (fun n => v ← col n d; Ok (n, v)) names;
  Ok (rows (mkFrame (nrows d) cols)).

Definition _top_themes_query (L : Lib) (h : t) : result QueryResult :=
  lines ← mapM (fun '(i, row) => theme_line L h (S i) i row)
               (imap (fun i row => (i, row)) (rows (themes h)));
  recs ← records_of ["theme_id"; "label"; "count"] (themes h);
  Ok (quant_result
        ("**Top complaint themes (by volume):**" +:+ nl +:+ PyStr.join nl lines)
        (Records recs)
        ("Based on " +:+ commas (len (df h)) +:+ " complaints across " +:+
         PyStr.str_of_Z (len (themes h)) +:+ " themes")).

Definition _all_themes_query (L : Lib) (h : t) : result QueryResult :=
  _top_themes_query L h.

(** The lines and the payload of a break-down by the values of a column. *)
Definition breakdown (L : Lib) (h : t) (counts : list (cell * Z))
    : result (list string) :=
  mapM (fun '(k, v) =>
          share ← pct L v (len (df h));
          Ok ("  - **" +:+ cell_text k +:+ "**: " +:+ commas v +:+
              " (" +:+ share +:+ "%)")) counts.

Definition counts_dict (counts : list (cell * Z)) : payload :=
  Dict (map (fun '(k, v) => (k, Int v)) counts).

Definition not_found (answer : string) : QueryResult :=
  quant_result answer (Dict []) "N/A".

Definition _channel_query (L : Lib) (h : t) : result QueryResult :=
  if negb (has_col "channel" (df h)) then
    Ok (not_found "No `channel` column found in the dataset.")
  else
    channel ← col "channel" (df h);
    let ch := value_counts channel in
    lines ← breakdown L h ch;
    Ok (quant_result
          ("**Complaints by channel:**" +:+ nl +:+ PyStr.join nl lines)
          (counts_dict ch)
          ("Based on " +:+ commas (len (df h)) +:+ " complaints")).

Definition trend_line (group : cell * Z) : string :=
  "  - **" +:+ cell_text (fst group) +:+ "**: " +:+ commas (snd group).

Definition trend_record (group : cell * Z) : list (string * cell) :=
  [("period", fst group); ("count", Int (snd group))].

Definition _trend_query (L : Lib) (h : t) (q : string) : result QueryResult :=
  if negb (has_col "_month" (df h)) then
    Ok (not_found "No `date` column found — trend analysis unavailable.")
  else
    let period_col := if PyStr.contains "week" q then "_week" else "_month" in
    keys ← col period_col (df h);
    let trend := groupby_size keys in
    let label := if String.eqb period_col "_week" then "weekly" else "monthly" in
    Ok (quant_result
          ("**Complaint trend (" +:+ label +:+ "):**" +:+ nl +:+
           PyStr.join nl (map trend_line trend))
          (Records (map trend_record trend))
          ("Based on " +:+ commas (len (df h)) +:+ " complaints across " +:+
           PyStr.str_of_Z (Z.of_nat (length trend)) +:+ " " +:+ label +:+
           " periods")).

Definition _severity_query (L : Lib) (h : t) : result QueryResult :=
  if negb (has_col "severity" (df h)) then
    Ok (not_found "No `severity` column found in the dataset.")
  else
    severity ← col "severity" (df h);
    let sv := value_counts severity in
    lines ← breakdown L h sv;
    Ok (quant_result
          ("**Complaints by severity:**" +:+ nl +:+ PyStr.join nl lines)
          (counts_dict sv)
          ("Based on " +:+ commas (len (df h)) +:+ " complaints")).

(** [name.replace("_", " ")] *)
Fixpoint spaced (name : string) : string :=
  match name with
  | EmptyString => EmptyString
  | String c r => String (if Ascii.eqb c "_" then " "%char else c) (spaced r)
  end.

Definition _product_query (L : Lib) (h : t) : result QueryResult :=
  match List.find (fun c => has_col c (df h))
          ["product_category"; "product"; "category"] with
  | None => Ok (not_found "No product/category column found in the dataset.")
  | Some name =>
      values ← col name (df h);
      let pc := value_counts values in
      lines ← breakdown L h pc;
      Ok (quant_result
            ("**Complaints by " +:+ spaced name +:+ ":**" +:+ nl +:+
             PyStr.join nl lines)
            (counts_dict pc)
            ("Based on " +:+ commas (len (df h)) +:+ " complaints"))
  end.

Definition _general_stats (L : Lib) (h : t) : result QueryResult :=
  let total := len (df h) in
  let lines0 := ["**Dataset summary:** " +:+ commas total +:+ " complaints loaded."] in
  lines1 ←
    (if (0 <? len (themes h))%Z then
       top ← iloc0 (themes h);
       label ← series_get "label" top;
       c ← series_get "count" top;
       n ← py_int c;
       Ok ["Top theme: **" +:+ cell_text label +:+ "** (" +:+ commas n +:+
           " complaints)."]
     else Ok []);
  lines2 ←
    (if has_col "channel" (df h) then
       channel ← col "channel" (df h);
       first ← ThemeExtractor.get (value_counts channel) 0;
       Ok ["Top channel: **" +:+ cell_text (fst first) +:+ "** (" +:+
           commas (snd first) +:+ ")."]
     else Ok []);
  lines3 ←
    (if has_col "severity" (df h) then
       severity ← col "severity" (df h);
       let high := mask_sum (eq_mask (Str "high") severity) in
       share ← pct L high total;
       Ok ["High-severity complaints: **" +:+ commas high +:+ "** (" +:+
           share +:+ "%)."]
     else Ok []);
  Ok (quant_result (PyStr.join nl (lines0 ++ lines1 ++ lines2 ++ lines3)%list)
        (Dict [(Str "total", Int total)])
        ("Based on " +:+ commas total +:+ " rows")).

(** The patterns of the dispatch, in the order they are tried. *)
Definition count_re : Re.regex :=
  Re.alts [Re.word "how many"; Re.word "total"; Re.word "count";
           Re.word "number of"].
Definition top_themes_re : Re.regex :=
  Re.alts [Re.word_start "top theme"; Re.word_start "biggest theme";
           Re.word_start "most common theme"; Re.word "largest theme"].
Definition themes_re : Re.regex :=
  Re.alts [Re.word_start "theme"; Re.word_start "cluster";
           Re.word_start "topic"; Re.word "segment"].
Definition channel_re : Re.regex :=
  Re.alts [Re.word_start "channel"; Re.word_start "email";
           Re.word_start "phone"; Re.word_start "chat"; Re.word "social"].
Definition trend_re : Re.regex :=
  Re.alts [Re.word_start "trend"; Re.word_start "month"; Re.word_start "week";
           Re.word_start "over time"; Re.word "time series"].
Definition severity_re : Re.regex :=
  Re.alts [Re.word_start "severity"; Re.word_start "high";
           Re.word_start "critical"; Re.word_start "urgent"; Re.word "low"].
Definition product_re : Re.regex :=
  Re.alts [Re.word_start "product"; Re.word_start "category";
           Re.word_start "mortgage"; Re.word_start "loan";
           Re.word "credit card"].

(** Route a quantitative query and return a result dict. *)
Definition handle (L : Lib) (h : t) (query : string) : result QueryResult :=
  let q := PyStr.lower query in
  if Re.search false count_re q then _count_query L h q
  else if Re.search false top_themes_re q then _top_themes_query L h
  else if Re.search false themes_re q then _all_themes_query L h
  else if Re.search false channel_re q then _channel_query L h
  else if Re.search false trend_re q then _trend_query L h q
  else if Re.search false severity_re q then _severity_query L h
  else if Re.search false product_re q then _product_query L h
  else _general_stats L h.

End QuantHandler.
(** ** router.py: the intent classifier *)

Module Router.

Import Re.

(** Keywords that signal a quantitative query *)
Definition _QUANT_PATTERNS : list regex :=
  [ word "how many"; word "how much"; word "total"; word "count";
    word "number of"; word "percentage"; word "percent"; word "rate";
    word "frequency"; word "distribution"; word "breakdown"; word "trend";
    seq [Bnd; lit "top "; StarC Digit; StarC Space; lit "theme"];
    word "most common"; word "largest"; word "highest";
    word "lowest"; word "average"; word "mean"; word "median";
    word "by channel"; word "by month"; word "by week";
    word "by product"; word "by severity"; word "which channel";
    word "which product"; word "over time"; word "time series" ].

(** Keywords that signal a qualitative query *)
Definition _QUAL_PATTERNS : list regex :=
  [ word "why"; word "what are customers saying"; word "describe";
    word "summarise"; word "summarize"; word "examples";
    word "show me examples"; word "what kind of"; word "explain";
    word "issues with"; word "complaints about"; word "feelings";
    word "sentiment"; word "pain point"; word "what is wrong";
    word "what do customers"; word "what are the main" ].

Definition _QUANT_RE : regex := alts _QUANT_PATTERNS.
Definition _QUAL_RE : regex := alts _QUAL_PATTERNS.

(** The words of the tie-break. *)
Definition signal_words : list string :=
  ["how"; "many"; "count"; "total"; "top"; "which"; "show"].

(** [\b(how|many|count|total|top|which|show)\b] *)
Definition tie_break_re : regex :=
  Seq Bnd (Seq (alts (map lit signal_words)) Bnd).

Definition classify (query : string) : string :=
  let quant_hits := findall_count true _QUANT_RE query in
  let qual_hits := findall_count true _QUAL_RE query in
  if (qual_hits <? quant_hits)%nat then "quant"
  else if (quant_hits <? qual_hits)%nat then "qual"
  else if search true tie_break_re query then "quant"
  else "qual".

Record t : Type := mkRouter {
  quant : QuantHandler.t;
  qual : QualHandler.t
}.

(** [Router(cleaned_df, themes_df)] *)
Definition init (L : QuantHandler.Lib) (cleaned_df themes_df : Frame.DataFrame) : t :=
  mkRouter (QuantHandler.init L cleaned_df themes_df)
           (QualHandler.init cleaned_df themes_df).

Definition set_query_type (r : QueryResult) (v : string) : QueryResult :=
  mkResult (answer r) (data r) (examples r) (confidence r) (llm_mode r) (Some v).

(** Route [query] and return a result dict with [query_type] added. *)
Definition answer (L : QuantHandler.Lib) (env : LlmClient.Env) (r : t)
    (query : string) : result QueryResult :=
  let qtype := classify query in
  if String.eqb qtype "quant" then
    result ← QuantHandler.handle L (quant r) query;
    Ok (set_query_type result "quantitative")
  else
    '(result, _) ← QualHandler.handle env (qual r) query;
    Ok (set_query_type result "qualitative").

End Router.

(** ** main.py of the analyzer: the display and the chat *)

Module Main.

Import PyStr.

Definition nl : string := LlmClient.nl.

Definition _WELCOME : string :=
  "╔══════════════════════════════════════════════════════════════╗" +:+ nl +:+
  "║    CX Case Study — AI + Data Analyzer  (Assignment 2)       ║" +:+ nl +:+
  "╚══════════════════════════════════════════════════════════════╝" +:+ nl +:+
  nl +:+
  "Ask any question about customer complaints and press Enter." +:+ nl +:+
  "Commands: :quit  :help  :examples  :mode" +:+ nl.

(** The rule that frames the help text. *)
Definition rule : string :=
  "─────────────────────────────────────────────────────────────".

Definition _HELP : string :=
  rule +:+ nl +:+
  "EXAMPLE QUESTIONS" +:+ nl +:+
  rule +:+ nl +:+
  "Quantitative (counts, distributions, trends):" +:+ nl +:+
  "  1.  How many complaints are there in total?" +:+ nl +:+
  "  2.  What are the top complaint themes?" +:+ nl +:+
  "  3.  How many complaints came through the phone channel?" +:+ nl +:+
  "  4.  Show me the monthly complaint trend" +:+ nl +:+
  "  5.  What percentage of complaints are high severity?" +:+ nl +:+
  "  6.  Which product category has the most complaints?" +:+ nl +:+
  nl +:+
  "Qualitative (analysis of content and root causes):" +:+ nl +:+
  "  7.  Why are customers frustrated with the mobile app?" +:+ nl +:+
  "  8.  Summarise complaints about billing and fees" +:+ nl +:+
  "  9.  What are customers saying about customer service?" +:+ nl +:+
  "  10. Describe the main issues with account access" +:+ nl +:+
  "  11. Show me examples of transaction problems" +:+ nl +:+
  "  12. What is wrong with the loan application process?" +:+ nl +:+
  rule +:+ nl.

(** One line of the examples: the example, cut at 130 characters with an
    ellipsis when it is longer. *)
Definition example_line (ex : cell) : result string :=
  match ex with
  | Str s =>
      Ok ("  • " +:+ (if (130 <? len s)%nat then upto 130 s +:+ "…" else s))
  | _ => Raise TypeError
  end.

(** Format a result dict for terminal display. *)
Definition _fmt (r : QueryResult) : result string :=
  let qtype := upper (default "?" (query_type r)) in
  let lines := [nl +:+ "[" +:+ qtype +:+ "]"; answer r] in
  shown ←
    match examples r with
    | None | Some [] => Ok []
    | Some exs =>
        l ← mapM example_line (take 2 exs);
        Ok ((nl +:+ "Top retrieved examples:") :: l)
    end;
  let footer_parts :=
    ((if is_empty (confidence r) then [] else ["Confidence: " +:+ confidence r]) ++
     match llm_mode r with
     | Some mode => if is_empty mode then [] else ["Mode: " +:+ mode]
     | None => []
     end)%list in
  let footer :=
    match footer_parts with
    | [] => []
    | _ => [nl +:+ join " | " footer_parts]
    end in
  Ok (join nl (lines ++ shown ++ footer ++ [EmptyString])%list).

(** How one turn of the loop of the chat ends: it goes on, it leaves the
    loop, or an exception leaves [_run_chat]; with what the turn printed. *)
Inductive turn_end : Type :=
| Continue (printed : list string)
| Break (printed : list string)
| Propagate (e : exn).

(** The body of the loop, on the line that [input] returns. *)
Definition turn (L : QuantHandler.Lib) (env : LlmClient.Env) (router : Router.t)
    (line : string) : turn_end :=
  let user_input := strip line in
  if is_empty user_input then Continue []
  else if bool_decide (user_input ∈ [":quit"; ":exit"; "quit"; "exit"])
  then Break ["Goodbye!"]
  else if bool_decide (user_input ∈ [":help"; "help"; ":examples"; "examples"])
  then Continue [_HELP]
  else if String.eqb user_input ":mode"
  then Continue ["  Current mode: " +:+ (LlmClient.complete env "ping").2 +:+ nl]
  else
    match result ← Router.answer L env router user_input; _fmt result with
    | Ok text => Continue [text]
    | Raise e => Propagate e
    end.

(** The loop, on the lines typed.  After the last of them [input] raises
    EOFError, which the loop catches, as it would an interrupt from the
    keyboard.  The result is what [print] wrote, the prompt of [input]
    apart, and the exception that left the loop, if one did. *)
Fixpoint chat_loop (L : QuantHandler.Lib) (env : LlmClient.Env) (router : Router.t)
    (lines : list string) : list string * option exn :=
  match lines with
  | [] => ([nl +:+ "Goodbye!"], None)
  | line :: rest =>
      match turn L env router line with
      | Continue printed =>
          let '(more, e) := chat_loop L env router rest in
          ((printed ++ more)%list, e)
      | Break printed => (printed, None)
      | Propagate e => ([], Some e)
      end
  end.

(** Detect and announce LLM mode *)
Definition mode_notice (mode : string) : string :=
  if String.eqb mode "no-key" then
    "  ⚠  NO-KEY MODE  —  No API key found. Answers use rule-based summaries." +:+ nl +:+
    "     To enable AI analysis: export OPENAI_API_KEY=... " +:+
    "or ANTHROPIC_API_KEY=..." +:+ nl
  else "  ✓  LLM mode: " +:+ mode +:+ nl.

Definition _run_chat (L : QuantHandler.Lib) (env : LlmClient.Env) (router : Router.t)
    (lines : list string) : list string * option exn :=
  let mode := (LlmClient.complete env "ping").2 in
  let '(printed, e) := chat_loop L env router lines in
  (_WELCOME :: mode_notice mode :: printed, e).

End Main.


(** * Vocabulary of the statements *)

(** ** The intent classifier *)

Section ClassifierVocabulary.

Import Re Router.

(** The counts as the specification words them: a pattern counts once when
    it matches somewhere in the question, whatever the other patterns do. *)
Definition pattern_hits (patterns : list regex) (query : string) : nat :=
  length (filter (fun p => search true p query = true) patterns).

Definition classify_by_pattern_hits (query : string) : string :=
  let quant_hits := pattern_hits _QUANT_PATTERNS query in
  let qual_hits := pattern_hits _QUAL_PATTERNS query in
  if (qual_hits <? quant_hits)%nat then "quant"
  else if (quant_hits <? qual_hits)%nat then "qual"
  else if search true tie_break_re query then "quant"
  else "qual".

(** The character before the text that follows [pre], for [prev] the one
    before [pre]. *)
Fixpoint last_char (prev : option ascii) (pre : string) : option ascii :=
  match pre with
  | EmptyString => prev
  | String c r => last_char (Some c) r
  end.

(** [w] stands in [query] as a whole word, in any case of its letters: the
    character before it, if any, and the character after it, if any, are
    not word characters. *)
Definition has_word (w : string) (query : string) : Prop :=
  exists pre mid post,
    query = pre +:+ mid +:+ post /\
    PyStr.lower mid = w /\
    is_word_opt (last_char None pre) = false /\
    is_word_opt (head post) = false.

Definition has_signal_word (query : string) : Prop :=
  exists w, w ∈ signal_words /\ has_word w query.

(** What a literal takes from the text: the character before the rest, and
    the rest. *)
Fixpoint eat (ic : bool) (w : string) (prev : option ascii) (s : string)
    : option (option ascii * string) :=
  match w with
  | EmptyString => Some (prev, s)
  | String c w' =>
      match s with
      | String c' s' => if chr_eq ic c c' then eat ic w' (Some c') s' else None
      | EmptyString => None
      end
  end.

(** The pattern takes at least one character whenever it matches. *)
Fixpoint consumes (r : regex) : bool :=
  match r with
  | Chr _ => true
  | Seq a b => consumes a || consumes b
  | Alt a b => consumes a && consumes b
  | _ => false
  end.

Fixpoint all_lower (w : string) : bool :=
  match w with
  | EmptyString => true
  | String c r => PyStr.is_lower c && all_lower r
  end.

(** Two continuations of the matcher that agree up to the case of the
    text they are handed. *)
Definition lowered (next next' : cont) : Prop :=
  forall p t, next' (PyStr.lower_char <$> p) (PyStr.lower t) = PyStr.lower <$> next p t.

(** [s.isascii()]: the text is written in the 128 ASCII characters, the
    range on which [PyStr.lower] and the matcher fold the case of the
    letters as Python does. *)
Fixpoint isascii (s : string) : bool :=
  match s with
  | EmptyString => true
  | String c r => (PyStr.code c <? 128)%N && isascii r
  end.

End ClassifierVocabulary.

(** ** The theme extraction driver *)

Section ExtractionVocabulary.

Import Frame ThemeExtractor.

Variable analyze : string -> list string.
Variable Matrix : Type.
Variable tfidf : Z -> list string -> list string -> list string * Matrix.
Variable kmeans : Z -> Z -> Matrix -> result (list Z * list (list nat)).

(** The number of labels equal to [i]. *)
Definition occurrences (i : Z) (labels : list Z) : Z :=
  Z.of_nat (length (filter (fun l => l = i) labels)).

(** The cluster count in use after the guard on the number of documents. *)
Definition effective (n : nat) (n_themes : Z) : Z :=
  if (Z.of_nat n <? n_themes)%Z then Z.max 2 (Z.of_nat n / 2) else n_themes.

Definition warning (n : nat) (n_themes : Z) : list event :=
  if (Z.of_nat n <? n_themes)%Z then [LogWarning n (effective n n_themes)] else [].

(** What the loop makes of cluster [i] when the labels are [ids]. *)
Definition record_of (ids : list cell) (i : nat) (r : ThemeRecord) : Prop :=
  theme_id r = Z.of_nat i /\
  count r = mask_sum (eq_mask (Int (Z.of_nat i)) ids).

(** The ways a run of [extract_themes] can go, with what each leaves in
    the frame and in the trace. *)
Inductive run_shape (st : state) (text_col : string)
    (n_themes seed max_features : Z) : state -> result (list ThemeRecord) -> Prop :=
| NoTextColumn e :
    col text_col (df st) = Raise e ->
    run_shape st text_col n_themes seed max_features st (Raise e)
| NotVectorized column st' e :
    col text_col (df st) = Ok column ->
    (forall docs, mapM doc_of_cell (fillna (Str EmptyString) column) = Ok docs ->
       fit_transform analyze Matrix tfidf max_features docs = Raise e) ->
    df st' = df st ->
    trace st' =
      (trace st ++ warning (length column) n_themes ++
         [CallFitTransform (length column)])%list ->
    run_shape st text_col n_themes seed max_features st' (Raise e)
| NotClustered column docs fn X st' e :
    col text_col (df st) = Ok column ->
    mapM doc_of_cell (fillna (Str EmptyString) column) = Ok docs ->
    fit_transform analyze Matrix tfidf max_features docs = Ok (fn, X) ->
    df st' = df st ->
    trace st' =
      (trace st ++ warning (length column) n_themes ++
         [CallFitTransform (length column);
          CallKMeans (effective (length column) n_themes) (length column)])%list ->
    run_shape st text_col n_themes seed max_features st' (Raise e)
| Clustered column docs fn X labels oc st' r :
    col text_col (df st) = Ok column ->
    mapM doc_of_cell (fillna (Str EmptyString) column) = Ok docs ->
    fit_transform analyze Matrix tfidf max_features docs = Ok (fn, X) ->
    kmeans (effective (length column) n_themes) seed X = Ok (labels, oc) ->
    set_col "theme_id" (map Int labels) (df st) = Ok (df st') ->
    (exists tail,
       trace st' =
         (trace st ++ warning (length column) n_themes ++
            [CallFitTransform (length column);
             CallKMeans (effective (length column) n_themes) (length column)] ++
            tail)%list /\
       forall k n, CallKMeans k n ∉ tail) ->
    (forall themes, r = Ok themes ->
       exists records,
         Forall2 (record_of (map Int labels))
           (seq 0 (Z.to_nat (effective (length column) n_themes))) records /\
         themes ≡ₚ records) ->
    run_shape st text_col n_themes seed max_features st' r.

(** What one turn of the loop over the cluster ids puts in its record, on
    the frame [d]: the label of the top terms of the cluster, these terms,
    the number of documents of the cluster and the first three of them. *)
Definition record_from (text_col : string) (ntop : Z) (fn : list string)
    (oc : list (list nat)) (d : DataFrame) (i : nat) (rec : ThemeRecord) : Prop :=
  exists order top_kw ids texts shown,
    oc !! i = Some order /\
    mapM (ThemeExtractor.get fn) (slice_to ntop order) = Ok top_kw /\
    col "theme_id" d = Ok ids /\
    col text_col d = Ok texts /\
    map Str shown = take 3 (select (eq_mask (Int (Z.of_nat i)) ids) texts) /\
    rec = mkTheme (Z.of_nat i) (_auto_label top_kw)
            (mask_sum (eq_mask (Int (Z.of_nat i)) ids))
            (PyStr.join ", " top_kw) (PyStr.join " | " shown).

End ExtractionVocabulary.

(** ** The handlers *)

Section HandlerVocabulary.

Import Frame.

(** The conditions under which the dispatch reaches the channel query. *)
Definition routed_to_channel (query : string) : Prop :=
  let q := PyStr.lower query in
  Re.search false QuantHandler.count_re q = false /\
  Re.search false QuantHandler.top_themes_re q = false /\
  Re.search false QuantHandler.themes_re q = false /\
  Re.search false QuantHandler.channel_re q = true.

(** The conditions under which the dispatch reaches the trend query. *)
Definition routed_to_trend (query : string) : Prop :=
  let q := PyStr.lower query in
  Re.search false QuantHandler.count_re q = false /\
  Re.search false QuantHandler.top_themes_re q = false /\
  Re.search false QuantHandler.themes_re q = false /\
  Re.search false QuantHandler.channel_re q = false /\
  Re.search false QuantHandler.trend_re q = true.

(** The result of the trend query for the groups [trend]. *)
Definition trend_result (label : string) (trend : list (cell * Z)) (total : Z)
    : QueryResult :=
  QuantHandler.quant_result
    ("**Complaint trend (" +:+ label +:+ "):**" +:+ QuantHandler.nl +:+
     PyStr.join QuantHandler.nl (map QuantHandler.trend_line trend))
    (Records (map QuantHandler.trend_record trend))
    ("Based on " +:+ QuantHandler.commas total +:+ " complaints across " +:+
     PyStr.str_of_Z (Z.of_nat (length trend)) +:+ " " +:+ label +:+ " periods").

(** The number of cells of [keys] equal to [k]. *)
Definition cells_equal (k : cell) (keys : list cell) : Z :=
  Z.of_nat (length (filter (fun c => c = k) keys)).

(** The questions that the router sends to the quantitative handler and
    that the handler sends to one of its two theme queries. *)
Definition routed_to_themes (query : string) : Prop :=
  let q := PyStr.lower query in
  Router.classify query = "quant" /\
  Re.search false QuantHandler.count_re q = false /\
  (Re.search false QuantHandler.top_themes_re q = true \/ Re.search false QuantHandler.themes_re q = true).




(** The queries of the quantitative handler. *)
Inductive query_kind : Type :=
| CountQuery
| TopThemesQuery
| AllThemesQuery
| ChannelQuery
| TrendQuery
| SeverityQuery
| ProductQuery
| GeneralStats.

(** The query that the dispatch of the quantitative handler picks for a
    question: the first whose pattern matches the question in lower case,
    and the general summary when none does. *)
Definition dispatch (query : string) : query_kind :=
  let q := PyStr.lower query in
  if Re.search false QuantHandler.count_re q then CountQuery
  else if Re.search false QuantHandler.top_themes_re q then TopThemesQuery
  else if Re.search false QuantHandler.themes_re q then AllThemesQuery
  else if Re.search false QuantHandler.channel_re q then ChannelQuery
  else if Re.search false QuantHandler.trend_re q then TrendQuery
  else if Re.search false QuantHandler.severity_re q then SeverityQuery
  else if Re.search false QuantHandler.product_re q then ProductQuery
  else GeneralStats.

(** The names of the columns that the quantitative handler derives from
    the dates. *)
Definition derived_columns : list string := ["_date"; "_month"; "_week"].

(** The label of a row of the theme table shares a word with the
    question. *)
Definition label_matches (q_lower : string) (row : list (string * cell)) : Prop :=
  exists label,
    tuple_attr row "label" = Ok label /\
    QualHandler.word_set (PyStr.lower (cell_text label)) ∩
      QualHandler.word_set q_lower ≠ ∅.

(** The row has a label, and it shares no word with the question. *)
Definition label_misses (q_lower : string) (row : list (string * cell)) : Prop :=
  exists label,
    tuple_attr row "label" = Ok label /\
    QualHandler.word_set (PyStr.lower (cell_text label)) ∩
      QualHandler.word_set q_lower = ∅.

(** The rows of [d] whose theme id is the one of the row [row] of the
    theme table. *)
Definition rows_of_theme (d : DataFrame) (row : list (string * cell))
    : result DataFrame :=
  ids ← col "theme_id" d;
  theme_id ← tuple_attr row "theme_id";
  Ok (filter_rows (eq_mask theme_id ids) d).

(** [s] is made of word characters. *)
Fixpoint all_word (s : string) : bool :=
  match s with
  | EmptyString => true
  | String c r => PyStr.is_word c && all_word r
  end.

(** [s] holds a line boundary of [str.splitlines]. *)
Fixpoint has_linebreak (s : string) : bool :=
  match s with
  | EmptyString => false
  | String c r => PyStr.is_linebreak c || has_linebreak r
  end.

(** [s] with the character [c] after it. *)
Definition snoc (s : string) (c : ascii) : string := s +:+ String c EmptyString.

(** [d'] has the columns of [d], and each of its columns is made of cells
    of the column of [d] of that name. *)
Definition selection_of (d' d : DataFrame) : Prop :=
  forall name,
    match lookup_col name (columns d) with
    | Some v =>
        exists v', lookup_col name (columns d') = Some v' /\ forall c, c ∈ v' -> c ∈ v
    | None => lookup_col name (columns d') = None
    end.

(** A cell of a column of texts: a text, or missing. *)
Definition text_or_missing (c : cell) : Prop := c = NA \/ exists s, c = Str s.

(** The theme table is fit for the sentence about the top theme: it has one
    cell per row, and it is empty or has a label for each theme and an
    integer count. *)
Definition themes_ready (themes_df : DataFrame) : Prop :=
  wf themes_df /\
  ((0 < nrows themes_df)%nat ->
   has_col "label" themes_df = true /\
   exists counts, col "count" themes_df = Ok counts /\
     Forall (fun c => exists z, c = Int z) counts).

(** The channel column, when there is one, names a channel on some row. *)
Definition channel_ready (cleaned_df : DataFrame) : Prop :=
  forall channel, col "channel" cleaned_df = Ok channel ->
    exists c, c ∈ channel /\ c <> NA.

(** The dataset and the theme table are fit for the quantitative queries:
    the dataset has a row, one cell per row, a channel column, if any, that
    names a channel, and no column [_month] of its own without a date
    column; the theme table is fit for the sentence about the top
    theme. *)
Definition quant_ready (cleaned_df themes_df : DataFrame) : Prop :=
  wf cleaned_df /\
  (0 < nrows cleaned_df)%nat /\
  themes_ready themes_df /\
  channel_ready cleaned_df /\
  (has_col "date" cleaned_df = true \/ has_col "_month" cleaned_df = false).

(** The dataset and the theme table are fit for the retrieval: the theme
    table has the columns label and theme_id, the dataset has the column
    theme_id, and the text columns that the handler reads hold a text on
    every row. *)
Definition qual_ready (cleaned_df themes_df : DataFrame) : Prop :=
  has_col "label" themes_df = true /\
  has_col "theme_id" themes_df = true /\
  has_col "theme_id" cleaned_df = true /\
  (exists texts,
     col (QualHandler._text_col (QualHandler.init cleaned_df themes_df))
       cleaned_df = Ok texts /\
     Forall (fun c => exists s, c = Str s) texts) /\
  (forall v, col "text_clean" cleaned_df = Ok v ->
     Forall (fun c => exists s, c = Str s) v).

End HandlerVocabulary.

(** ** The offline fallback *)

Section FallbackVocabulary.

(** Every character of [s] is one of [p]. *)
Fixpoint all_in (p : ascii -> bool) (s : string) : bool :=
  match s with
  | EmptyString => true
  | String c r => p c && all_in p r
  end.

(** [s] starts with a character of [p]. *)
Definition head_in (p : ascii -> bool) (s : string) : bool :=
  match s with
  | EmptyString => false
  | String c _ => p c
  end.

(** [s] ends with a character of [p]. *)
Fixpoint last_in (p : ascii -> bool) (s : string) : bool :=
  match s with
  | EmptyString => false
  | String c EmptyString => p c
  | String _ r => last_in p r
  end.

(** [t] is [s] without the characters of [p] at its two ends: what is cut
    off is made of such characters, and what is left neither starts nor
    ends with one. *)
Definition stripped_of (p : ascii -> bool) (s t : string) : Prop :=
  exists pre post,
    s = pre +:+ t +:+ post /\
    all_in p pre = true /\ all_in p post = true /\
    head_in p t = false /\ last_in p t = false.

(** [t] is [s] without the characters of [p] at its start. *)
Definition lstripped_of (p : ascii -> bool) (s t : string) : Prop :=
  exists pre, s = pre +:+ t /\ all_in p pre = true /\ head_in p t = false.

(** A dash or a double quote. *)
Definition is_mark (c : ascii) : bool :=
  Ascii.eqb PyStr.dash c || Ascii.eqb PyStr.dquote c.

(** The line starts, the white space before it apart, with a dash or a
    double quote. *)
Definition marked (line : string) : Prop :=
  exists s, stripped_of PyStr.is_space line s /\ head_in is_mark s = true.

(** The line, the white space before it apart, is empty or starts with
    another character. *)
Definition unmarked (line : string) : Prop :=
  exists s, stripped_of PyStr.is_space line s /\ head_in is_mark s = false.

(** The content of a line: what is left of it once the white space
    around it, the dashes before it, the white space around the rest, the
    double quotes around that and the white space inside them are taken
    off, in this order. *)
Definition content_of (line content : string) : Prop :=
  exists s1 s2 s3 s4,
    stripped_of PyStr.is_space line s1 /\
    lstripped_of (Ascii.eqb PyStr.dash) s1 s2 /\
    stripped_of PyStr.is_space s2 s3 /\
    stripped_of (Ascii.eqb PyStr.dquote) s3 s4 /\
    stripped_of PyStr.is_space s4 content.

(** [contents] are the contents of the lines that are marked and whose
    content is longer than 15 characters, in the order of the lines. *)
Inductive bulleted : list string -> list string -> Prop :=
| bulleted_nil : bulleted [] []
| bulleted_unmarked line lines contents :
    unmarked line -> bulleted lines contents ->
    bulleted (line :: lines) contents
| bulleted_short line lines content contents :
    content_of line content -> (PyStr.len content <= 15)%nat ->
    bulleted lines contents ->
    bulleted (line :: lines) contents
| bulleted_long line lines content contents :
    marked line -> content_of line content -> (15 < PyStr.len content)%nat ->
    bulleted lines contents ->
    bulleted (line :: lines) (content :: contents).

End FallbackVocabulary.

(** * Sample inputs *)

Module Sample.

Import Frame.

(** A stand-in for scikit-learn: the analyzer splits on white space, the
    matrix is kept as its two dimensions, and the clustering deals the
    documents to the clusters in turn, ranking the features by their
    index. *)
Definition analyze (doc : string) : list string := PyStr.split doc.

Definition tfidf (max_features : Z) (terms texts : list string)
    : list string * (nat * nat) :=
  (terms, (length texts, length terms)).

Definition kmeans (n_clusters seed : Z) (X : nat * nat)
    : result (list Z * list (list nat)) :=
  if (n_clusters <=? 0)%Z then Raise (ValueError "n_clusters")
  else if (Z.of_nat (fst X) <? n_clusters)%Z then Raise (ValueError "n_samples")
  else Ok (map (fun i => (Z.of_nat i mod n_clusters)%Z) (seq 0 (fst X)),
           replicate (Z.to_nat n_clusters) (seq 0 (snd X))).

Definition extract_themes :=
  ThemeExtractor.extract_themes analyze (nat * nat) tfidf kmeans.

(** Three cleaned complaints. *)
Definition complaints : DataFrame :=
  mkFrame 3
    [("complaint_text",
      [Str "The app crashes at login"; Str "I was charged a late fee twice";
       Str "App login fails after update"]);
     ("date", [Str "2024-01-03"; Str "not a date"; Str "2024-02-09"]);
     ("text_clean",
      [Str "the app crashes at login"; Str "i was charged a late fee twice";
       Str "app login fails after update"])].

(** The same complaints with a column theme_id from an earlier run. *)
Definition labelled : DataFrame :=
  mkFrame 3 (columns complaints ++ [("theme_id", [Int 7; Int 7; Int 7])]).

Definition run (d : DataFrame) :=
  extract_themes "text_clean" 5 42 10 3000 (ThemeExtractor.mkState d []).

(** The records that the run on the three complaints returns. *)
Definition extracted : list ThemeExtractor.ThemeRecord :=
  [ ThemeExtractor.mkTheme 0 "App & Login Issues" 2 "app, login"
      "the app crashes at login | app login fails after update";
    ThemeExtractor.mkTheme 1 "App & Login Issues" 1 "app, login"
      "i was charged a late fee twice" ].

(** The theme table of the three complaints, as the analyzer loads it. *)
Definition themes : DataFrame :=
  mkFrame 2
    [("theme_id", [Int 0; Int 1]);
     ("label", [Str "App & Login Issues"; Str "Billing & Fee Disputes"]);
     ("count", [Int 2; Int 1])].

(** A stand-in for pandas on the dates of the sample: a time stamp is a
    day of 2024, a missing period is rendered as the text NaT, as pandas 1
    and 2 render it. *)
Definition lib : QuantHandler.Lib :=
  QuantHandler.mkLib
    (fun c =>
       match c with
       | Str s =>
           if PyStr.startswith "2024-01-03" s then Some 3%Z
           else if PyStr.startswith "2024-02-09" s then Some 40%Z
           else None
       | _ => None
       end)
    (fun ts => if (ts <? 32)%Z then "2024-01" else "2024-02")
    (fun ts => if (ts <? 8)%Z then "2024-01-01/2024-01-07"
               else "2024-02-05/2024-02-11")
    (Str "NaT")
    (fun a b => PyStr.str_of_Z (a * 1000 / b / 10) +:+ "." +:+
                PyStr.str_of_Z ((a * 1000 / b) mod 10)).

(** No key is set: the client is offline. *)
Definition env : LlmClient.Env :=
  LlmClient.mkEnv EmptyString EmptyString
    (fun _ => inr "no key") (fun _ => inr "no key").

Definition router : Router.t := Router.init lib complaints themes.

(** One complaint alone. *)
Definition single : DataFrame :=
  mkFrame 1 [("text_clean", [Str "the app crashes at login"])].


(** A double quote, and a prompt with three quoted examples and one line
    too short to count. *)
Definition quote : string := String PyStr.dquote EmptyString.

Definition three_bullets : string :=
  "Question: why?" +:+ LlmClient.nl +:+
  "- " +:+ quote +:+ "The app crashes at login" +:+ quote +:+ LlmClient.nl +:+
  " - " +:+ quote +:+ " I was charged a late fee twice" +:+ quote +:+ " " +:+
    LlmClient.nl +:+
  "- short" +:+ LlmClient.nl +:+
  quote +:+ "App login fails after update" +:+ quote +:+ LlmClient.nl.

(** The run on the three complaints with two themes asked for. *)
Definition run_two :=
  extract_themes "text_clean" 2 42 10 3000 (ThemeExtractor.mkState complaints []).

(** A dataset with no row, and a theme table with none. *)
Definition empty : DataFrame :=
  mkFrame 0 [("text_clean", []); ("channel", []); ("severity", [])].

Definition no_themes : DataFrame :=
  mkFrame 0 [("theme_id", []); ("label", []); ("count", [])].

(** Four complaints with their channel, which one of them lacks. *)
Definition channels : DataFrame :=
  mkFrame 4
    [("text_clean",
      [Str "the app crashes at login"; Str "i was charged a late fee twice";
       Str "app login fails after update"; Str "my card was declined abroad"]);
     ("channel", [Str "phone"; Str "email"; NA; Str "phone"])].

(** The prompt and the result of the question about the late charge, on
    the three complaints and with no key. *)
Definition late_charge_prompt : string :=
  QualHandler.build_prompt "What about that LATE charge?" 1
    (QualHandler.quoted_bullet "I was charged a late fee twice").

Definition late_charge_result : QueryResult :=
  mkResult
    (LlmClient.no_key_intro +:+ "  • I was charged a late fee twice" +:+
     LlmClient.nl +:+ LlmClient.nl +:+
     LlmClient.no_key_recommendation +:+ LlmClient.no_key_tag)
    None (Some [Str "I was charged a late fee twice"])
    "1 matching complaints retrieved (showing top 1)" (Some "no-key") None.

(** The prompt of a question on two of the complaints. *)
Definition logins_prompt : string :=
  QualHandler.build_prompt "Why do logins fail?" 2
    (PyStr.join LlmClient.nl
       (map QualHandler.quoted_bullet
          (map (PyStr.upto 200)
             ["The app crashes at login"; "App login fails after update"]))).

(** Four complaints as the first tool leaves them, with their channel. *)
Definition cleaned : DataFrame :=
  mkFrame 4
    [("complaint_text",
      [Str "The app crashes at login"; Str "I was charged a late fee twice";
       Str "App login fails after update"; Str "My card was declined abroad"]);
     ("channel", [Str "phone"; Str "email"; NA; Str "phone"]);
     ("text_clean",
      [Str "the app crashes at login"; Str "i was charged a late fee twice";
       Str "app login fails after update"; Str "my card was declined abroad"]);
     ("theme_id", [Int 0; Int 1; Int 0; Int 1])].

(** The lines typed in a session of the chat. *)
Definition session : list string :=
  [""; ":help"; "How many complaints are there in total?";
   "Why are customers frustrated with the mobile app?"; " :quit"; "not read"].

End Sample.

(** * Properties *)

(** ** Strings *)

Lemma app_nil (s : string) : EmptyString +:+ s = s.
Proof. reflexivity. Qed.

Lemma app_cons (c : ascii) (a b : string) : String c a +:+ b = String c (a +:+ b).
Proof. reflexivity. Qed.

Ltac str_simpl := rewrite ?app_cons, ?app_nil in *.

Lemma app_empty_r (s : string) : s +:+ EmptyString = s.
Proof. induction s as [|c s IH]; str_simpl; [done | by f_equal]. Qed.

Lemma app_assoc_str (a b c : string) : (a +:+ b) +:+ c = a +:+ b +:+ c.
Proof. induction a as [|x a IH]; str_simpl; [done | by f_equal]. Qed.

Lemma last_char_app (prev : option ascii) (a b : string) :
  last_char prev (a +:+ b) = last_char (last_char prev a) b.
Proof.
  revert prev. induction a as [|x a IH]; intros prev; str_simpl; [done | apply IH].
Qed.

(** ** The matcher *)

Section MatcherFacts.

Import Re.

Lemma rmatch_lit ic w prev s next :
  rmatch ic (lit w) prev s next =
  match eat ic w prev s with
  | Some (p, rest) => next p rest
  | None => None
  end.
Proof.
  revert prev s. induction w as [|c w IH]; intros prev s; simpl; [done|].
  destruct s as [|c' s']; [done|].
  destruct (chr_eq ic c c'); [apply IH | done].
Qed.

(** An alternation matches when one of its alternatives does. *)
Lemma rmatch_alts_some ic rs prev s next :
  rs <> [] ->
  is_Some (rmatch ic (alts rs) prev s next) <->
  exists r, r ∈ rs /\ is_Some (rmatch ic r prev s next).
Proof.
  induction rs as [|r rs IH]; [done|]. intros _.
  destruct rs as [|r' rs].
  - simpl. split.
    + intros H. exists r. split; [by apply list_elem_of_singleton | done].
    + intros (r0 & Hin & H). apply list_elem_of_singleton in Hin. by subst.
  - change (alts (r :: r' :: rs)) with (Alt r (alts (r' :: rs))).
    simpl rmatch. split.
    + destruct (rmatch ic r prev s next) eqn:E.
      * intros _. exists r. split; [apply elem_of_cons; by left | by rewrite E].
      * intros H. apply IH in H; [|done]. destruct H as (r0 & Hin & H).
        exists r0. split; [apply elem_of_cons; by right | done].
    + intros (r0 & Hin & H).
      destruct (rmatch ic r prev s next) eqn:E; [done|].
      apply IH; [done|]. exists r0. split; [|done].
      apply elem_of_cons in Hin as [->|Hin]; [|done].
      rewrite E in H. by destruct H.
Qed.

(** [search_from] finds a match exactly when the pattern matches at the
    head of some suffix of the text. *)
Lemma search_from_true ic r prev s :
  search_from ic r prev s = true <->
  exists pre post, s = pre +:+ post /\
    is_Some (match_at ic r (last_char prev pre) post).
Proof.
  revert prev. induction s as [|c s IH]; intros prev; simpl.
  - destruct (match_at ic r prev EmptyString) eqn:E.
    + split; [|done]. intros _. exists EmptyString, EmptyString. simpl. by rewrite E.
    + split; [done|]. intros (pre & post & Heq & H).
      destruct pre; [|done]. str_simpl. subst post. simpl in H.
      rewrite E in H. by destruct H.
  - destruct (match_at ic r prev (String c s)) eqn:E.
    + split; [|done]. intros _. exists EmptyString, (String c s). simpl. by rewrite E.
    + rewrite IH. split.
      * intros (pre & post & -> & H). exists (String c pre), post. done.
      * intros (pre & post & Heq & H). destruct pre as [|c' pre]; str_simpl.
        { subst post. simpl in H. rewrite E in H. by destruct H. }
        injection Heq as -> ->. exists pre, post. done.
Qed.

Lemma star_greedy_suffix k prev s next rest :
  star_greedy k prev s next = Some rest ->
  exists p' s', next p' s' = Some rest /\ (String.length s' <= String.length s)%nat.
Proof.
  revert prev. induction s as [|c s IH]; intros prev; simpl.
  - intros H. by exists prev, EmptyString.
  - destruct (in_class k c).
    + destruct (star_greedy k (Some c) s next) eqn:E.
      * intros [= ->]. apply IH in E as (p' & s' & H & Hl).
        exists p', s'. split; [done | lia].
      * intros H. by exists prev, (String c s).
    + intros H. by exists prev, (String c s).
Qed.

(** A match hands to its continuation a suffix of the text, and a proper
    one when the pattern takes a character. *)
Lemma rmatch_suffix ic r prev s next rest :
  rmatch ic r prev s next = Some rest ->
  exists p' s',
    next p' s' = Some rest /\
    (String.length s' <= String.length s)%nat /\
    (consumes r = true -> (String.length s' < String.length s)%nat).
Proof.
  revert prev s next. induction r as [|c| |k|a IHa b IHb|a IHa b IHb];
    intros prev s next; simpl.
  - intros H. by exists prev, s.
  - destruct s as [|c' s']; [done|]. destruct (chr_eq ic c c'); [|done].
    intros H. exists (Some c'), s'. simpl. repeat split; [done | lia | lia].
  - destruct (at_boundary prev s); [|done]. intros H. by exists prev, s.
  - intros H. apply star_greedy_suffix in H as (p' & s' & H & Hl).
    by exists p', s'.
  - intros H. apply IHa in H as (p1 & s1 & H & Hl1 & Hc1).
    apply IHb in H as (p2 & s2 & H & Hl2 & Hc2).
    exists p2, s2. repeat split; [done | lia |].
    intros [Hc|Hc]%orb_true_iff; [specialize (Hc1 Hc) | specialize (Hc2 Hc)]; lia.
  - destruct (rmatch ic a prev s next) eqn:E.
    + intros [= ->]. apply IHa in E as (p' & s' & H & Hl & Hc).
      exists p', s'. repeat split; [done..|].
      intros [Ha _]%andb_true_iff. by apply Hc.
    + intros H. apply IHb in H as (p' & s' & H & Hl & Hc).
      exists p', s'. repeat split; [done..|].
      intros [_ Hb]%andb_true_iff. by apply Hc.
Qed.

(** No match of the two patterns of the classifier is empty: the scan of
    [findall_from] always moves on by the length of the match. *)
Lemma classifier_matches_consume r prev s rest :
  r = Router._QUANT_RE \/ r = Router._QUAL_RE ->
  match_at true r prev s = Some rest ->
  (String.length rest < String.length s)%nat.
Proof.
  intros Hr H. apply rmatch_suffix in H as (p' & s' & [= ->] & _ & Hc).
  apply Hc. by destruct Hr as [-> | ->].
Qed.

Lemma search_alts ic rs s :
  rs <> [] ->
  search ic (alts rs) s = true <-> exists r, r ∈ rs /\ search ic r s = true.
Proof.
  intros Hne. unfold search. rewrite search_from_true. split.
  - intros (pre & post & Heq & H). apply rmatch_alts_some in H; [|done].
    destruct H as (r & Hin & H). exists r. split; [done|].
    apply search_from_true. by exists pre, post.
  - intros (r & Hin & H). apply search_from_true in H.
    destruct H as (pre & post & Heq & H). exists pre, post. split; [done|].
    apply rmatch_alts_some; [done|]. by exists r.
Qed.

(** The scan counts no match exactly when the search finds none. *)
Lemma findall_from_zero ic r prev s :
  findall_from ic r prev s 0 = 0 <-> search_from ic r prev s = false.
Proof.
  revert prev. induction s as [|c s IH]; intros prev; simpl.
  - destruct (match_at ic r prev EmptyString); done.
  - destruct (match_at ic r prev (String c s)); [done | apply IH].
Qed.

Lemma findall_count_zero ic rs s :
  rs <> [] ->
  findall_count ic (alts rs) s = 0 <-> forall r, r ∈ rs -> search ic r s = false.
Proof.
  intros Hne. unfold findall_count. rewrite findall_from_zero.
  fold (search ic (alts rs) s). split.
  - intros H r Hin. destruct (search ic r s) eqn:E; [|done].
    assert (search ic (alts rs) s = true) as H'
      by (apply search_alts; [done | by exists r]).
    congruence.
  - intros H. destruct (search ic (alts rs) s) eqn:E; [|done].
    apply search_alts in E; [|done]. destruct E as (r & Hin & E).
    rewrite (H r Hin) in E. done.
Qed.

(** A literal, under [re.IGNORECASE], takes a text that is the literal up
    to the case of its letters. *)
Lemma eat_ignorecase w prev s p rest :
  eat true w prev s = Some (p, rest) <->
  exists mid, s = mid +:+ rest /\ PyStr.lower mid = PyStr.lower w /\
              p = last_char prev mid.
Proof.
  revert prev s. induction w as [|c w IH]; intros prev s; simpl.
  - split.
    + intros [= -> ->]. by exists EmptyString.
    + intros (mid & -> & Hl & ->). destruct mid; [done | discriminate].
  - destruct s as [|c' s'].
    + split; [done|]. intros (mid & Heq & Hl & _).
      destruct mid; [discriminate Hl | discriminate Heq].
    + unfold chr_eq. destruct (Ascii.eqb_spec (PyStr.lower_char c) (PyStr.lower_char c')) as [Hc|Hc].
      * rewrite IH. split.
        -- intros (mid & -> & Hl & ->). exists (String c' mid).
           str_simpl. simpl. by rewrite Hl, Hc.
        -- intros (mid & Heq & Hl & ->). destruct mid as [|x mid]; [discriminate Hl|].
           str_simpl. injection Heq as -> ->. simpl in Hl. injection Hl as _ Hl.
           by exists mid.
      * split; [done|]. intros (mid & Heq & Hl & _).
        destruct mid as [|x mid]; [discriminate Hl|].
        str_simpl. injection Heq as -> ->. simpl in Hl. injection Hl as Hx _.
        by destruct Hc.
Qed.

Lemma is_upper_not_lower c : PyStr.is_upper c = true -> PyStr.is_lower c = false.
Proof.
  unfold PyStr.is_upper, PyStr.is_lower. intros H.
  apply andb_true_iff in H as [H1 H2]. apply N.leb_le in H1, H2.
  apply andb_false_iff. left. apply N.leb_gt. lia.
Qed.

Lemma lower_char_lower c : PyStr.is_lower c = true -> PyStr.lower_char c = c.
Proof.
  intros H. unfold PyStr.lower_char.
  destruct (PyStr.is_upper c) eqn:E; [|done].
  apply is_upper_not_lower in E. congruence.
Qed.

Lemma lower_all_lower w : all_lower w = true -> PyStr.lower w = w.
Proof.
  induction w as [|c w IH]; simpl; [done|]. intros H.
  apply andb_true_iff in H as [H1 H2]. by rewrite lower_char_lower, IH.
Qed.

(** A character that lowers to a lower-case letter is a letter. *)
Lemma lowers_to_letter c : PyStr.is_lower (PyStr.lower_char c) = true -> PyStr.is_word c = true.
Proof.
  unfold PyStr.lower_char, PyStr.is_word, PyStr.is_alpha.
  destruct (PyStr.is_upper c) eqn:E; [done|]. intros ->. by rewrite orb_true_r.
Qed.

Lemma letters_head mid :
  mid <> EmptyString -> all_lower (PyStr.lower mid) = true ->
  forall rest, is_word_opt (head (mid +:+ rest)) = true.
Proof.
  destruct mid as [|c mid]; [done|]. intros _ H rest. str_simpl. simpl in *.
  apply andb_true_iff in H as [H _]. by apply lowers_to_letter.
Qed.

Lemma letters_last mid :
  mid <> EmptyString -> all_lower (PyStr.lower mid) = true ->
  forall prev, is_word_opt (last_char prev mid) = true.
Proof.
  induction mid as [|c mid IH]; [done|]. intros _ H prev. simpl in *.
  apply andb_true_iff in H as [H1 H2].
  destruct mid as [|c' mid]; [by apply lowers_to_letter|].
  apply IH; done.
Qed.

(** The shape of the tie-break pattern: a word of a list between two word
    boundaries. *)
Lemma match_at_words ws prev s :
  ws <> [] ->
  is_Some (match_at true (Seq Bnd (Seq (alts (map lit ws)) Bnd)) prev s) <->
  at_boundary prev s = true /\
  exists w p rest, w ∈ ws /\ eat true w prev s = Some (p, rest) /\
                   at_boundary p rest = true.
Proof.
  intros Hne. unfold match_at.
  change (rmatch true (Seq Bnd (Seq (alts (map lit ws)) Bnd)) prev s
            (fun _ rest => Some rest))
    with (if at_boundary prev s
          then rmatch true (alts (map lit ws)) prev s
                 (fun p' s' => if at_boundary p' s' then Some s' else None)
          else None).
  destruct (at_boundary prev s).
  - rewrite rmatch_alts_some by (by destruct ws).
    split.
    + intros (r & Hin & H). apply list_elem_of_fmap in Hin as (w & -> & Hin).
      rewrite rmatch_lit in H. destruct (eat true w prev s) as [[p rest]|] eqn:E.
      * destruct (at_boundary p rest) eqn:B; [|by destruct H].
        split; [done|]. by exists w, p, rest.
      * by destruct H.
    + intros (_ & w & p & rest & Hin & E & B). exists (lit w).
      split; [apply list_elem_of_fmap; by exists w|].
      rewrite rmatch_lit, E, B. done.
  - split; [by intros [] | by intros []].
Qed.

Lemma signal_words_lower w :
  w ∈ Router.signal_words -> all_lower w = true /\ w <> EmptyString.
Proof.
  unfold Router.signal_words. intros H.
  repeat (apply elem_of_cons in H as [->|H]; [by split|]).
  by apply elem_of_nil in H.
Qed.

(** The search of the tie-break succeeds exactly on the questions that
    hold one of the seven words as a whole word. *)
Lemma tie_break_search q :
  search true Router.tie_break_re q = true <-> has_signal_word q.
Proof.
  unfold search. rewrite search_from_true. unfold Router.tie_break_re. split.
  - intros (pre & post & -> & H). apply match_at_words in H; [|done].
    destruct H as (B1 & w & p & rest & Hin & E & B2).
    apply eat_ignorecase in E as (mid & -> & Hl & ->).
    destruct (signal_words_lower w Hin) as [Hlow Hne].
    rewrite (lower_all_lower w Hlow) in Hl.
    assert (mid <> EmptyString) as Hmid by (intros ->; simpl in Hl; congruence).
    assert (all_lower (PyStr.lower mid) = true) as Hmid' by (by rewrite Hl).
    unfold at_boundary in B1, B2.
    rewrite (letters_head mid Hmid Hmid') in B1.
    rewrite (letters_last mid Hmid Hmid') in B2.
    exists w. split; [done|]. exists pre, mid, rest. repeat split; [done|..].
    + by destruct (is_word_opt (last_char None pre)).
    + by destruct (is_word_opt (head rest)).
  - intros (w & Hin & pre & mid & post & -> & Hl & B1 & B2).
    destruct (signal_words_lower w Hin) as [Hlow Hne].
    assert (mid <> EmptyString) as Hmid by (intros ->; simpl in Hl; congruence).
    assert (all_lower (PyStr.lower mid) = true) as Hmid' by (by rewrite Hl).
    exists pre, (mid +:+ post). split; [done|].
    apply match_at_words; [done|]. unfold at_boundary. split.
    + by rewrite B1, (letters_head mid Hmid Hmid').
    + exists w, (last_char (last_char None pre) mid), post.
      split; [done|]. split.
      * apply eat_ignorecase. exists mid. by rewrite (lower_all_lower w Hlow).
      * by rewrite (letters_last mid Hmid Hmid'), B2.
Qed.

End MatcherFacts.

(** ** The intent classifier *)

(** C1, the claim as stated fails.  The question [rate rate why] matches
    the quantitative pattern [rate] twice and the qualitative pattern
    [why] once: the code counts two against one and answers quant, where
    one count per pattern gives a tie that the tie-break resolves to qual.
    In [show me examples of the total] two qualitative patterns overlap and
    the scan counts them once: the code sees a tie and answers quant, where
    one count per pattern answers qual. *)
Lemma classify_counts_every_match :
  Router.classify "rate rate why" = "quant" /\
  classify_by_pattern_hits "rate rate why" = "qual" /\
  Router.classify "show me examples of the total" = "quant" /\
  classify_by_pattern_hits "show me examples of the total" = "qual".
Proof. vm_compute. done. Qed.

(** C1, as amended.  For every question, [classify] counts for each list
    the matches of one scan from the left over the alternation of the
    patterns of the list, so that a pattern counts every time it matches and
    patterns that match overlapping text count once; such a count is zero
    exactly when no pattern of the list matches the question.  The list
    with strictly more matches wins; on a tie the result is quant exactly
    when the question holds one of the words how, many, count, total, top,
    which, show as a whole word, in any case of its letters, and qual
    otherwise. *)
Theorem classify_by_scan_counts (q : string) :
  let quant_hits := Re.findall_count true Router._QUANT_RE q in
  let qual_hits := Re.findall_count true Router._QUAL_RE q in
  ((qual_hits < quant_hits)%nat -> Router.classify q = "quant") /\
  ((quant_hits < qual_hits)%nat -> Router.classify q = "qual") /\
  (quant_hits = qual_hits ->
     (has_signal_word q -> Router.classify q = "quant") /\
     (~ has_signal_word q -> Router.classify q = "qual")) /\
  (quant_hits = 0 <->
     forall p, p ∈ Router._QUANT_PATTERNS -> Re.search true p q = false) /\
  (qual_hits = 0 <->
     forall p, p ∈ Router._QUAL_PATTERNS -> Re.search true p q = false).
Proof.
  intros quant_hits qual_hits.
  assert (Router.classify q =
          if (qual_hits <? quant_hits)%nat then "quant"
          else if (quant_hits <? qual_hits)%nat then "qual"
          else if Re.search true Router.tie_break_re q then "quant" else "qual")
    as Hc by reflexivity.
  repeat split.
  - intros H. apply Nat.ltb_lt in H. by rewrite Hc, H.
  - intros H. rewrite Hc.
    destruct (Nat.ltb_spec qual_hits quant_hits); [lia|].
    apply Nat.ltb_lt in H. by rewrite H.
  - intros Hw. rewrite Hc, H, Nat.ltb_irrefl.
    apply tie_break_search in Hw. by rewrite Hw.
  - intros Hw. rewrite Hc, H, Nat.ltb_irrefl.
    destruct (Re.search true Router.tie_break_re q) eqn:E; [|done].
    apply tie_break_search in E. by destruct Hw.
  - by apply findall_count_zero.
  - by apply findall_count_zero.
  - by apply findall_count_zero.
  - by apply findall_count_zero.
Qed.

(** ** The theme labeller *)

Section LabelFacts.

Import ThemeExtractor.

(** Two sets of terms intersect when a term lies in both. *)
Lemma intersects_true (terms : list string) (group : gset string) :
  intersects (list_to_set terms) group = true <->
  exists t, t ∈ terms /\ t ∈ group.
Proof.
  unfold intersects. rewrite bool_decide_eq_true. split.
  - intros H. apply set_choose_L in H as [t Ht].
    apply elem_of_intersection in Ht as [H1 H2].
    apply elem_of_list_to_set in H1. by exists t.
  - intros (t & H1 & H2) He.
    assert (t ∈ (list_to_set terms ∩ group : gset string)) as Hin.
    { apply elem_of_intersection. split; [by apply elem_of_list_to_set | done]. }
    rewrite He in Hin. by apply not_elem_of_empty in Hin.
Qed.

(** The loop returns the label of the rule at [i] when that rule matches
    and no rule before it does. *)
Lemma first_label_at kw rules i group label :
  rules !! i = Some (group, label) ->
  intersects kw group = true ->
  (forall j g l, (j < i)%nat -> rules !! j = Some (g, l) -> intersects kw g = false) ->
  first_label kw rules = Some label.
Proof.
  revert i. induction rules as [|[g0 l0] rules IH]; intros i Hi Hm Hbefore; [done|].
  destruct i as [|i]; simpl in *.
  - injection Hi as -> ->. by rewrite Hm.
  - rewrite (Hbefore 0%nat g0 l0) by (done || lia).
    apply (IH i); [done..|]. intros j g l Hj Hl.
    apply (Hbefore (S j) g l); [lia | done].
Qed.

Lemma first_label_none kw rules :
  (forall g l, (g, l) ∈ rules -> intersects kw g = false) ->
  first_label kw rules = None.
Proof.
  induction rules as [|[g0 l0] rules IH]; intros H; simpl; [done|].
  rewrite (H g0 l0) by (apply elem_of_cons; by left).
  apply IH. intros g l Hin. apply (H g l). apply elem_of_cons. by right.
Qed.

End LabelFacts.

(** C8.  For every ordered list of top-weighted terms, with the first
    eight of them taken as a set: the labeller returns the label of the
    first rule of the fixed list whose keyword set holds one of these
    terms; when no rule does, it returns the first two terms, title-cased
    and joined with [ & ]. *)
Theorem auto_label_first_rule (top_keywords : list string) :
  let matches (group : gset string) :=
    exists t, t ∈ take 8 top_keywords /\ t ∈ group in
  (forall i group label,
      ThemeExtractor._LABEL_RULES !! i = Some (group, label) ->
      matches group ->
      (forall j g l, (j < i)%nat ->
          ThemeExtractor._LABEL_RULES !! j = Some (g, l) -> ~ matches g) ->
      ThemeExtractor._auto_label top_keywords = label) /\
  ((forall g l, (g, l) ∈ ThemeExtractor._LABEL_RULES -> ~ matches g) ->
      ThemeExtractor._auto_label top_keywords =
        PyStr.join " & " (map PyStr.title (take 2 top_keywords))) /\
  ((forall g l, (g, l) ∈ ThemeExtractor._LABEL_RULES -> ~ matches g) ->
      forall first second rest, top_keywords = first :: second :: rest ->
      ThemeExtractor._auto_label top_keywords =
        PyStr.title first +:+ " & " +:+ PyStr.title second).
Proof.
  intros matches.
  assert (forall g, ~ matches g ->
            ThemeExtractor.intersects (list_to_set (take 8 top_keywords)) g = false)
    as Hno.
  { intros g Hg.
    destruct (ThemeExtractor.intersects (list_to_set (take 8 top_keywords)) g) eqn:E;
      [|done].
    apply intersects_true in E. by destruct Hg. }
  assert ((forall g l, (g, l) ∈ ThemeExtractor._LABEL_RULES -> ~ matches g) ->
          ThemeExtractor._auto_label top_keywords =
            PyStr.join " & " (map PyStr.title (take 2 top_keywords))) as Hfall.
  { intros H. unfold ThemeExtractor._auto_label.
    rewrite first_label_none; [done|]. intros g l Hin. apply Hno. by apply (H g l). }
  split; [|split].
  - intros i group label Hi Hm Hbefore. unfold ThemeExtractor._auto_label.
    rewrite (first_label_at _ _ i group label); [done | done | |].
    + by apply intersects_true.
    + intros j g l Hj Hl. apply Hno. by apply (Hbefore j g l).
  - exact Hfall.
  - intros H first second rest ->. by rewrite Hfall.
Qed.

(** The labeller on three lists of terms: a rule is found by a later term
    while an earlier one matches nothing, the order of the rules decides
    between two rules that match, and no rule matches. *)
Example auto_label_examples :
  ThemeExtractor._auto_label ["zebra"; "late fee"; "app"] = "App & Login Issues" /\
  ThemeExtractor._auto_label ["card"; "fee"] = "Billing & Fee Disputes" /\
  ThemeExtractor._auto_label ["zebra"; "late fee"; "x"] = "Zebra & Late Fee".
Proof. vm_compute. done. Qed.

(** ** The offline completion fallback *)

(** Filtering the images of a list is filtering the list by the images. *)
Lemma filter_map_comm {A B : Type} (f : A -> B) (P : B -> Prop)
    `{!forall y, Decision (P y)} (l : list A) :
  filter P (map f l) = map f (filter (fun x => P (f x)) l).
Proof.
  induction l as [|x l IH]; [done|]. simpl map.
  rewrite !filter_cons. destruct (decide (P (f x))); simpl; by rewrite IH.
Qed.

Section FallbackFacts.

Import PyStr LlmClient.

Lemma all_in_app p a b : all_in p (a +:+ b) = all_in p a && all_in p b.
Proof.
  induction a as [|c a IH]; [done|]. simpl. by rewrite IH, andb_assoc.
Qed.

Lemma lstrip_by_all p s : all_in p s = true -> lstrip_by p s = EmptyString.
Proof.
  induction s as [|c s IH]; simpl; [done|].
  intros [-> Hs]%andb_true_iff. by apply IH.
Qed.

Lemma rstrip_by_all p s : all_in p s = true -> rstrip_by p s = EmptyString.
Proof.
  induction s as [|c s IH]; simpl; [done|].
  intros [Hc Hs]%andb_true_iff. by rewrite (IH Hs), Hc.
Qed.

(** What is cut off at the start is the longest run of such characters. *)
Lemma lstrip_by_app p pre t :
  all_in p pre = true -> head_in p t = false -> lstrip_by p (pre +:+ t) = t.
Proof.
  intros Hpre Ht. induction pre as [|c pre IH]; simpl in *.
  - destruct t as [|c r]; [done|]. simpl in *. by rewrite Ht.
  - apply andb_true_iff in Hpre as [-> Hpre]. by apply IH.
Qed.

Lemma rstrip_by_app p t post :
  all_in p post = true -> last_in p t = false -> rstrip_by p (t +:+ post) = t.
Proof.
  intros Hpost. induction t as [|c t IH]; intros Ht.
  - rewrite app_nil. by apply rstrip_by_all.
  - rewrite app_cons. simpl rstrip_by. destruct t as [|c' t'].
    + rewrite app_nil, (rstrip_by_all _ _ Hpost). simpl in *. by rewrite Ht.
    + by rewrite IH.
Qed.

Lemma lstrip_by_lstripped p s : lstripped_of p s (lstrip_by p s).
Proof.
  induction s as [|c s (pre & Hs & Hpre & Hh)]; simpl.
  - by exists EmptyString.
  - destruct (p c) eqn:Hc.
    + exists (String c pre). rewrite app_cons, <- Hs. simpl. by rewrite Hc.
    + exists EmptyString. by rewrite app_nil.
Qed.

Lemma rstrip_by_rest p s :
  exists post,
    s = rstrip_by p s +:+ post /\ all_in p post = true /\
    last_in p (rstrip_by p s) = false.
Proof.
  induction s as [|c s (post & Hs & Hpost & Hl)]; simpl.
  - by exists EmptyString.
  - destruct (rstrip_by p s) as [|c' r'] eqn:E; simpl.
    + rewrite app_nil in Hs. subst s. destruct (p c) eqn:Hc.
      * exists (String c post). rewrite app_nil. simpl. by rewrite Hc.
      * exists post. by rewrite app_cons, app_nil.
    + exists post. by rewrite Hs at 1.
Qed.

Lemma strip_by_stripped p s : stripped_of p s (strip_by p s).
Proof.
  unfold strip_by. destruct (lstrip_by_lstripped p s) as (pre & Hs & Hpre & Hh).
  set (t := lstrip_by p s) in *.
  destruct (rstrip_by_rest p t) as (post & Ht & Hpost & Hl).
  exists pre, post. repeat split; try done.
  - by rewrite <- Ht.
  - destruct (rstrip_by p t) as [|c r]; [done|]. by rewrite Ht in Hh.
Qed.

(** The two ways of saying what is left of a text agree: the conditions
    on what is cut off leave one text, the one that [strip] computes. *)
Lemma stripped_of_iff p s t : stripped_of p s t <-> strip_by p s = t.
Proof.
  split; [|intros <-; apply strip_by_stripped].
  intros (pre & post & -> & Hpre & Hpost & Hh & Hl). unfold strip_by.
  destruct t as [|c r].
  - rewrite app_nil, lstrip_by_all; [done|]. by rewrite all_in_app, Hpre, Hpost.
  - rewrite lstrip_by_app by done. by apply rstrip_by_app.
Qed.

Lemma lstripped_of_iff p s t : lstripped_of p s t <-> lstrip_by p s = t.
Proof.
  split; [|intros <-; apply lstrip_by_lstripped].
  intros (pre & -> & Hpre & Hh). by apply lstrip_by_app.
Qed.

Lemma content_of_bullet_text line content :
  content_of line content <-> bullet_text line = content.
Proof.
  unfold content_of, bullet_text, strip. split.
  - intros (s1 & s2 & s3 & s4 & H1 & H2 & H3 & H4 & H5).
    apply stripped_of_iff in H1, H3, H4, H5. apply lstripped_of_iff in H2.
    by subst.
  - intros <-. eexists _, _, _, _.
    repeat split; first [by apply stripped_of_iff | by apply lstripped_of_iff].
Qed.

Lemma head_in_mark s :
  head_in is_mark s =
  startswith "-" s || startswith (String dquote EmptyString) s.
Proof.
  destruct s as [|c r]; [done|]. simpl. unfold is_mark. by rewrite !andb_true_r.
Qed.

Lemma marked_is_bullet line : marked line <-> is_bullet line = true.
Proof.
  unfold marked, is_bullet. rewrite <- head_in_mark. split.
  - intros (s & Hs%stripped_of_iff & Hm). unfold strip. by rewrite Hs.
  - intros H. exists (strip line). split; [by apply stripped_of_iff | done].
Qed.

Lemma unmarked_is_bullet line : unmarked line <-> is_bullet line = false.
Proof.
  unfold unmarked, is_bullet. rewrite <- head_in_mark. split.
  - intros (s & Hs%stripped_of_iff & Hm). unfold strip. by rewrite Hs.
  - intros H. exists (strip line). split; [by apply stripped_of_iff | done].
Qed.

(** The two comprehensions of the fallback collect the contents of the
    lines that are marked and long enough. *)
Lemma bulleted_examples lines contents :
  bulleted lines contents ->
  contents =
    filter (fun e => 15 < len e) (map bullet_text (filter is_bullet lines)).
Proof.
  induction 1 as [|line lines cs Hu _ IH|line lines c cs Hc Hlen _ IH
                  |line lines c cs Hm Hc Hlen _ IH].
  - done.
  - apply unmarked_is_bullet in Hu.
    rewrite filter_cons_False; [done|]. intros Hb. rewrite Hu in Hb. destruct Hb.
  - apply content_of_bullet_text in Hc. rewrite filter_cons.
    destruct (decide (is_bullet line)); [|done]. simpl map.
    rewrite filter_cons_False; [done|]. rewrite Hc. lia.
  - apply content_of_bullet_text in Hc. apply marked_is_bullet in Hm.
    rewrite filter_cons_True by (by rewrite Hm). simpl map.
    rewrite filter_cons_True by (rewrite Hc; lia). by rewrite Hc, <- IH.
Qed.

(** Every list of lines has such contents. *)
Lemma bulleted_exists lines : exists contents, bulleted lines contents.
Proof.
  induction lines as [|line lines [cs IH]]; [exists []; constructor|].
  destruct (is_bullet line) eqn:Hb.
  - destruct (le_lt_dec (len (bullet_text line)) 15).
    + exists cs. apply (bulleted_short line lines (bullet_text line)); [|done..].
      by apply content_of_bullet_text.
    + exists (bullet_text line :: cs). apply bulleted_long; [| |done..].
      * by apply marked_is_bullet.
      * by apply content_of_bullet_text.
  - exists cs. apply bulleted_unmarked; [|done]. by apply unmarked_is_bullet.
Qed.

End FallbackFacts.

(** C7.  The offline fallback is a function of the prompt.  With
    [contents] the contents of the lines of the prompt that start, the
    white space before them apart, with a dash or a double quote, and whose
    content (the line without the white space, the dashes and the double
    quotes around it) is longer than 15 characters: the fallback keeps the
    first four of them.  On a prompt with exactly three such lines the
    response is the fixed introduction, exactly those three contents, each
    cut at 120 characters, the fixed recommendation and the offline tag,
    and the client reports the mode no-key; on a prompt with no such line
    the response is the fixed default text. *)
Theorem no_key_from_bullets (prompt : string) (contents : list string) :
  bulleted (PyStr.splitlines prompt) contents ->
  LlmClient.bullet_examples prompt = take 4 contents /\
  (contents = [] -> LlmClient._no_key prompt = LlmClient.no_key_default) /\
  (forall c1 c2 c3, contents = [c1; c2; c3] ->
     LlmClient._no_key prompt =
       LlmClient.no_key_intro +:+
       ("  • " +:+ PyStr.upto 120 c1 +:+ LlmClient.nl +:+
        "  • " +:+ PyStr.upto 120 c2 +:+ LlmClient.nl +:+
        "  • " +:+ PyStr.upto 120 c3) +:+
       LlmClient.nl +:+ LlmClient.nl +:+
       LlmClient.no_key_recommendation +:+ LlmClient.no_key_tag) /\
  (forall env,
     LlmClient._ANTHROPIC_KEY env = EmptyString ->
     LlmClient._OPENAI_KEY env = EmptyString ->
     LlmClient.complete env prompt = (LlmClient._no_key prompt, "no-key")).
Proof.
  intros Hb. apply bulleted_examples in Hb.
  assert (LlmClient.bullet_examples prompt = take 4 contents) as Hex
    by (unfold LlmClient.bullet_examples; by rewrite Hb).
  split; [exact Hex|]. split; [|split].
  - intros H. unfold LlmClient._no_key. by rewrite Hex, H.
  - intros c1 c2 c3 H. unfold LlmClient._no_key. rewrite Hex, H.
    simpl. unfold LlmClient.bullet. by rewrite !app_assoc_str.
  - intros env H1 H2. unfold LlmClient.complete. by rewrite H1, H2.
Qed.

(** What is cut off a text, before and after what is left. *)
Ltac cut_off pre post := exists pre, post; repeat split.

(** The fallback on a prompt of five lines: the question, which is not
    marked, a quoted example after a dash, a second one with white space
    around the line and inside the quotes, a line too short to count, and
    a third example that starts with its quote.  The response lists the
    three examples without their dashes, quotes and white space. *)
Lemma no_key_from_bullets_witness :
  LlmClient.bullet_examples Sample.three_bullets =
    take 4 ["The app crashes at login"; "I was charged a late fee twice";
            "App login fails after update"] /\
  (["The app crashes at login"; "I was charged a late fee twice";
    "App login fails after update"] = [] ->
   LlmClient._no_key Sample.three_bullets = LlmClient.no_key_default) /\
  (forall c1 c2 c3,
     ["The app crashes at login"; "I was charged a late fee twice";
      "App login fails after update"] = [c1; c2; c3] ->
     LlmClient._no_key Sample.three_bullets =
       LlmClient.no_key_intro +:+
       ("  • " +:+ PyStr.upto 120 c1 +:+ LlmClient.nl +:+
        "  • " +:+ PyStr.upto 120 c2 +:+ LlmClient.nl +:+
        "  • " +:+ PyStr.upto 120 c3) +:+
       LlmClient.nl +:+ LlmClient.nl +:+
       LlmClient.no_key_recommendation +:+ LlmClient.no_key_tag) /\
  (forall env,
     LlmClient._ANTHROPIC_KEY env = EmptyString ->
     LlmClient._OPENAI_KEY env = EmptyString ->
     LlmClient.complete env Sample.three_bullets =
       (LlmClient._no_key Sample.three_bullets, "no-key")).
Proof.
  apply (no_key_from_bullets Sample.three_bullets
           ["The app crashes at login"; "I was charged a late fee twice";
            "App login fails after update"]).
  vm_compute.
  apply bulleted_unmarked.
  { exists "Question: why?". split; [cut_off "" "" | reflexivity]. }
  apply bulleted_long; [| |vm_compute; lia|].
  { exists ("- " +:+ Sample.quote +:+ "The app crashes at login" +:+ Sample.quote).
    split; [cut_off "" "" | reflexivity]. }
  { exists ("- " +:+ Sample.quote +:+ "The app crashes at login" +:+ Sample.quote),
      (" " +:+ Sample.quote +:+ "The app crashes at login" +:+ Sample.quote),
      (Sample.quote +:+ "The app crashes at login" +:+ Sample.quote),
      "The app crashes at login".
    split; [cut_off "" ""|]. split; [exists "-"; repeat split|].
    split; [cut_off " " ""|]. split; [cut_off Sample.quote Sample.quote|].
    cut_off "" "". }
  apply bulleted_long; [| |vm_compute; lia|].
  { exists ("- " +:+ Sample.quote +:+ " I was charged a late fee twice" +:+
            Sample.quote).
    split; [cut_off " " " " | reflexivity]. }
  { exists ("- " +:+ Sample.quote +:+ " I was charged a late fee twice" +:+
            Sample.quote),
      (" " +:+ Sample.quote +:+ " I was charged a late fee twice" +:+ Sample.quote),
      (Sample.quote +:+ " I was charged a late fee twice" +:+ Sample.quote),
      " I was charged a late fee twice".
    split; [cut_off " " " "|]. split; [exists "-"; repeat split|].
    split; [cut_off " " ""|]. split; [cut_off Sample.quote Sample.quote|].
    cut_off " " "". }
  apply (bulleted_short _ _ "short"); [|vm_compute; lia|].
  { exists "- short", " short", "short", "short".
    split; [cut_off "" ""|]. split; [exists "-"; repeat split|].
    split; [cut_off " " ""|]. split; [cut_off "" ""|]. cut_off "" "". }
  apply bulleted_long; [| |vm_compute; lia|].
  { exists (Sample.quote +:+ "App login fails after update" +:+ Sample.quote).
    split; [cut_off "" "" | reflexivity]. }
  { exists (Sample.quote +:+ "App login fails after update" +:+ Sample.quote),
      (Sample.quote +:+ "App login fails after update" +:+ Sample.quote),
      (Sample.quote +:+ "App login fails after update" +:+ Sample.quote),
      "App login fails after update".
    split; [cut_off "" ""|]. split; [exists ""; repeat split|].
    split; [cut_off "" ""|]. split; [cut_off Sample.quote Sample.quote|].
    cut_off "" "". }
  apply bulleted_nil.
Defined.

(** The response to that prompt. *)
Example no_key_three_bullets :
  LlmClient.complete Sample.env Sample.three_bullets =
  (LlmClient.no_key_intro +:+
   "  • The app crashes at login" +:+ LlmClient.nl +:+
   "  • I was charged a late fee twice" +:+ LlmClient.nl +:+
   "  • App login fails after update" +:+ LlmClient.nl +:+ LlmClient.nl +:+
   LlmClient.no_key_recommendation +:+ LlmClient.no_key_tag,
   "no-key").
Proof. vm_compute. reflexivity. Qed.

(** ** Frames and lists *)

Lemma mapM_result_length {A B : Type} (f : A -> result B) (l : list A) (k : list B) :
  mapM f l = Ok k -> length k = length l.
Proof.
  revert k. induction l as [|x l IH]; intros k; simpl.
  - by intros [= <-].
  - unfold mbind, result_bind, mret, result_ret.
    destruct (f x); [|done]. destruct (mapM f l) eqn:E; [|done].
    intros [= <-]. simpl. by rewrite (IH _ eq_refl).
Qed.

Lemma lookup_replace_col name v cols other :
  Frame.lookup_col other (Frame.replace_col name v cols) =
  if String.eqb name other then Some v else Frame.lookup_col other cols.
Proof.
  destruct (String.eqb_spec name other) as [Heq|Hne].
  - subst other. induction cols as [|[n w] cols IH]; simpl.
    + by rewrite String.eqb_refl.
    + destruct (String.eqb_spec n name) as [Hn|Hn]; simpl.
      * by rewrite Hn, String.eqb_refl.
      * by destruct (String.eqb_spec n name).
  - induction cols as [|[n w] cols IH]; simpl.
    + by destruct (String.eqb_spec name other).
    + destruct (String.eqb_spec n name) as [Hn|Hn]; simpl.
      * subst n. by destruct (String.eqb_spec name other).
      * by rewrite IH.
Qed.

Lemma names_replace_col name v cols :
  map fst (Frame.replace_col name v cols) =
  if bool_decide (name ∈ map fst cols) then map fst cols
  else (map fst cols ++ [name])%list.
Proof.
  induction cols as [|[n w] cols IH]; simpl; [done|].
  destruct (String.eqb_spec n name) as [->|Hn]; simpl.
  - rewrite bool_decide_eq_true_2; [done | apply elem_of_cons; by left].
  - rewrite IH. destruct (bool_decide (name ∈ map fst cols)) eqn:E.
    + apply bool_decide_eq_true in E.
      rewrite bool_decide_eq_true_2; [done | apply elem_of_cons; by right].
    + apply bool_decide_eq_false in E.
      rewrite bool_decide_eq_false_2; [done|].
      intros H. apply elem_of_cons in H as [H|H]; [by destruct Hn | done].
Qed.

Lemma insert_by_perm {A : Type} (before : A -> A -> bool) (x : A) (l : list A) :
  Frame.insert_by before x l ≡ₚ x :: l.
Proof.
  induction l as [|y l IH]; simpl; [done|].
  destruct (before y x); [|done]. rewrite IH. apply Permutation_swap.
Qed.

Lemma sort_by_perm {A : Type} (before : A -> A -> bool) (l : list A) :
  Frame.sort_by before l ≡ₚ l.
Proof.
  unfold Frame.sort_by. induction l as [|x l IH]; simpl; [done|].
  by rewrite insert_by_perm, IH.
Qed.

(** Each label in range is counted under exactly one cluster id. *)
Lemma occurrences_sum (k : nat) (labels : list Z) :
  Forall (fun l => (0 <= l < Z.of_nat k)%Z) labels ->
  foldr (fun i acc => (occurrences (Z.of_nat i) labels + acc)%Z) 0%Z (seq 0 k) =
  Z.of_nat (length labels).
Proof.
  induction labels as [|l labels IH]; intros H.
  - unfold occurrences. simpl. induction (seq 0 k) as [|i s IHs]; simpl; [done | by rewrite IHs].
  - apply Forall_cons in H as [Hl H]. specialize (IH H).
    assert (forall a n, (Z.of_nat a <= l < Z.of_nat (a + n))%Z \/ (l < Z.of_nat a)%Z \/ (Z.of_nat (a + n) <= l)%Z ->
            foldr (fun i acc => (occurrences (Z.of_nat i) (l :: labels) + acc)%Z) 0%Z (seq a n) =
            ((if bool_decide (Z.of_nat a <= l < Z.of_nat (a + n))%Z then 1 else 0) +
             foldr (fun i acc => (occurrences (Z.of_nat i) labels + acc)%Z) 0%Z (seq a n))%Z) as Hstep.
    { intros a n. revert a. induction n as [|n IHn]; intros a Ha; simpl.
      - rewrite bool_decide_eq_false_2; [done | lia].
      - rewrite IHn by lia. unfold occurrences at 1 3. rewrite filter_cons.
        destruct (decide (l = Z.of_nat a)) as [->|Hne]; simpl length.
        + rewrite (bool_decide_eq_true_2 (_ <= _ < Z.of_nat (a + S n))%Z) by lia.
          rewrite (bool_decide_eq_false_2 (_ <= _ < Z.of_nat (S a + n))%Z) by lia.
          lia.
        + destruct (decide (Z.of_nat a <= l < Z.of_nat (a + S n))%Z).
          * rewrite (bool_decide_eq_true_2 (_ <= _ < Z.of_nat (a + S n))%Z) by done.
            rewrite (bool_decide_eq_true_2 (_ <= _ < Z.of_nat (S a + n))%Z) by lia.
            lia.
          * rewrite (bool_decide_eq_false_2 (_ <= _ < Z.of_nat (a + S n))%Z) by done.
            rewrite (bool_decide_eq_false_2 (_ <= _ < Z.of_nat (S a + n))%Z) by lia.
            lia. }
    rewrite Hstep by lia. rewrite IH.
    rewrite bool_decide_eq_true_2 by (simpl; lia). simpl length. lia.
Qed.

(** ** The theme extraction driver *)

Section ExtractionFacts.

Import Frame ThemeExtractor.

Variable analyze : string -> list string.
Variable Matrix : Type.
Variable tfidf : Z -> list string -> list string -> list string * Matrix.
Variable kmeans : Z -> Z -> Matrix -> result (list Z * list (list nat)).

(** One turn of the loop over the cluster ids leaves the state as it is. *)
Lemma theme_record_run text_col ntop fn oc (i : nat) (st : state) :
  exists r,
    theme_record text_col ntop fn oc i st = (st, r) /\
    forall rec ids, r = Ok rec -> col "theme_id" (df st) = Ok ids ->
      record_of ids i rec.
Proof.
  unfold theme_record, mbind, Eff_bind, lift, get_df, mret, Eff_ret.
  destruct (get oc i) as [order|]; [|by eexists].
  destruct (mapM (get fn) (slice_to ntop order)); [|by eexists].
  destruct (col "theme_id" (df st)) as [ids|] eqn:Hids; [|by eexists].
  destruct (col text_col (df st)); [|by eexists].
  destruct (mapM as_text _); [|by eexists].
  eexists. split; [done|]. by intros rec ids' [= <-] [= <-].
Qed.

Lemma theme_records_run text_col ntop fn oc (l : list nat) (st : state) :
  exists r,
    mapM (theme_record text_col ntop fn oc) l st = (st, r) /\
    forall recs ids, r = Ok recs -> col "theme_id" (df st) = Ok ids ->
      Forall2 (record_of ids) l recs.
Proof.
  induction l as [|i l (r & Hr & IH)].
  - exists (Ok []). split; [done|]. intros recs ids [= <-] _. constructor.
  - destruct (theme_record_run text_col ntop fn oc i st) as (r1 & H1 & P1).
    simpl. unfold mbind at 1. unfold Eff_bind at 1. rewrite H1.
    destruct r1 as [rec|e]; [|by eexists].
    unfold mbind at 1. unfold Eff_bind at 1. rewrite Hr.
    destruct r as [recs|e]; [|by eexists].
    eexists. split; [done|]. intros recs' ids [= <-] Hids.
    constructor; [by apply P1 | by apply IH].
Qed.

Ltac trace_goal :=
  try done; try (intros; congruence);
  try (simpl; rewrite <- ?app_assoc; reflexivity).

Lemma extract_themes_shape text_col n_themes seed ntop max_features st st' r :
  extract_themes analyze Matrix tfidf kmeans text_col n_themes seed ntop
    max_features st = (st', r) ->
  run_shape analyze Matrix tfidf kmeans st text_col n_themes seed max_features st' r.
Proof.
  unfold extract_themes, mbind, Eff_bind, lift, get_df, put_df, emit, mret, Eff_ret.
  destruct (col text_col (df st)) as [column|e] eqn:Hcol;
    [|intros [= <- <-]; by apply NoTextColumn].
  assert (length (fillna (Str EmptyString) column) = length column) as Hlen
    by (unfold fillna; apply length_fmap).
  rewrite !Hlen. clear Hlen.
  set (n := length column).
  match goal with
  | |- context [match ?m with pair _ _ => _ end] =>
      assert (m = (mkState (df st) (trace st ++ warning n n_themes)%list,
                   Ok (effective n n_themes))) as ->
  end.
  { unfold warning, effective. destruct (Z.of_nat n <? n_themes)%Z; [done|].
    rewrite app_nil_r. by destruct st. }
  simpl df. simpl trace.
  destruct (mapM doc_of_cell (fillna (Str EmptyString) column)) as [docs|e] eqn:Hdocs.
  2:{ simpl. intros [= <- <-]. apply (NotVectorized _ _ _ _ _ _ _ _ _ column); trace_goal. }
  destruct (fit_transform analyze Matrix tfidf max_features docs) as [[fn X]|e] eqn:Hfit.
  2:{ simpl. intros [= <- <-]. apply (NotVectorized _ _ _ _ _ _ _ _ _ column); trace_goal. }
  destruct (kmeans (effective n n_themes) seed X) as [[labels oc]|e] eqn:Hkm.
  2:{ simpl. intros [= <- <-]. apply (NotClustered _ _ _ _ _ _ _ _ _ column docs fn X); trace_goal. }
  simpl.
  destruct (set_col "theme_id" (map Int labels) (df st)) as [d'|e] eqn:Hset.
  2:{ simpl. intros [= <- <-]. apply (NotClustered _ _ _ _ _ _ _ _ _ column docs fn X); trace_goal. }
  destruct (theme_records_run text_col ntop fn oc
              (seq 0 (Z.to_nat (effective n n_themes)))
              (mkState d' (((trace st ++ warning n n_themes) ++
                 [CallFitTransform n]) ++ [CallKMeans (effective n n_themes) n])%list))
    as (rr & Hrr & Hrecs).
  unfold Eff_bind, Eff_ret in Hrr. rewrite Hrr.
  assert (col "theme_id" d' = Ok (map Int labels)) as Hids.
  { unfold set_col in Hset. case_bool_decide; [|done]. injection Hset as <-.
    unfold col, assign. simpl. by rewrite lookup_replace_col, String.eqb_refl. }
  assert (forall (tr : list event) (rest : result (list ThemeRecord)),
            (forall themes, rest = Ok themes ->
               exists records,
                 Forall2 (record_of (map Int labels))
                   (seq 0 (Z.to_nat (effective n n_themes))) records /\
                 themes ≡ₚ records) ->
            (forall k0 n0, CallKMeans k0 n0 ∉ tr) ->
            run_shape analyze Matrix tfidf kmeans st text_col n_themes seed max_features
              (mkState d' ((((trace st ++ warning n n_themes) ++
                 [CallFitTransform n]) ++ [CallKMeans (effective n n_themes) n]) ++ tr)%list)
              rest) as Hdone.
  { intros tr rest Hrest Htr.
    apply (Clustered _ _ _ _ _ _ _ _ _ column docs fn X labels oc); trace_goal.
    exists tr. split; [trace_goal | done]. }
  destruct rr as [records|e].
  2:{ simpl. intros [= <- <-]. rewrite <- (app_nil_r (_ ++ [CallKMeans _ _])).
      apply Hdone; [done | intros; apply not_elem_of_nil]. }
  destruct (sort_by_count records) as [themes|e] eqn:Hsort.
  2:{ simpl. intros [= <- <-]. rewrite <- (app_nil_r (_ ++ [CallKMeans _ _])).
      apply Hdone; [done | intros; apply not_elem_of_nil]. }
  destruct (get themes 0) as [top|e].
  2:{ simpl. intros [= <- <-]. rewrite <- (app_nil_r (_ ++ [CallKMeans _ _])).
      apply Hdone; [done | intros; apply not_elem_of_nil]. }
  simpl. intros [= <- <-]. apply Hdone.
  - intros themes' [= <-]. exists records. split.
    + by apply (Hrecs records).
    + unfold sort_by_count in Hsort. destruct records as [|rec records]; [done|].
      injection Hsort as <-.
      apply (sort_by_perm (fun a b => (count b <? count a)%Z) (rec :: records)).
  - intros k0 n0 H. apply list_elem_of_singleton in H. discriminate.
Qed.

(** The vectorizer succeeds only on two documents or more: a term must
    occur in two of them. *)
Lemma fit_transform_two_docs max_features docs v :
  fit_transform analyze Matrix tfidf max_features docs = Ok v ->
  (2 <= length docs)%nat.
Proof.
  unfold fit_transform.
  destruct (frequent_terms analyze docs) as [|t ts] eqn:E; [done|]. intros _.
  assert (t ∈ frequent_terms analyze docs) as Hin
    by (rewrite E; apply elem_of_cons; by left).
  unfold frequent_terms in Hin. apply list_elem_of_filter in Hin as [Hdf _].
  unfold doc_freq in Hdf.
  pose proof (length_filter (fun d => t ∈ analyze d) docs). lia.
Qed.

Lemma col_length name d v :
  wf d -> col name d = Ok v -> length v = nrows d.
Proof.
  unfold wf, col. intros Hwf.
  destruct (lookup_col name (columns d)) as [w|] eqn:E; [|done]. intros [= <-].
  induction (columns d) as [|[n x] cols IH]; [done|]. simpl in E.
  apply Forall_cons in Hwf as [Hx Hwf].
  destruct (String.eqb n name); [by injection E as <- | by apply IH].
Qed.

Lemma mask_sum_labels i labels :
  mask_sum (eq_mask (Int i) (map Int labels)) = occurrences i labels.
Proof.
  unfold mask_sum, occurrences, eq_mask. f_equal.
  induction labels as [|l labels IH]; [done|]. simpl map.
  rewrite !filter_cons.
  destruct (decide (l = i)) as [->|Hne].
  - rewrite bool_decide_eq_true_2 by done.
    destruct (decide (true = true)); [|done]. simpl. by rewrite IH.
  - rewrite bool_decide_eq_false_2 by (intros [[=] _]; done).
    destruct (decide (false = true)); [done|]. exact IH.
Qed.

Lemma total_count_perm themes records :
  themes ≡ₚ records -> total_count themes = total_count records.
Proof.
  unfold total_count. induction 1; simpl; lia.
Qed.

Lemma total_count_records labels ids records :
  Forall2 (record_of (map Int labels)) ids records ->
  total_count records =
  foldr (fun i acc => (occurrences (Z.of_nat i) labels + acc)%Z) 0%Z ids.
Proof.
  induction 1 as [|i r ids records [_ Hc] _ IH]; simpl; [done|].
  by rewrite Hc, mask_sum_labels, IH.
Qed.

(** An exception of the clustering is the outcome of the run. *)
Lemma extract_themes_kmeans_raises text_col n_themes seed ntop max_features
    st st' r column docs fn X e :
  col text_col (df st) = Ok column ->
  mapM doc_of_cell (fillna (Str EmptyString) column) = Ok docs ->
  fit_transform analyze Matrix tfidf max_features docs = Ok (fn, X) ->
  kmeans (effective (length column) n_themes) seed X = Raise e ->
  extract_themes analyze Matrix tfidf kmeans text_col n_themes seed ntop
    max_features st = (st', r) ->
  r = Raise e.
Proof.
  intros Hcol Hdocs Hfit Hkm.
  unfold extract_themes, mbind, Eff_bind, lift, get_df, put_df, emit, mret, Eff_ret.
  rewrite Hcol.
  assert (length (fillna (Str EmptyString) column) = length column) as Hlen
    by (unfold fillna; apply length_fmap).
  rewrite !Hlen. clear Hlen.
  set (n := length column) in *.
  match goal with
  | |- context [match ?m with pair _ _ => _ end] =>
      assert (m = (mkState (df st) (trace st ++ warning n n_themes)%list,
                   Ok (effective n n_themes))) as ->
  end.
  { unfold warning, effective. destruct (Z.of_nat n <? n_themes)%Z; [done|].
    rewrite app_nil_r. by destruct st. }
  simpl df. simpl trace. rewrite Hdocs, Hfit, Hkm. simpl. by intros [= <- <-].
Qed.

(** C2.  For a text column of N documents and a requested count K with
    N < K, the driver logs the reduction to max(2, N // 2), and every call
    to the clustering of the run is made with exactly that count, on the N
    documents, and with no more clusters than documents: with fewer than
    two documents the vectorizer fails first and no clustering is
    attempted.  When the vectorizer succeeds, the run does cluster, once
    and right after the vectorizer, with that count and on the matrix of
    the vectorizer: an exception of this clustering is the outcome of the
    run, and a run that returns has put the labels of this clustering in
    the column theme_id and returns as many themes as that count. *)
Theorem reduced_cluster_count d text_col n_themes seed ntop max_features
    column st' r :
  col text_col d = Ok column ->
  (Z.of_nat (length column) < n_themes)%Z ->
  extract_themes analyze Matrix tfidf kmeans text_col n_themes seed ntop
    max_features (mkState d []) = (st', r) ->
  LogWarning (length column) (Z.max 2 (Z.of_nat (length column) / 2)) ∈ trace st' /\
  (forall k n, CallKMeans k n ∈ trace st' ->
     k = Z.max 2 (Z.of_nat (length column) / 2) /\
     n = length column /\
     (k <= Z.of_nat n)%Z) /\
  (forall docs fn X,
     mapM doc_of_cell (fillna (Str EmptyString) column) = Ok docs ->
     fit_transform analyze Matrix tfidf max_features docs = Ok (fn, X) ->
     (exists tail,
        trace st' =
          ([LogWarning (length column) (Z.max 2 (Z.of_nat (length column) / 2));
            CallFitTransform (length column);
            CallKMeans (Z.max 2 (Z.of_nat (length column) / 2)) (length column)] ++
           tail)%list /\
        forall k n, CallKMeans k n ∉ tail) /\
     (forall e,
        kmeans (Z.max 2 (Z.of_nat (length column) / 2)) seed X = Raise e ->
        r = Raise e) /\
     (forall themes, r = Ok themes ->
        exists labels oc,
          kmeans (Z.max 2 (Z.of_nat (length column) / 2)) seed X = Ok (labels, oc) /\
          col "theme_id" (df st') = Ok (map Int labels) /\
          length themes = Z.to_nat (Z.max 2 (Z.of_nat (length column) / 2)))).
Proof.
  intros Hcol Hlt Hrun. pose proof Hrun as Hshape.
  apply extract_themes_shape in Hshape.
  assert (effective (length column) n_themes =
          Z.max 2 (Z.of_nat (length column) / 2)) as Heff.
  { unfold effective. apply Z.ltb_lt in Hlt. by rewrite Hlt. }
  assert (warning (length column) n_themes =
          [LogWarning (length column) (Z.max 2 (Z.of_nat (length column) / 2))])
    as Hwarn.
  { unfold warning. rewrite Heff. apply Z.ltb_lt in Hlt. by rewrite Hlt. }
  assert (forall docs v,
            mapM doc_of_cell (fillna (Str EmptyString) column) = Ok docs ->
            fit_transform analyze Matrix tfidf max_features docs = Ok v ->
            (Z.max 2 (Z.of_nat (length column) / 2) <= Z.of_nat (length column))%Z)
    as Hfew.
  { intros docs v Hdocs Hfit. apply fit_transform_two_docs in Hfit.
    apply mapM_result_length in Hdocs. unfold fillna in Hdocs.
    rewrite length_fmap in Hdocs.
    assert (Z.of_nat (length column) / 2 <= Z.of_nat (length column))%Z
      by (apply Z.div_le_upper_bound; lia).
    lia. }
  assert (forall docs fn X e,
            mapM doc_of_cell (fillna (Str EmptyString) column) = Ok docs ->
            fit_transform analyze Matrix tfidf max_features docs = Ok (fn, X) ->
            kmeans (Z.max 2 (Z.of_nat (length column) / 2)) seed X = Raise e ->
            r = Raise e) as Hraise.
  { intros docs fn X e Hdocs Hfit Hkm. rewrite <- Heff in Hkm.
    exact (extract_themes_kmeans_raises text_col n_themes seed ntop max_features
             (mkState d []) st' r column docs fn X e Hcol Hdocs Hfit Hkm Hrun). }
  simpl in Hshape.
  inversion Hshape as
    [e He | col0 st0 e Hc Hv Hd Ht | col0 docs fn X st0 e Hc Hdocs Hfit Hd Ht
     | col0 docs fn X labels oc st0 r0 Hc Hdocs Hfit Hkm Hset (tl & Ht & Htl) Hrec];
    subst; simpl in *.
  - congruence.
  - assert (col0 = column) as -> by congruence. rewrite Ht, Hwarn.
    split; [|split].
    + apply elem_of_cons. by left.
    + intros k n Hin. apply elem_of_cons in Hin as [[=]|Hin].
      apply list_elem_of_singleton in Hin. discriminate.
    + intros docs fn X Hdocs Hfit. specialize (Hv docs Hdocs). congruence.
  - assert (col0 = column) as -> by congruence. rewrite Ht, Hwarn, Heff.
    split; [|split].
    + apply elem_of_cons. by left.
    + intros k n Hin. apply elem_of_cons in Hin as [[=]|Hin].
      apply elem_of_cons in Hin as [[=]|Hin].
      apply list_elem_of_singleton in Hin. injection Hin as -> ->.
      repeat split. by apply (Hfew docs (fn, X)).
    + intros docs' fn' X' Hdocs' Hfit'. split; [|split].
      * exists []. split; [done|]. intros k n. apply not_elem_of_nil.
      * intros e0. by apply (Hraise docs' fn' X').
      * intros themes [=].
  - assert (col0 = column) as -> by congruence. rewrite Ht, Hwarn, Heff.
    split; [|split].
    + apply elem_of_cons. by left.
    + intros k n Hin. apply elem_of_cons in Hin as [[=]|Hin].
      apply elem_of_cons in Hin as [[=]|Hin].
      apply elem_of_cons in Hin as [[= -> ->]|Hin].
      * repeat split. by apply (Hfew docs (fn, X)).
      * by apply Htl in Hin.
    + intros docs' fn' X' Hdocs' Hfit'.
      assert (docs' = docs) as -> by congruence.
      assert (fn' = fn /\ X' = X) as [-> ->] by (split; congruence).
      split; [|split].
      * by exists tl.
      * intros e0. by apply (Hraise docs fn X).
      * intros themes ->. exists labels, oc. rewrite <- Heff.
        split; [done|]. split.
        -- unfold set_col in Hset. case_bool_decide; [|done]. injection Hset as <-.
           unfold col, assign. simpl. by rewrite lookup_replace_col, String.eqb_refl.
        -- destruct (Hrec themes eq_refl) as (records & Hrecs & Hperm).
           rewrite Hperm. apply Forall2_length in Hrecs.
           by rewrite <- Hrecs, length_seq.
Qed.

Lemma records_counts labels ids records :
  Forall2 (record_of (map Int labels)) ids records ->
  forall r, r ∈ records -> count r = occurrences (theme_id r) labels.
Proof.
  induction 1 as [|i r0 ids records [Hid Hc] _ IH]; intros r Hin.
  - by apply elem_of_nil in Hin.
  - apply elem_of_cons in Hin as [->|Hin]; [|by apply IH].
    by rewrite Hc, Hid, mask_sum_labels.
Qed.

(** C3.  When the clustering labels every document with a cluster id
    below the cluster count, as k-means does, a run that returns the theme
    table has given every document exactly one theme id (the new column holds
    one label per document), the count of every theme record is the number of
    documents labelled with its theme id, and the counts add up to the number
    of input documents. *)
Theorem theme_counts_partition st text_col n_themes seed ntop max_features
    st' themes :
  (forall k sd X labels oc,
      kmeans k sd X = Ok (labels, oc) ->
      Forall (fun l => (0 <= l < k)%Z) labels) ->
  wf (df st) ->
  extract_themes analyze Matrix tfidf kmeans text_col n_themes seed ntop
    max_features st = (st', Ok themes) ->
  exists column labels,
    col text_col (df st) = Ok column /\
    col "theme_id" (df st') = Ok (map Int labels) /\
    length labels = length column /\
    (forall r, r ∈ themes -> count r = occurrences (theme_id r) labels) /\
    total_count themes = Z.of_nat (length column).
Proof.
  intros Hkm Hwf Hrun. apply extract_themes_shape in Hrun.
  inversion Hrun as
    [ | | | column docs fn X labels oc st0 r0 Hc Hdocs Hfit Hk Hset Htr Hrec];
    subst.
  destruct (Hrec themes eq_refl) as (records & Hrecs & Hperm).
  assert (col "theme_id" (df st') = Ok (map Int labels) /\
          length labels = nrows (df st)) as [Hids Hlen].
  { unfold set_col in Hset. case_bool_decide as Hl; [|done]. injection Hset as <-.
    split.
    - unfold col, assign. simpl. by rewrite lookup_replace_col, String.eqb_refl.
    - by rewrite length_fmap in Hl. }
  exists column, labels. rewrite (col_length _ _ _ Hwf Hc) in *.
  repeat split; [done..| |].
  - intros r Hr. rewrite Hperm in Hr. by apply (records_counts labels _ _ Hrecs).
  - rewrite (total_count_perm _ _ Hperm), (total_count_records labels _ _ Hrecs).
    rewrite occurrences_sum; [by rewrite Hlen|].
    specialize (Hkm _ _ _ _ _ Hk). eapply Forall_impl; [exact Hkm|].
    simpl. intros l Hl. lia.
Qed.

(** C10, as amended.  A run of [extract_themes] changes nothing of the
    frame but the column theme_id: the number of rows and every column of
    another name are as before, cell for cell and in the same order.  When
    the run returns, theme_id holds the labels of the clustering; it is a
    new column, the last one, when the frame had no column of that name,
    and otherwise the column of that name with its former values replaced,
    no column being added. *)
Theorem extract_themes_frame st text_col n_themes seed ntop max_features st' r :
  extract_themes analyze Matrix tfidf kmeans text_col n_themes seed ntop
    max_features st = (st', r) ->
  nrows (df st') = nrows (df st) /\
  (forall name, name <> "theme_id" ->
     lookup_col name (columns (df st')) = lookup_col name (columns (df st))) /\
  (forall themes, r = Ok themes ->
     (exists labels, col "theme_id" (df st') = Ok (map Int labels)) /\
     names (df st') =
       if has_col "theme_id" (df st) then names (df st)
       else (names (df st) ++ ["theme_id"])%list).
Proof.
  intros Hrun. apply extract_themes_shape in Hrun.
  inversion Hrun as
    [e He | col0 st0 e Hc Hv Hd Ht | col0 docs fn X st0 e Hc Hdocs Hfit Hd Ht
     | column docs fn X labels oc st0 r0 Hc Hdocs Hfit Hk Hset Htr Hrec];
    subst; try rewrite Hd; try (by repeat split).
  unfold set_col in Hset. case_bool_decide as Hl; [|done].
  injection Hset as Hset. rewrite <- Hset. unfold assign; simpl.
  split; [done|]. split.
  - intros name Hne. rewrite lookup_replace_col.
    destruct (String.eqb_spec "theme_id" name); [by subst | done].
  - intros themes _. split.
    + exists labels. unfold col. simpl. by rewrite lookup_replace_col.
    + unfold names, has_col, names. simpl. apply names_replace_col.
Qed.

End ExtractionFacts.

Lemma sample_kmeans_in_range k sd X labels oc :
  Sample.kmeans k sd X = Ok (labels, oc) ->
  Forall (fun l => (0 <= l < k)%Z) labels.
Proof.
  unfold Sample.kmeans. destruct (Z.leb_spec k 0); [done|].
  destruct (Z.of_nat X.1 <? k)%Z; [done|]. intros [= <- _].
  apply Forall_fmap, Forall_forall. intros i _. simpl.
  apply Z.mod_pos_bound. lia.
Qed.

Lemma sample_complaints_wf : Frame.wf Sample.complaints.
Proof. repeat constructor. Qed.

(** The run of C2 on the three sample complaints, five themes being asked
    for: the count is reduced to two, and the clustering is called once,
    after the vectorizer, with two clusters on three documents. *)
Lemma reduced_cluster_count_witness :
  ThemeExtractor.LogWarning 3 2 ∈ ThemeExtractor.trace (Sample.run Sample.complaints).1 /\
  (forall k n,
     ThemeExtractor.CallKMeans k n ∈ ThemeExtractor.trace (Sample.run Sample.complaints).1 ->
     k = 2%Z /\ n = 3%nat /\ (k <= Z.of_nat n)%Z) /\
  (forall docs fn X,
     mapM (ThemeExtractor.doc_of_cell)
       (Frame.fillna (Str EmptyString)
          [Str "the app crashes at login"; Str "i was charged a late fee twice";
           Str "app login fails after update"]) = Ok docs ->
     ThemeExtractor.fit_transform Sample.analyze (nat * nat)%type Sample.tfidf
       3000 docs = Ok (fn, X) ->
     (exists tail,
        ThemeExtractor.trace (Sample.run Sample.complaints).1 =
          ([ThemeExtractor.LogWarning 3 2; ThemeExtractor.CallFitTransform 3;
            ThemeExtractor.CallKMeans 2 3] ++ tail)%list /\
        forall k n, ThemeExtractor.CallKMeans k n ∉ tail) /\
     (forall e, Sample.kmeans 2 42 X = Raise e ->
        (Sample.run Sample.complaints).2 = Raise e) /\
     (forall themes, (Sample.run Sample.complaints).2 = Ok themes ->
        exists labels oc,
          Sample.kmeans 2 42 X = Ok (labels, oc) /\
          Frame.col "theme_id"
            (ThemeExtractor.df (Sample.run Sample.complaints).1) =
            Ok (map Int labels) /\
          length themes = 2%nat)).
Proof.
  apply (reduced_cluster_count Sample.analyze (nat * nat)%type Sample.tfidf
           Sample.kmeans Sample.complaints "text_clean" 5 42 10 3000
           [Str "the app crashes at login"; Str "i was charged a late fee twice";
            Str "app login fails after update"]
           (Sample.run Sample.complaints).1 (Sample.run Sample.complaints).2).
  - reflexivity.
  - simpl. lia.
  - apply surjective_pairing.
Defined.

(** On one document the count is reduced to two, more than there are
    documents, and the run stops in the vectorizer: no term occurs in two
    documents, and the clustering is not called. *)
Example single_document_not_clustered :
  Sample.run Sample.single =
  (ThemeExtractor.mkState Sample.single
     [ThemeExtractor.LogWarning 1 2; ThemeExtractor.CallFitTransform 1],
   Raise (ValueError "After pruning, no terms remain")).
Proof. vm_compute. reflexivity. Qed.

(** The run of C3 on the three sample complaints: two themes, of two
    documents and of one. *)
Lemma theme_counts_partition_witness :
  exists column labels,
    Frame.col "text_clean" Sample.complaints = Ok column /\
    Frame.col "theme_id" (ThemeExtractor.df (Sample.run Sample.complaints).1) =
      Ok (map Int labels) /\
    length labels = length column /\
    (forall r, r ∈ Sample.extracted ->
       ThemeExtractor.count r = occurrences (ThemeExtractor.theme_id r) labels) /\
    ThemeExtractor.total_count Sample.extracted = Z.of_nat (length column).
Proof.
  apply (theme_counts_partition Sample.analyze (nat * nat)%type Sample.tfidf
           Sample.kmeans (ThemeExtractor.mkState Sample.complaints [])
           "text_clean" 5 42 10 3000).
  - exact sample_kmeans_in_range.
  - exact sample_complaints_wf.
  - vm_compute. reflexivity.
Defined.

(** The run of C10 on the three sample complaints, which have no column
    theme_id: one column is added, the last. *)
Lemma extract_themes_frame_witness :
  Frame.nrows (ThemeExtractor.df (Sample.run Sample.complaints).1) = 3%nat /\
  (forall name, name <> "theme_id" ->
     Frame.lookup_col name (Frame.columns (ThemeExtractor.df (Sample.run Sample.complaints).1)) =
     Frame.lookup_col name (Frame.columns Sample.complaints)) /\
  (forall themes, (Sample.run Sample.complaints).2 = Ok themes ->
     (exists labels,
        Frame.col "theme_id" (ThemeExtractor.df (Sample.run Sample.complaints).1) =
          Ok (map Int labels)) /\
     Frame.names (ThemeExtractor.df (Sample.run Sample.complaints).1) =
       ["complaint_text"; "date"; "text_clean"; "theme_id"]).
Proof.
  apply (extract_themes_frame Sample.analyze (nat * nat)%type Sample.tfidf
           Sample.kmeans (ThemeExtractor.mkState Sample.complaints [])
           "text_clean" 5 42 10 3000).
  apply surjective_pairing.
Defined.

(** C10, the claim as stated fails.  On a frame that already has a column
    theme_id the call returns, no column is added, and the values of that
    column are not the ones the frame came with. *)
Lemma extract_themes_overwrites_theme_id :
  (exists themes, (Sample.run Sample.labelled).2 = Ok themes) /\
  Frame.col "theme_id" Sample.labelled = Ok [Int 7; Int 7; Int 7] /\
  Frame.col "theme_id" (ThemeExtractor.df (Sample.run Sample.labelled).1) =
    Ok [Int 0; Int 1; Int 0] /\
  Frame.names (ThemeExtractor.df (Sample.run Sample.labelled).1) =
    Frame.names Sample.labelled.
Proof. vm_compute. split; [by eexists | done]. Qed.

(** ** The quantitative handler *)

Section QuantFacts.

Import Frame QuantHandler.

Lemma prepare_themes L h : themes (_prepare L h) = themes h.
Proof. unfold _prepare. by destruct (col "date" (df h)). Qed.

Lemma has_col_lookup name d :
  has_col name d = true <-> is_Some (lookup_col name (columns d)).
Proof.
  unfold has_col, names. rewrite bool_decide_eq_true.
  induction (columns d) as [|[n v] cols IH]; simpl.
  - split; [by intros ?%elem_of_nil | by intros []].
  - rewrite elem_of_cons, IH. destruct (String.eqb_spec n name) as [->|Hne].
    + split; [by eexists | by left].
    + split; [by intros [?|?] | by right].
Qed.

Lemma has_col_assign name v d other :
  has_col other (assign name v d) =
  if String.eqb name other then true else has_col other d.
Proof.
  apply eq_true_iff_eq. rewrite has_col_lookup. unfold assign. simpl.
  rewrite lookup_replace_col. destruct (String.eqb name other).
  - split; [done | by eexists].
  - by rewrite has_col_lookup.
Qed.

Lemma prepare_has_channel L h :
  has_col "channel" (df (_prepare L h)) = has_col "channel" (df h).
Proof.
  unfold _prepare. destruct (col "date" (df h)); [|done]. simpl.
  by rewrite !has_col_assign.
Qed.

Lemma tally_from_count seen l k n :
  (k, n) ∈ tally_from seen l -> k ∈ l /\ (k ∉ seen) /\ n = cells_equal k l.
Proof.
  unfold cells_equal. revert seen. induction l as [|c l IH]; intros seen; simpl.
  - by intros ?%elem_of_nil.
  - case_bool_decide as Hseen.
    + intros H. apply IH in H as (Hin & Hs & ->). split; [apply elem_of_cons; by right|].
      split; [done|]. rewrite filter_cons.
      destruct (decide (c = k)) as [->|]; [done | done].
    + intros H. apply elem_of_cons in H as [[= -> ->]|H].
      * split; [apply elem_of_cons; by left|]. split; [done|].
        rewrite filter_cons. by destruct (decide (c = c)).
      * apply IH in H as (Hin & Hs & ->).
        apply not_elem_of_cons in Hs as [Hne Hs].
        split; [apply elem_of_cons; by right|]. split; [done|].
        rewrite filter_cons. destruct (decide (c = k)); [by subst | done].
Qed.

(** The size of a group is the number of rows that carry its key, and a
    missing key makes no group. *)
Lemma groupby_size_count keys k n :
  (k, n) ∈ groupby_size keys -> k <> NA /\ n = cells_equal k keys.
Proof.
  unfold groupby_size. rewrite sort_by_perm. unfold tally.
  intros H. apply tally_from_count in H as (Hin & _ & ->).
  unfold dropna in Hin. apply list_elem_of_filter in Hin as [Hna _].
  split; [done|]. unfold cells_equal, dropna. f_equal.
  induction keys as [|c keys IH]; [done|]. rewrite !filter_cons.
  destruct (decide (c <> NA)) as [Hc|Hc].
  - rewrite filter_cons. destruct (decide (c = k)); simpl; by rewrite IH.
  - destruct (decide (c = k)) as [->|]; [done | exact IH].
Qed.

Lemma col_assign name v d other :
  col other (assign name v d) = if String.eqb name other then Ok v else col other d.
Proof.
  unfold col, assign. simpl. rewrite lookup_replace_col.
  by destruct (String.eqb name other).
Qed.

End QuantFacts.

(** C4, the claim as stated fails.  The second complaint of the sample has
    a date that does not parse.  With a missing period rendered as the text
    NaT, the monthly trend counts that row in a group of its own. *)
Lemma trend_counts_unparsed_date :
  QuantHandler.to_datetime Sample.lib (Str "not a date") = None /\
  QuantHandler.handle Sample.lib
    (QuantHandler.init Sample.lib Sample.complaints Sample.themes)
    "Show me the monthly complaint trend" =
  Ok (trend_result "monthly"
        [(Str "2024-01", 1%Z); (Str "2024-02", 1%Z); (Str "NaT", 1%Z)] 3).
Proof. vm_compute. done. Qed.

(** C4, as amended.  On a dataset with a date column, every question that
    the dispatch hands to the trend query is answered without failing,
    whatever the dates; the rows are grouped by week exactly when the
    question, in lower case, contains the text week, and by month
    otherwise; and every group, except the one under the text that renders
    a missing period, counts exactly the rows whose date parses into its
    period, so that a row whose date fails to parse is counted in no month
    and in no week. *)
Theorem trend_query_groups L cleaned_df themes_df query dates :
  Frame.col "date" cleaned_df = Ok dates ->
  routed_to_trend query ->
  let weekly := PyStr.contains "week" (PyStr.lower query) in
  let text := if weekly then QuantHandler.week_text L
              else QuantHandler.month_text L in
  let trend :=
    Frame.groupby_size
      (map (QuantHandler.period_cell L text)
           (map (QuantHandler.to_datetime L) dates)) in
  QuantHandler.handle L (QuantHandler.init L cleaned_df themes_df) query =
    Ok (trend_result (if weekly then "weekly" else "monthly") trend
          (Z.of_nat (Frame.nrows cleaned_df))) /\
  forall p n, (Str p, n) ∈ trend -> QuantHandler.missing_period L <> Str p ->
    n = Z.of_nat (length (filter
          (fun d => text <$> QuantHandler.to_datetime L d = Some p) dates)).
Proof.
  intros Hdate (H1 & H2 & H3 & H4 & H5) weekly text trend. split.
  - unfold QuantHandler.handle. rewrite H1, H2, H3, H4, H5.
    unfold QuantHandler._trend_query, QuantHandler.init, QuantHandler._prepare.
    simpl QuantHandler.df. rewrite Hdate. simpl QuantHandler.df.
    rewrite !has_col_assign.
    change (String.eqb "_week" "_month") with false.
    change (String.eqb "_month" "_month") with true.
    simpl negb. cbv iota.
    fold weekly. unfold trend, text. destruct weekly.
    + rewrite !col_assign. reflexivity.
    + rewrite !col_assign. reflexivity.
  - intros p n Hin Hmiss. apply groupby_size_count in Hin as [_ ->].
    unfold cells_equal. f_equal. rewrite map_map.
    rewrite filter_map_comm, length_fmap. f_equal.
    apply list_filter_iff. intros d.
    destruct (QuantHandler.to_datetime L d) as [ts|]; simpl.
    + split; intros [= ->]; done.
    + split; [by intros ? | by intros [=]].
Qed.

(** The monthly trend of the sample: the two dates that parse fall in
    two months. *)
Lemma trend_query_groups_witness :
  QuantHandler.handle Sample.lib
    (QuantHandler.init Sample.lib Sample.complaints Sample.themes)
    "Show me the monthly complaint trend" =
    Ok (trend_result "monthly"
          (Frame.groupby_size
             (map (QuantHandler.period_cell Sample.lib (QuantHandler.month_text Sample.lib))
                (map (QuantHandler.to_datetime Sample.lib)
                   [Str "2024-01-03"; Str "not a date"; Str "2024-02-09"]))) 3) /\
  forall p n,
    (Str p, n) ∈ Frame.groupby_size
         (map (QuantHandler.period_cell Sample.lib (QuantHandler.month_text Sample.lib))
            (map (QuantHandler.to_datetime Sample.lib)
               [Str "2024-01-03"; Str "not a date"; Str "2024-02-09"])) ->
    QuantHandler.missing_period Sample.lib <> Str p ->
    n = Z.of_nat (length (filter
          (fun d => QuantHandler.month_text Sample.lib <$>
                      QuantHandler.to_datetime Sample.lib d = Some p)
          [Str "2024-01-03"; Str "not a date"; Str "2024-02-09"])).
Proof.
  apply (trend_query_groups Sample.lib Sample.complaints Sample.themes
           "Show me the monthly complaint trend"
           [Str "2024-01-03"; Str "not a date"; Str "2024-02-09"]).
  - reflexivity.
  - vm_compute. repeat split.
Defined.

(** C5, the claim as stated fails.  The question [how many complaints by
    channel] matches the count pattern, which the dispatch tries first: on
    a dataset with no channel column the handler answers with the number of
    complaints, and its payload holds that number. *)
Lemma count_query_answers_channel_question :
  Frame.has_col "channel" Sample.complaints = false /\
  QuantHandler.handle Sample.lib
    (QuantHandler.init Sample.lib Sample.complaints Sample.themes)
    "how many complaints by channel" =
  Ok (mkResult "There are **3** complaints in the dataset."
        (Some (Dict [(Str "total_complaints", Int 3)])) None
        "Based on all 3 rows" None None).
Proof. vm_compute. done. Qed.

(** C5, as amended.  On a dataset with no channel column, every question
    that the dispatch hands to the channel query, that is a question that
    matches the channel pattern and none of the count and theme patterns
    tried before it, is answered without raising by the statement that no
    channel column was found, with the empty map for payload. *)
Theorem channel_query_without_column L cleaned_df themes_df query :
  Frame.has_col "channel" cleaned_df = false ->
  routed_to_channel query ->
  QuantHandler.handle L (QuantHandler.init L cleaned_df themes_df) query =
  Ok (mkResult "No `channel` column found in the dataset."
        (Some (Dict [])) None "N/A" None None).
Proof.
  intros Hno (H1 & H2 & H3 & H4). unfold QuantHandler.handle.
  rewrite H1, H2, H3, H4. unfold QuantHandler._channel_query, QuantHandler.init.
  rewrite prepare_has_channel. simpl. by rewrite Hno.
Qed.

(** The question [complaints by channel] on the sample, which has no
    channel column. *)
Lemma channel_query_without_column_witness :
  QuantHandler.handle Sample.lib
    (QuantHandler.init Sample.lib Sample.complaints Sample.themes)
    "complaints by channel" =
  Ok (mkResult "No `channel` column found in the dataset."
        (Some (Dict [])) None "N/A" None None).
Proof.
  apply (channel_query_without_column Sample.lib Sample.complaints Sample.themes
           "complaints by channel").
  - vm_compute. reflexivity.
  - vm_compute. repeat split.
Defined.

(** ** The router *)

Section RouterFacts.

Import Frame QuantHandler.

(** The ranking of the themes raises on its first row: the rows of
    [itertuples] are tuples, and the line subscripts them with a name. *)
Lemma top_themes_query_raises L h :
  (0 < nrows (themes h))%nat -> _top_themes_query L h = Raise TypeError.
Proof.
  intros Hn. unfold _top_themes_query, rows.
  destruct (nrows (themes h)) as [|n]; [lia|]. reflexivity.
Qed.

End RouterFacts.

(** C9, which the code breaks.  Whenever the theme table has a row, every
    question that reaches one of the two theme queries of the quantitative
    handler, such as the second example of the help text of the chat, makes
    [Router.answer] raise TypeError instead of returning a result. *)
Theorem theme_question_raises L env cleaned_df themes_df query :
  (0 < Frame.nrows themes_df)%nat ->
  routed_to_themes query ->
  Router.answer L env (Router.init L cleaned_df themes_df) query = Raise TypeError.
Proof.
  intros Hn (Hq & Hc & Ht). unfold Router.answer. rewrite Hq. simpl String.eqb.
  cbv iota. unfold Router.init. simpl Router.quant.
  assert (QuantHandler.handle L (QuantHandler.init L cleaned_df themes_df) query =
          Raise TypeError) as ->; [|done].
  unfold QuantHandler.handle. rewrite Hc.
  assert (QuantHandler._top_themes_query L
            (QuantHandler.init L cleaned_df themes_df) = Raise TypeError) as Hr.
  { apply top_themes_query_raises. unfold QuantHandler.init.
    by rewrite prepare_themes. }
  destruct (Re.search false QuantHandler.top_themes_re (PyStr.lower query)) eqn:E.
  - exact Hr.
  - destruct Ht as [Ht|Ht]; [done|]. rewrite Ht. exact Hr.
Qed.

(** The second example question of the help text, on the sample. *)
Lemma theme_question_raises_witness :
  Router.answer Sample.lib Sample.env Sample.router
    "What are the top complaint themes?" = Raise TypeError.
Proof.
  apply (theme_question_raises Sample.lib Sample.env Sample.complaints
           Sample.themes "What are the top complaint themes?").
  - simpl. lia.
  - vm_compute. repeat split. by right.
Defined.

(** ** The retrieval handler *)

Section QualFacts.

Import Frame QualHandler.



Lemma dropna_nil texts : dropna texts = [] <-> Forall (fun c => c = NA) texts.
Proof.
  unfold dropna. induction texts as [|c texts IH]; [done|].
  rewrite filter_cons, Forall_cons. destruct (decide (c <> NA)) as [Hc|Hc].
  - split; [done | by intros [? _]].
  - rewrite IH. destruct c; try (by destruct Hc); tauto.
Qed.

Lemma elem_of_select {A : Type} (mask : list bool) (l : list A) x :
  x ∈ select mask l -> x ∈ l.
Proof.
  revert l. induction mask as [|b mask IH]; intros l; simpl; [by intros ?%elem_of_nil|].
  destruct l as [|y l]; [by intros ?%elem_of_nil|].
  destruct b.
  - intros [->|H]%elem_of_cons; apply elem_of_cons; [by left | right; by apply IH].
  - intros H. apply elem_of_cons. right. by apply IH.
Qed.

Lemma lookup_col_filter_rows mask d name :
  lookup_col name (columns (filter_rows mask d)) =
  select mask <$> lookup_col name (columns d).
Proof.
  unfold filter_rows. simpl. induction (columns d) as [|[n v] cols IH]; simpl; [done|].
  destruct (String.eqb n name); [done | exact IH].
Qed.










End QualFacts.



(** The same question with the theme table of the sample, where no label
    shares a word with it: the pool is the whole dataset, no text mentions
    a keyword, and the first texts of the dataset are the examples. *)
Example retrieve_whole_pool :
  QualHandler._retrieve (QualHandler.init Sample.cleaned Sample.themes)
    "Why so many delivery delays" =
    Ok ([Str "The app crashes at login"; Str "I was charged a late fee twice";
         Str "App login fails after update"; Str "My card was declined abroad"],
        "4 matching complaints retrieved (showing top 4)").
Proof. vm_compute. reflexivity. Qed.

(** The keyword search on the three sample complaints: the keywords of the
    question are late and charge, one text mentions them, and its row alone
    is kept. *)
Example retrieve_by_keyword :
  QualHandler.keywords (PyStr.lower "What about that LATE charge?") =
    ["late"; "charge"] /\
  QualHandler._retrieve (QualHandler.init Sample.complaints Sample.themes)
    "What about that LATE charge?" =
    Ok ([Str "I was charged a late fee twice"],
        "1 matching complaints retrieved (showing top 1)").
Proof. vm_compute. done. Qed.

(** ** The case of the letters of a question *)

Section CaseFacts.

Import PyStr Re.

Lemma lower_char_classes c :
  lower_char (lower_char c) = lower_char c /\
  is_word (lower_char c) = is_word c /\
  is_digit (lower_char c) = is_digit c /\
  is_space (lower_char c) = is_space c.
Proof.
  destruct c as [[] [] [] [] [] [] [] []]; vm_compute; done.
Qed.

Lemma lower_idempotent s : lower (lower s) = lower s.
Proof.
  induction s as [|c s IH]; simpl; [done|].
  by rewrite IH, (proj1 (lower_char_classes c)).
Qed.

Lemma length_lower s : String.length (lower s) = String.length s.
Proof. induction s as [|c s IH]; simpl; [done | by rewrite IH]. Qed.

Lemma at_boundary_lower prev s :
  at_boundary (lower_char <$> prev) (lower s) = at_boundary prev s.
Proof.
  unfold at_boundary. f_equal.
  - destruct prev as [c|]; simpl; [apply lower_char_classes | done].
  - destruct s as [|c s]; simpl; [done | apply lower_char_classes].
Qed.

Lemma star_greedy_lower k prev s next next' :
  lowered next next' ->
  star_greedy k (lower_char <$> prev) (lower s) next' =
  lower <$> star_greedy k prev s next.
Proof.
  intros Hn. revert prev. induction s as [|c s IH]; intros prev; simpl.
  - apply (Hn prev EmptyString).
  - assert (in_class k (lower_char c) = in_class k c) as ->
      by (destruct k; apply lower_char_classes).
    destruct (in_class k c); [|apply (Hn prev (String c s))].
    change (Some (lower_char c)) with (lower_char <$> Some c).
    rewrite (IH (Some c)).
    destruct (star_greedy k (Some c) s next); [done|].
    apply (Hn prev (String c s)).
Qed.

Lemma rmatch_lower r prev s next next' :
  lowered next next' ->
  rmatch true r (lower_char <$> prev) (lower s) next' =
  lower <$> rmatch true r prev s next.
Proof.
  revert prev s next next'.
  induction r as [|c| |k|a IHa b IHb|a IHa b IHb]; intros prev s next next' Hn; simpl.
  - apply Hn.
  - destruct s as [|c' s']; simpl; [done|].
    unfold chr_eq. rewrite (proj1 (lower_char_classes c')).
    destruct (Ascii.eqb (lower_char c) (lower_char c')); [|done].
    apply (Hn (Some c') s').
  - rewrite at_boundary_lower. destruct (at_boundary prev s); [apply Hn | done].
  - by apply star_greedy_lower.
  - apply IHa. intros p t. by apply IHb.
  - rewrite (IHa prev s next next' Hn), (IHb prev s next next' Hn).
    by destruct (rmatch true a prev s next).
Qed.

Lemma match_at_lower r prev s :
  match_at true r (lower_char <$> prev) (lower s) = lower <$> match_at true r prev s.
Proof. apply rmatch_lower. by intros p t. Qed.

Lemma search_from_lower r prev s :
  search_from true r (lower_char <$> prev) (lower s) = search_from true r prev s.
Proof.
  revert prev. induction s as [|c s IH]; intros prev.
  - simpl. pose proof (match_at_lower r prev EmptyString) as H. simpl lower in H.
    rewrite H. by destruct (match_at true r prev EmptyString).
  - simpl search_from.
    pose proof (match_at_lower r prev (String c s)) as H. simpl lower in H.
    rewrite H. change (Some (lower_char c)) with (lower_char <$> Some c).
    rewrite (IH (Some c)).
    by destruct (match_at true r prev (String c s)).
Qed.

Lemma findall_from_lower r prev s skip :
  findall_from true r (lower_char <$> prev) (lower s) skip =
  findall_from true r prev s skip.
Proof.
  revert prev skip. induction s as [|c s IH]; intros prev skip.
  - destruct skip; [|done]. simpl.
    pose proof (match_at_lower r prev EmptyString) as H. simpl lower in H.
    rewrite H. by destruct (match_at true r prev EmptyString).
  - destruct skip as [|n]; simpl findall_from.
    + pose proof (match_at_lower r prev (String c s)) as H. simpl lower in H.
      rewrite H. destruct (match_at true r prev (String c s)) as [rest|]; simpl.
      * rewrite !length_lower.
        change (Some (lower_char c)) with (lower_char <$> Some c).
        by rewrite (IH (Some c)).
      * apply (IH (Some c)).
    + apply (IH (Some c)).
Qed.

Lemma classify_lower q : Router.classify (lower q) = Router.classify q.
Proof.
  unfold Router.classify, findall_count, search.
  assert (forall r, findall_from true r None (lower q) 0 =
                    findall_from true r None q 0) as Hf
    by (intros r; apply (findall_from_lower r None q 0)).
  assert (forall r, search_from true r None (lower q) = search_from true r None q)
    as Hs by (intros r; apply (search_from_lower r None q)).
  by rewrite !Hf, Hs.
Qed.

End CaseFacts.

(** X1.  On questions written in ASCII characters, the range in which
    the model folds the case of the letters as Python does, the classifier
    does not look at the case of the letters: two such questions that are
    equal once put in lower case get the same class. *)
Theorem classify_ignores_case (q q' : string) :
  isascii q = true -> isascii q' = true ->
  PyStr.lower q = PyStr.lower q' -> Router.classify q = Router.classify q'.
Proof.
  intros _ _ H. by rewrite <- (classify_lower q), <- (classify_lower q'), H.
Qed.

(** A question in capitals and in lower case. *)
Lemma classify_ignores_case_witness :
  Router.classify "HOW MANY Complaints Mention Fees?" =
  Router.classify "how many complaints mention fees?".
Proof. apply classify_ignores_case; reflexivity. Defined.

(** X2.  Nor does the quantitative side of the router: two questions that
    are equal once put in lower case, and that the classifier sends to the
    quantitative handler, get the same outcome from [Router.answer], be it
    a result or an exception. *)
Theorem quantitative_answer_ignores_case L env r (q q' : string) :
  PyStr.lower q = PyStr.lower q' ->
  Router.classify q = "quant" ->
  Router.answer L env r q = Router.answer L env r q'.
Proof.
  intros H Hq.
  assert (Router.classify q' = "quant") as Hq'
    by (by rewrite <- (classify_lower q'), <- H, classify_lower).
  unfold Router.answer. rewrite Hq, Hq'. simpl String.eqb. cbv iota.
  unfold QuantHandler.handle. by rewrite H.
Qed.

(** The count question on the sample, in two cases. *)
Lemma quantitative_answer_ignores_case_witness :
  Router.answer Sample.lib Sample.env Sample.router "HOW MANY complaints?" =
  Router.answer Sample.lib Sample.env Sample.router "how many complaints?".
Proof.
  apply quantitative_answer_ignores_case.
  - reflexivity.
  - vm_compute. reflexivity.
Defined.

(** ** The theme table *)

Lemma replace_col_same name v cols :
  Frame.lookup_col name cols = Some v -> Frame.replace_col name v cols = cols.
Proof.
  induction cols as [|[n w] cols IH]; simpl; [done|].
  destruct (String.eqb n name); [by intros [= ->]|].
  intros H. by rewrite IH.
Qed.

Lemma insert_by_key_sorted {A : Type} (key : A -> Z) (x : A) (l : list A) :
  StronglySorted (fun a b => (key b <= key a)%Z) l ->
  StronglySorted (fun a b => (key b <= key a)%Z)
    (Frame.insert_by (fun a b => (key b <? key a)%Z) x l).
Proof.
  induction 1 as [|y l Hs IH Hy]; simpl.
  - repeat constructor.
  - destruct (Z.ltb_spec (key x) (key y)) as [Hlt|Hge].
    + constructor; [done|].
      rewrite insert_by_perm. constructor; [lia | done].
    + constructor; [by constructor|].
      constructor; [lia|]. eapply Forall_impl; [exact Hy|]. simpl. intros z Hz. lia.
Qed.

Lemma sort_by_key_sorted {A : Type} (key : A -> Z) (l : list A) :
  StronglySorted (fun a b => (key b <= key a)%Z)
    (Frame.sort_by (fun a b => (key b <? key a)%Z) l).
Proof.
  unfold Frame.sort_by. induction l as [|x l IH]; simpl; [constructor|].
  by apply insert_by_key_sorted.
Qed.


Section TableFacts.

Import Frame ThemeExtractor.

Variable analyze : string -> list string.
Variable Matrix : Type.
Variable tfidf : Z -> list string -> list string -> list string * Matrix.
Variable kmeans : Z -> Z -> Matrix -> result (list Z * list (list nat)).

Lemma mapM_as_text l shown : mapM as_text l = Ok shown -> map Str shown = l.
Proof.
  revert shown. induction l as [|c l IH]; intros shown; simpl.
  - by intros [= <-].
  - unfold mbind, result_bind, mret, result_ret.
    destruct c as [|s|z]; simpl; try done.
    destruct (mapM as_text l) eqn:E; [|done].
    intros [= <-]. simpl. by rewrite (IH _ eq_refl).
Qed.

Lemma theme_record_ok text_col ntop fn oc (i : nat) (st st' : state) rec :
  theme_record text_col ntop fn oc i st = (st', Ok rec) ->
  st' = st /\ record_from text_col ntop fn oc (df st) i rec.
Proof.
  unfold theme_record, mbind, Eff_bind, lift, get_df, mret, Eff_ret.
  unfold ThemeExtractor.get at 1.
  destruct (oc !! i) as [order|] eqn:Ho; [|done].
  destruct (mapM (ThemeExtractor.get fn) (slice_to ntop order)) as [top_kw|] eqn:Hk; [|done].
  destruct (col "theme_id" (df st)) as [ids|] eqn:Hids; [|done].
  destruct (col text_col (df st)) as [texts|] eqn:Ht; [|done].
  destruct (mapM as_text _) as [shown|] eqn:Hs; [|done].
  intros [= <- <-]. split; [done|].
  exists order, top_kw, ids, texts, shown. repeat split; try done.
  by apply mapM_as_text.
Qed.

Lemma theme_records_ok text_col ntop fn oc (l : list nat) (st st' : state) recs :
  mapM (theme_record text_col ntop fn oc) l st = (st', Ok recs) ->
  st' = st /\ Forall2 (record_from text_col ntop fn oc (df st)) l recs.
Proof.
  revert st' recs. induction l as [|i l IH]; intros st' recs.
  - intros [= <- <-]. split; [done | constructor].
  - simpl. unfold mbind at 1. unfold Eff_bind at 1.
    destruct (theme_record text_col ntop fn oc i st) as [st1 [rec|e]] eqn:H1; [|done].
    apply theme_record_ok in H1 as [-> Hrec].
    unfold mbind at 1. unfold Eff_bind at 1.
    destruct (mapM (theme_record text_col ntop fn oc) l st) as [st2 [recs'|e]] eqn:H2;
      [|done].
    destruct (IH st2 recs' eq_refl) as [-> Hrecs].
    intros [= <- <-]. split; [done|]. by constructor.
Qed.

(** A run that returns: what it computed on the way. *)
Lemma extract_themes_ok text_col n_themes seed ntop max_features st st' themes :
  extract_themes analyze Matrix tfidf kmeans text_col n_themes seed ntop
    max_features st = (st', Ok themes) ->
  exists column docs fn X labels oc records top,
    col text_col (df st) = Ok column /\
    mapM (doc_of_cell) (fillna (Str EmptyString) column) = Ok docs /\
    fit_transform analyze Matrix tfidf max_features docs = Ok (fn, X) /\
    kmeans (effective (length column) n_themes) seed X = Ok (labels, oc) /\
    set_col "theme_id" (map Int labels) (df st) = Ok (df st') /\
    Forall2 (record_from text_col ntop fn oc (df st'))
      (seq 0 (Z.to_nat (effective (length column) n_themes))) records /\
    themes = sort_by (fun a b => (count b <? count a)%Z) records /\
    themes !! 0%nat = Some top /\
    trace st' =
      (trace st ++ warning (length column) n_themes ++
         [CallFitTransform (length column);
          CallKMeans (effective (length column) n_themes) (length column);
          LogInfo (effective (length column) n_themes) (label top) (count top)])%list.
Proof.
  unfold extract_themes, mbind, Eff_bind, lift, get_df, put_df, emit, mret, Eff_ret.
  destruct (col text_col (df st)) as [column|e] eqn:Hcol; [|done].
  assert (length (fillna (Str EmptyString) column) = length column) as Hlen
    by (unfold fillna; apply length_fmap).
  rewrite !Hlen. clear Hlen.
  set (n := length column).
  match goal with
  | |- context [match ?m with pair _ _ => _ end] =>
      assert (m = (mkState (df st) (trace st ++ warning n n_themes)%list,
                   Ok (effective n n_themes))) as ->
  end.
  { unfold warning, effective. destruct (Z.of_nat n <? n_themes)%Z; [done|].
    rewrite app_nil_r. by destruct st. }
  simpl df. simpl trace.
  destruct (mapM doc_of_cell (fillna (Str EmptyString) column)) as [docs|e] eqn:Hdocs;
    [|done].
  destruct (fit_transform analyze Matrix tfidf max_features docs) as [[fn X]|e] eqn:Hfit;
    [|done].
  destruct (kmeans (effective n n_themes) seed X) as [[labels oc]|e] eqn:Hkm; [|done].
  simpl.
  destruct (set_col "theme_id" (map Int labels) (df st)) as [d'|e] eqn:Hset; [|done].
  match goal with
  | |- context [mapM ?f ?l ?s] => destruct (mapM f l s) as [st1 [records|e]] eqn:Hrecs; [|done]
  end.
  apply theme_records_ok in Hrecs as [-> Hrecs]. simpl in Hrecs.
  destruct (sort_by_count records) as [sorted|e] eqn:Hsort; [|done].
  unfold ThemeExtractor.get.
  destruct (sorted !! 0%nat) as [top|] eqn:Htop; [|done].
  simpl. intros [= <- <-].
  exists column, docs, fn, X, labels, oc, records, top. simpl.
  repeat split; try done.
  - unfold sort_by_count in Hsort. destruct records; [done|]. by injection Hsort as <-.
  - by rewrite <- !app_assoc.
Qed.

(** The events of a run, after those of the reduction of the count. *)
Lemma extract_themes_trace text_col n_themes seed ntop max_features st st' r column :
  col text_col (df st) = Ok column ->
  extract_themes analyze Matrix tfidf kmeans text_col n_themes seed ntop
    max_features st = (st', r) ->
  let n := length column in
  let k := effective n n_themes in
  exists tail,
    trace st' = (trace st ++ warning n n_themes ++ tail)%list /\
    (tail = [CallFitTransform n] \/
     tail = [CallFitTransform n; CallKMeans k n] \/
     exists l c, tail = [CallFitTransform n; CallKMeans k n; LogInfo k l c]).
Proof.
  intros Hcol.
  unfold extract_themes, mbind, Eff_bind, lift, get_df, put_df, emit, mret, Eff_ret.
  rewrite Hcol.
  assert (length (fillna (Str EmptyString) column) = length column) as Hlen
    by (unfold fillna; apply length_fmap).
  rewrite !Hlen. clear Hlen.
  set (n := length column).
  match goal with
  | |- context [match ?m with pair _ _ => _ end] =>
      assert (m = (mkState (df st) (trace st ++ warning n n_themes)%list,
                   Ok (effective n n_themes))) as ->
  end.
  { unfold warning, effective. destruct (Z.of_nat n <? n_themes)%Z; [done|].
    rewrite app_nil_r. by destruct st. }
  simpl df. simpl trace.
  destruct (mapM doc_of_cell (fillna (Str EmptyString) column)) as [docs|e] eqn:Hdocs.
  2:{ simpl. intros [= <- <-]. eexists. split; [|by left]. simpl. by rewrite <- !app_assoc. }
  destruct (fit_transform analyze Matrix tfidf max_features docs) as [[fn X]|e] eqn:Hfit.
  2:{ simpl. intros [= <- <-]. eexists. split; [|by left]. simpl. by rewrite <- !app_assoc. }
  destruct (kmeans (effective n n_themes) seed X) as [[labels oc]|e] eqn:Hkm.
  2:{ simpl. intros [= <- <-]. eexists. split; [|right; by left]. simpl. by rewrite <- !app_assoc. }
  simpl.
  destruct (set_col "theme_id" (map Int labels) (df st)) as [d'|e] eqn:Hset.
  2:{ simpl. intros [= <- <-]. eexists. split; [|right; by left]. simpl. by rewrite <- !app_assoc. }
  match goal with
  | |- context [mapM _ ?l ?s] =>
      destruct (theme_records_run text_col ntop fn oc l s) as (rr & Hrr & _)
  end.
  unfold Eff_bind, Eff_ret in Hrr. rewrite Hrr.
  destruct rr as [records|e].
  2:{ simpl. intros [= <- <-]. eexists. split; [|right; by left]. simpl. by rewrite <- !app_assoc. }
  destruct (sort_by_count records) as [themes|e] eqn:Hsort.
  2:{ simpl. intros [= <- <-]. eexists. split; [|right; by left]. simpl. by rewrite <- !app_assoc. }
  destruct (ThemeExtractor.get themes 0) as [top|e].
  2:{ simpl. intros [= <- <-]. eexists. split; [|right; by left]. simpl. by rewrite <- !app_assoc. }
  simpl. intros [= <- <-]. eexists. split; [|right; right; by eexists _, _].
  simpl. by rewrite <- !app_assoc.
Qed.

(** X3.  In a run of [extract_themes] that starts with an empty trace, on
    a text column of N documents: every call to the clustering is made on
    the N documents, with the requested count K when N is at least K and
    with max(2, N // 2) otherwise, and never with more clusters than
    documents; and when N is at least K no reduction is logged. *)
Theorem clustering_call_within_documents d text_col n_themes seed ntop
    max_features column st' r :
  col text_col d = Ok column ->
  extract_themes analyze Matrix tfidf kmeans text_col n_themes seed ntop
    max_features (mkState d []) = (st', r) ->
  ((n_themes <= Z.of_nat (length column))%Z ->
     forall n k, LogWarning n k ∉ trace st') /\
  forall k n, CallKMeans k n ∈ trace st' ->
    k = (if (Z.of_nat (length column) <? n_themes)%Z
         then Z.max 2 (Z.of_nat (length column) / 2) else n_themes) /\
    n = length column /\
    (k <= Z.of_nat n)%Z.
Proof.
  intros Hcol Hrun.
  destruct (extract_themes_trace text_col n_themes seed ntop max_features
              (mkState d []) st' r column Hcol Hrun) as (tail & Ht & Htail).
  simpl in Ht. fold (effective (length column) n_themes).
  assert (forall a b, LogWarning a b ∉ tail) as Hnw.
  { intros a b Hin.
    destruct Htail as [->|[->|(l & c & ->)]];
      repeat (apply elem_of_cons in Hin as [[=]|Hin]); by apply elem_of_nil in Hin. }
  split.
  - intros Hge n k Hin. rewrite Ht in Hin.
    unfold warning in Hin.
    destruct (Z.ltb_spec (Z.of_nat (length column)) n_themes); [lia|].
    by apply (Hnw n k).
  - intros k n Hin. rewrite Ht in Hin.
    assert (CallKMeans k n ∈ tail) as Hin'.
    { apply elem_of_app in Hin as [Hin|Hin]; [|done].
      unfold warning in Hin. destruct (_ <? _)%Z.
      - apply list_elem_of_singleton in Hin. discriminate.
      - by apply elem_of_nil in Hin. }
    assert (k = effective (length column) n_themes /\ n = length column) as [-> ->].
    { destruct Htail as [->|[->|(l & c & ->)]];
        repeat (apply elem_of_cons in Hin' as [[=]|Hin']); subst; try done;
        by apply elem_of_nil in Hin'. }
    split; [done|]. split; [done|].
    unfold effective.
    destruct (Z.ltb_spec (Z.of_nat (length column)) n_themes) as [Hlt|Hge]; [|lia].
    apply extract_themes_shape in Hrun. simpl in Hrun.
    assert (forall docs v,
              mapM doc_of_cell (fillna (Str EmptyString) column) = Ok docs ->
              fit_transform analyze Matrix tfidf max_features docs = Ok v ->
              (Z.max 2 (Z.of_nat (length column) / 2) <= Z.of_nat (length column))%Z)
      as Hfew.
    { intros docs v Hdocs Hfit. apply fit_transform_two_docs in Hfit.
      apply mapM_result_length in Hdocs. unfold fillna in Hdocs.
      rewrite length_fmap in Hdocs.
      assert (Z.of_nat (length column) / 2 <= Z.of_nat (length column))%Z
        by (apply Z.div_le_upper_bound; lia).
      lia. }
    inversion Hrun as
      [e He | col0 st0 e Hc Hv Hd Ht0 | col0 docs fn X st0 e Hc Hdocs Hfit Hd Ht0
       | col0 docs fn X labels oc st0 r0 Hc Hdocs Hfit Hkm Hset Htr Hrec];
      subst; simpl in *.
    + congruence.
    + exfalso. assert (col0 = column) as -> by congruence.
      rewrite Ht0 in Ht. apply app_inv_head in Ht. subst tail.
      apply elem_of_cons in Hin' as [[=]|Hin']. by apply elem_of_nil in Hin'.
    + assert (col0 = column) as -> by congruence. by apply (Hfew docs (fn, X)).
    + assert (col0 = column) as -> by congruence. by apply (Hfew docs (fn, X)).
Qed.

(** X4.  A run that returns gives a theme table that is not empty, with
    one record per cluster of the count in use; the theme ids are the
    numbers from 0 up to the count, each once; the records come by
    decreasing count, so that the first has the largest; and the last
    message logged carries the label and the count of that first record. *)
Theorem theme_table_ranked st text_col n_themes seed ntop max_features st' themes :
  extract_themes analyze Matrix tfidf kmeans text_col n_themes seed ntop
    max_features st = (st', Ok themes) ->
  exists column top rest,
    col text_col (df st) = Ok column /\
    themes = top :: rest /\
    length themes = Z.to_nat (effective (length column) n_themes) /\
    map theme_id themes ≡ₚ map Z.of_nat (seq 0 (length themes)) /\
    StronglySorted (fun a b => (count b <= count a)%Z) themes /\
    (forall r, r ∈ themes -> (count r <= count top)%Z) /\
    last (trace st') =
      Some (LogInfo (effective (length column) n_themes) (label top) (count top)).
Proof.
  intros Hrun. apply extract_themes_ok in Hrun
    as (column & docs & fn & X & labels & oc & records & top & Hcol & _ & _ & _ & _ &
        Hrecs & -> & Htop & Htrace).
  set (k := effective (length column) n_themes) in *.
  set (themes := sort_by (fun a b => (count b <? count a)%Z) records) in *.
  assert (themes ≡ₚ records) as Hperm by apply sort_by_perm.
  assert (StronglySorted (fun a b => (count b <= count a)%Z) themes) as Hsorted
    by apply (sort_by_key_sorted count).
  assert (length records = Z.to_nat k) as Hlen.
  { apply Forall2_length in Hrecs. by rewrite length_seq in Hrecs. }
  destruct themes as [|top' rest] eqn:Hthemes; [done|].
  injection Htop as ->.
  exists column, top, rest. repeat split; try done.
  - by rewrite Hperm.
  - rewrite Hperm, Hlen. clear -Hrecs.
    assert (map theme_id records = map Z.of_nat (seq 0 (Z.to_nat k))) as ->; [|done].
    induction Hrecs as [|i r ids recs (? & ? & ? & ? & ? & _ & _ & _ & _ & _ & ->) _ IH];
      [done|]. simpl. by rewrite IH.
  - intros r Hin. apply elem_of_cons in Hin as [->|Hin]; [lia|].
    apply StronglySorted_inv in Hsorted as [_ Hall].
    by apply (proj1 (Forall_forall _ _) Hall).
  - rewrite Htrace.
    match goal with
    | |- last (?a ++ ?b ++ [?x; ?y; ?z])%list = _ =>
        replace (a ++ b ++ [x; y; z])%list with ((a ++ b ++ [x; y]) ++ [z])%list
          by (by rewrite <- !app_assoc)
    end.
    apply last_snoc.
Qed.

(** X5.  In the table of a run that returns, every record is read off the
    frame as the run leaves it: its label is the label that [_auto_label]
    gives to its list of keywords, which [top_keywords] joins with a comma
    and which, for a count of keywords that is not negative, has no more
    terms than that count; its examples are the first three texts, at most,
    of the rows labelled with its theme id, in the order of the rows. *)
Theorem theme_record_contents st text_col n_themes seed ntop max_features st' themes :
  extract_themes analyze Matrix tfidf kmeans text_col n_themes seed ntop
    max_features st = (st', Ok themes) ->
  exists ids texts,
    col "theme_id" (df st') = Ok ids /\
    col text_col (df st') = Ok texts /\
    Forall (fun r =>
      exists kws shown,
        label r = _auto_label kws /\
        top_keywords r = PyStr.join ", " kws /\
        ((0 <= ntop)%Z -> (length kws <= Z.to_nat ntop)%nat) /\
        example_texts r = PyStr.join " | " shown /\
        (length shown <= 3)%nat /\
        map Str shown = take 3 (select (eq_mask (Int (theme_id r)) ids) texts))
      themes.
Proof.
  intros Hrun. apply extract_themes_ok in Hrun
    as (column & docs & fn & X & labels & oc & records & top & Hcol & _ & _ & Hkm & Hset &
        Hrecs & -> & Htop & Htrace).
  assert (exists ids texts, col "theme_id" (df st') = Ok ids /\
            col text_col (df st') = Ok texts) as (ids & texts & Hids & Htexts).
  { unfold set_col in Hset. case_bool_decide; [|done]. injection Hset as <-.
    exists (map Int labels),
      (if String.eqb "theme_id" text_col then map Int labels else column).
    rewrite !col_assign, Hcol, String.eqb_refl. split; [done|].
    by destruct (String.eqb "theme_id" text_col). }
  exists ids, texts. split; [done|]. split; [done|].
  rewrite sort_by_perm.
  eapply Forall2_Forall_r; [exact Hrecs|].
  apply Forall_forall. intros j _ r
    (order' & kws' & ids' & texts' & shown' & Ho' & Hk' & Hids' & Ht' & Hs' & ->).
  assert (ids' = ids) as -> by congruence.
  assert (texts' = texts) as -> by congruence.
  exists kws', shown'. simpl. repeat split; try done.
  - intros Hn. apply mapM_result_length in Hk'. rewrite Hk'.
    unfold slice_to. destruct (Z.leb_spec 0 ntop); [|lia].
    rewrite length_take. lia.
  - apply (f_equal length) in Hs'. rewrite length_map, length_take in Hs'. lia.
Qed.

(** X6.  On a text column of texts and missing values in which no term
    occurs in two documents, as on every column of fewer than two
    documents, the run raises the ValueError of the vectorizer: the frame is
    left as it was, with no column theme_id added, and the clustering is not
    called. *)
Theorem no_shared_term_aborts st text_col n_themes seed ntop max_features
    column docs :
  col text_col (df st) = Ok column ->
  mapM doc_of_cell (fillna (Str EmptyString) column) = Ok docs ->
  (length column < 2)%nat \/ frequent_terms analyze docs = [] ->
  extract_themes analyze Matrix tfidf kmeans text_col n_themes seed ntop
    max_features st =
  (mkState (df st)
     (trace st ++ warning (length column) n_themes ++
        [CallFitTransform (length column)])%list,
   Raise (ValueError "After pruning, no terms remain")).
Proof.
  intros Hcol Hdocs Hfew.
  assert (fit_transform analyze Matrix tfidf max_features docs =
          Raise (ValueError "After pruning, no terms remain")) as Hfit.
  { destruct (fit_transform analyze Matrix tfidf max_features docs) as [v|e] eqn:E.
    - pose proof (fit_transform_two_docs _ _ _ _ _ _ E) as H2.
      apply mapM_result_length in Hdocs. unfold fillna in Hdocs.
      rewrite length_fmap in Hdocs.
      destruct Hfew as [Hfew|Hfew]; [lia|].
      unfold fit_transform in E. by rewrite Hfew in E.
    - unfold fit_transform in E.
      by destruct (frequent_terms analyze docs); [injection E as <- |]. }
  destruct (extract_themes analyze Matrix tfidf kmeans text_col n_themes seed ntop
              max_features st) as [st' r] eqn:Hrun.
  apply extract_themes_shape in Hrun.
  inversion Hrun as
    [e He | col0 st0 e Hc Hv Hd Ht | col0 docs0 fn X st0 e Hc Hdocs0 Hfit0 Hd Ht
     | col0 docs0 fn X labels oc st0 r0 Hc Hdocs0 Hfit0 Hkm Hset Htr Hrec];
    subst; try congruence.
  assert (col0 = column) as -> by congruence.
  specialize (Hv docs Hdocs). rewrite Hfit in Hv. injection Hv as <-.
  destruct st' as [d' t']. simpl in *. by subst.
Qed.

End TableFacts.


(** Two themes asked for on the three sample complaints: no reduction, and
    one call with two clusters. *)
Lemma clustering_call_within_documents_witness :
  ((2 <= 3)%Z ->
     forall n k, ThemeExtractor.LogWarning n k ∉ ThemeExtractor.trace Sample.run_two.1) /\
  forall k n, ThemeExtractor.CallKMeans k n ∈ ThemeExtractor.trace Sample.run_two.1 ->
    k = 2%Z /\ n = 3%nat /\ (k <= Z.of_nat n)%Z.
Proof.
  apply (clustering_call_within_documents Sample.analyze (nat * nat)%type Sample.tfidf
           Sample.kmeans Sample.complaints "text_clean" 2 42 10 3000
           [Str "the app crashes at login"; Str "i was charged a late fee twice";
            Str "app login fails after update"] Sample.run_two.1 Sample.run_two.2).
  - reflexivity.
  - apply surjective_pairing.
Defined.

(** The table of the three sample complaints. *)
Lemma theme_table_ranked_witness :
  exists column top rest,
    Frame.col "text_clean" Sample.complaints = Ok column /\
    Sample.extracted = top :: rest /\
    length Sample.extracted = Z.to_nat (effective (length column) 5) /\
    map ThemeExtractor.theme_id Sample.extracted ≡ₚ
      map Z.of_nat (seq 0 (length Sample.extracted)) /\
    StronglySorted
      (fun a b => (ThemeExtractor.count b <= ThemeExtractor.count a)%Z)
      Sample.extracted /\
    (forall r, r ∈ Sample.extracted ->
       (ThemeExtractor.count r <= ThemeExtractor.count top)%Z) /\
    last (ThemeExtractor.trace (Sample.run Sample.complaints).1) =
      Some (ThemeExtractor.LogInfo (effective (length column) 5)
              (ThemeExtractor.label top) (ThemeExtractor.count top)).
Proof.
  apply (theme_table_ranked Sample.analyze (nat * nat)%type Sample.tfidf
           Sample.kmeans (ThemeExtractor.mkState Sample.complaints [])
           "text_clean" 5 42 10 3000).
  vm_compute. reflexivity.
Defined.

(** The records of the three sample complaints. *)
Lemma theme_record_contents_witness :
  exists ids texts,
    Frame.col "theme_id" (ThemeExtractor.df (Sample.run Sample.complaints).1) = Ok ids /\
    Frame.col "text_clean" (ThemeExtractor.df (Sample.run Sample.complaints).1) = Ok texts /\
    Forall (fun r =>
      exists kws shown,
        ThemeExtractor.label r = ThemeExtractor._auto_label kws /\
        ThemeExtractor.top_keywords r = PyStr.join ", " kws /\
        ((0 <= 10)%Z -> (length kws <= Z.to_nat 10)%nat) /\
        ThemeExtractor.example_texts r = PyStr.join " | " shown /\
        (length shown <= 3)%nat /\
        map Str shown =
          take 3 (Frame.select (Frame.eq_mask (Int (ThemeExtractor.theme_id r)) ids) texts))
      Sample.extracted.
Proof.
  apply (theme_record_contents Sample.analyze (nat * nat)%type Sample.tfidf
           Sample.kmeans (ThemeExtractor.mkState Sample.complaints [])
           "text_clean" 5 42 10 3000).
  vm_compute. reflexivity.
Defined.

(** One complaint alone. *)
Lemma no_shared_term_aborts_witness :
  Sample.run Sample.single =
  (ThemeExtractor.mkState Sample.single
     [ThemeExtractor.LogWarning 1 2; ThemeExtractor.CallFitTransform 1],
   Raise (ValueError "After pruning, no terms remain")).
Proof.
  apply (no_shared_term_aborts Sample.analyze (nat * nat)%type Sample.tfidf
           Sample.kmeans (ThemeExtractor.mkState Sample.single [])
           "text_clean" 5 42 10 3000 [Str "the app crashes at login"]
           ["the app crashes at login"]).
  - reflexivity.
  - reflexivity.
  - left. simpl. lia.
Defined.

(** ** The theme labeller, again *)

(** X7.  The label depends on the terms only through the set of the first
    eight of them and through the first two in order: terms after the
    eighth, the order of the first eight beyond the second and repeated
    terms change nothing. *)
Theorem auto_label_first_eight (a b : list string) :
  (forall t, t ∈ take 8 a <-> t ∈ take 8 b) ->
  take 2 a = take 2 b ->
  ThemeExtractor._auto_label a = ThemeExtractor._auto_label b.
Proof.
  intros Hset Htwo. unfold ThemeExtractor._auto_label.
  assert ((list_to_set (take 8 a) : gset string) = list_to_set (take 8 b)) as ->.
  { apply set_eq. intros t. rewrite !elem_of_list_to_set. apply Hset. }
  by rewrite Htwo.
Qed.

(** Two lists with the same first two terms and the same set of first eight
    terms, which a billing term is among. *)
Lemma auto_label_first_eight_witness :
  ThemeExtractor._auto_label
    ["zebra"; "quokka"; "a"; "b"; "c"; "d"; "e"; "fee"; "app"] =
  ThemeExtractor._auto_label
    ["zebra"; "quokka"; "fee"; "e"; "d"; "c"; "b"; "a"; "loan"; "card"].
Proof.
  apply auto_label_first_eight.
  - intros t. simpl. rewrite !elem_of_cons. rewrite !elem_of_nil. tauto.
  - reflexivity.
Defined.

(** ** A second run of the extraction *)

Section RerunFacts.

Import Frame ThemeExtractor.

Variable analyze : string -> list string.
Variable Matrix : Type.
Variable tfidf : Z -> list string -> list string -> list string * Matrix.
Variable kmeans : Z -> Z -> Matrix -> result (list Z * list (list nat)).

Lemma mapM_as_text_map shown : mapM as_text (map Str shown) = Ok shown.
Proof.
  induction shown as [|s shown IH]; [done|]. simpl.
  unfold mbind at 1, result_bind at 1. by rewrite IH.
Qed.

Lemma record_from_run text_col ntop fn oc st i rec :
  record_from text_col ntop fn oc (df st) i rec ->
  theme_record text_col ntop fn oc i st = (st, Ok rec).
Proof.
  intros (order & top_kw & ids & texts & shown & Ho & Hk & Hids & Ht & Hs & ->).
  unfold theme_record, mbind, Eff_bind, lift, get_df, mret, Eff_ret.
  unfold ThemeExtractor.get at 1. rewrite Ho, Hk, Hids, Ht, <- Hs.
  by rewrite mapM_as_text_map.
Qed.

Lemma records_from_run text_col ntop fn oc st l recs :
  Forall2 (record_from text_col ntop fn oc (df st)) l recs ->
  mapM (theme_record text_col ntop fn oc) l st = (st, Ok recs).
Proof.
  induction 1 as [|i rec l recs Hrec _ IH]; [done|].
  simpl. unfold mbind at 1. unfold Eff_bind at 1.
  rewrite (record_from_run _ _ _ _ _ _ _ Hrec).
  unfold mbind at 1. unfold Eff_bind at 1. by rewrite IH.
Qed.

(** X8.  A run that returns can be repeated: on the frame as the first
    run left it, with a text column that is not theme_id, the same call
    returns the same theme table and leaves the frame as it found it. *)
Theorem extract_themes_again st text_col n_themes seed ntop max_features
    st' themes tr :
  text_col <> "theme_id" ->
  extract_themes analyze Matrix tfidf kmeans text_col n_themes seed ntop
    max_features st = (st', Ok themes) ->
  exists tr',
    extract_themes analyze Matrix tfidf kmeans text_col n_themes seed ntop
      max_features (mkState (df st') tr) = (mkState (df st') tr', Ok themes).
Proof.
  intros Hne Hrun. apply extract_themes_ok in Hrun
    as (column & docs & fn & X & labels & oc & records & top & Hcol & Hdocs & Hfit &
        Hkm & Hset & Hrecs & -> & Htop & _).
  assert (df st' = assign "theme_id" (map Int labels) (df st) /\
          length (map Int labels) = nrows (df st)) as [Hdf Hlen].
  { unfold set_col in Hset. case_bool_decide; [|done]. by injection Hset as <-. }
  assert (col text_col (df st') = Ok column) as Hcol'.
  { rewrite Hdf, col_assign. by destruct (String.eqb_spec "theme_id" text_col). }
  assert (set_col "theme_id" (map Int labels) (df st') = Ok (df st')) as Hset'.
  { unfold set_col. rewrite bool_decide_eq_true_2 by (by rewrite Hdf).
    f_equal. rewrite Hdf at 2. rewrite Hdf. unfold assign. simpl. f_equal.
    apply replace_col_same. by rewrite lookup_replace_col, String.eqb_refl. }
  unfold extract_themes, mbind, Eff_bind, lift, get_df, put_df, emit, mret, Eff_ret.
  simpl df. rewrite Hcol'.
  assert (length (fillna (Str EmptyString) column) = length column) as Hl
    by (unfold fillna; apply length_fmap).
  rewrite !Hl. clear Hl.
  set (n := length column).
  match goal with
  | |- context [match ?m with pair _ _ => _ end] =>
      assert (m = (mkState (df st') (tr ++ warning n n_themes)%list,
                   Ok (effective n n_themes))) as ->
  end.
  { unfold warning, effective. destruct (Z.of_nat n <? n_themes)%Z; [done|].
    by rewrite app_nil_r. }
  simpl df. simpl trace. rewrite Hdocs, Hfit. simpl. fold n in Hkm. rewrite Hkm.
  simpl. rewrite Hset'.
  match goal with
  | |- context [mapM _ ?l ?s] =>
      pose proof (records_from_run text_col ntop fn oc s l records Hrecs) as Hr
  end.
  unfold Eff_bind, Eff_ret in Hr. rewrite Hr.
  unfold sort_by_count. destruct records as [|rec records]; [done|].
  unfold ThemeExtractor.get. rewrite Htop. simpl. by eexists.
Qed.

End RerunFacts.

(** The run on the three sample complaints, twice. *)
Lemma extract_themes_again_witness :
  exists tr',
    Sample.extract_themes "text_clean" 5 42 10 3000
      (ThemeExtractor.mkState
         (ThemeExtractor.df (Sample.run Sample.complaints).1) []) =
    (ThemeExtractor.mkState
       (ThemeExtractor.df (Sample.run Sample.complaints).1) tr',
     Ok Sample.extracted).
Proof.
  apply (extract_themes_again Sample.analyze (nat * nat)%type Sample.tfidf
           Sample.kmeans (ThemeExtractor.mkState Sample.complaints [])
           "text_clean" 5 42 10 3000 (Sample.run Sample.complaints).1
           Sample.extracted []).
  - discriminate.
  - vm_compute. reflexivity.
Defined.

(** ** The quantitative handler, query by query *)


Section QueryFacts.

Import Frame QuantHandler.

Lemma handle_dispatch L h query :
  handle L h query =
  match dispatch query with
  | CountQuery => _count_query L h (PyStr.lower query)
  | TopThemesQuery => _top_themes_query L h
  | AllThemesQuery => _all_themes_query L h
  | ChannelQuery => _channel_query L h
  | TrendQuery => _trend_query L h (PyStr.lower query)
  | SeverityQuery => _severity_query L h
  | ProductQuery => _product_query L h
  | GeneralStats => _general_stats L h
  end.
Proof.
  unfold handle, dispatch.
  repeat match goal with |- context [Re.search false ?r ?q] =>
    destruct (Re.search false r q); [done|] end.
  done.
Qed.

Lemma wf_assign name v d :
  wf d -> length v = nrows d -> wf (assign name v d).
Proof.
  unfold wf, assign. simpl. intros Hwf Hv.
  induction (columns d) as [|[n w] cols IH]; simpl.
  - by repeat constructor.
  - apply Forall_cons in Hwf as [Hw Hwf].
    destruct (String.eqb n name); constructor; try done. by apply IH.
Qed.


Lemma prepare_lookup L h name :
  name ∉ derived_columns ->
  lookup_col name (columns (df (_prepare L h))) = lookup_col name (columns (df h)).
Proof.
  intros Hn. unfold _prepare. destruct (col "date" (df h)); [|done].
  unfold assign. simpl. rewrite !lookup_replace_col.
  unfold derived_columns in Hn.
  destruct (String.eqb_spec "_week" name) as [<-|_].
  { destruct Hn. apply elem_of_cons; right. apply elem_of_cons; right.
    apply elem_of_cons; by left. }
  destruct (String.eqb_spec "_month" name) as [<-|_].
  { destruct Hn. apply elem_of_cons; right. apply elem_of_cons; by left. }
  destruct (String.eqb_spec "_date" name) as [<-|_]; [|done].
  destruct Hn. apply elem_of_cons; by left.
Qed.

Lemma prepare_col L h name :
  name ∉ derived_columns -> col name (df (_prepare L h)) = col name (df h).
Proof. intros Hn. unfold col. by rewrite prepare_lookup. Qed.

Lemma prepare_has_col L h name :
  name ∉ derived_columns -> has_col name (df (_prepare L h)) = has_col name (df h).
Proof.
  intros Hn. apply eq_true_iff_eq. rewrite !has_col_lookup. by rewrite prepare_lookup.
Qed.

Lemma prepare_nrows L h : nrows (df (_prepare L h)) = nrows (df h).
Proof. unfold _prepare. by destruct (col "date" (df h)). Qed.

Lemma prepare_wf L h : wf (df h) -> wf (df (_prepare L h)).
Proof.
  intros Hwf. unfold _prepare. destruct (col "date" (df h)) as [dates|] eqn:E; [|done].
  simpl. pose proof (col_length _ _ _ Hwf E) as Hl.
  repeat apply wf_assign; try done; simpl; by rewrite !length_map.
Qed.

Lemma prepare_without_date L h :
  has_col "date" (df h) = false -> _prepare L h = h.
Proof.
  intros Hno. unfold _prepare.
  destruct (col "date" (df h)) as [dates|] eqn:E; [|done].
  unfold col in E. destruct (lookup_col "date" (columns (df h))) eqn:E'; [|done].
  assert (has_col "date" (df h) = true) by (apply has_col_lookup; by rewrite E').
  congruence.
Qed.

(** X9.  The handler built on a dataset keeps the theme table and the
    number of rows, and of the columns changes only the three it derives
    from the dates, [_date], [_month] and [_week]: every column of
    another name is as in the dataset, and a frame with one cell per row
    stays so.  Without a date column nothing is derived and the frame is the
    dataset; with one, the three columns hold, row by row, the parsed date,
    its month and its week.  Preparing a prepared handler changes
    nothing. *)
Theorem prepare_keeps_dataset L cleaned_df themes_df :
  let h := init L cleaned_df themes_df in
  themes h = themes_df /\
  nrows (df h) = nrows cleaned_df /\
  (forall name, name ∉ derived_columns ->
     lookup_col name (columns (df h)) = lookup_col name (columns cleaned_df)) /\
  (wf cleaned_df -> wf (df h)) /\
  (has_col "date" cleaned_df = false -> df h = cleaned_df) /\
  (forall dates, col "date" cleaned_df = Ok dates ->
     col "_date" (df h) = Ok (map (fun d => date_cell (to_datetime L d)) dates) /\
     col "_month" (df h) =
       Ok (map (fun d => period_cell L (month_text L) (to_datetime L d)) dates) /\
     col "_week" (df h) =
       Ok (map (fun d => period_cell L (week_text L) (to_datetime L d)) dates)) /\
  _prepare L h = h.
Proof.
  intros h. unfold h, init.
  split; [apply prepare_themes|]. split; [apply prepare_nrows|].
  split; [intros name Hn; by apply (prepare_lookup L (mkHandler cleaned_df themes_df))|].
  split; [apply (prepare_wf L (mkHandler cleaned_df themes_df))|].
  split; [|split].
  - intros Hno. by rewrite prepare_without_date.
  - intros dates Hd. unfold _prepare. simpl. rewrite Hd. simpl.
    rewrite !col_assign, !map_map. done.
  - unfold _prepare at 1.
    destruct (col "date" (df (_prepare L (mkHandler cleaned_df themes_df))))
      as [dates|] eqn:E; [|done].
    rewrite prepare_col in E
      by (unfold derived_columns; rewrite !elem_of_cons, elem_of_nil;
          intros [?|[?|[?|[]]]]; discriminate).
    simpl in E. unfold _prepare. simpl. rewrite E. simpl.
    f_equal.
    set (v1 := map date_cell (map (to_datetime L) dates)).
    set (v2 := map (period_cell L (month_text L)) (map (to_datetime L) dates)).
    set (v3 := map (period_cell L (week_text L)) (map (to_datetime L) dates)).
    set (d3 := assign "_week" v3 (assign "_month" v2 (assign "_date" v1 cleaned_df))).
    assert (assign "_date" v1 d3 = d3) as ->.
    { unfold assign at 1. destruct d3 as [n cols] eqn:Hd3. simpl. f_equal.
      apply replace_col_same.
      assert (lookup_col "_date" (columns d3) = Some v1) as H.
      { unfold d3, assign. simpl. rewrite !lookup_replace_col. done. }
      by rewrite Hd3 in H. }
    assert (assign "_month" v2 d3 = d3) as ->.
    { unfold assign at 1. destruct d3 as [n cols] eqn:Hd3. simpl. f_equal.
      apply replace_col_same.
      assert (lookup_col "_month" (columns d3) = Some v2) as H.
      { unfold d3, assign. simpl. rewrite !lookup_replace_col. done. }
      by rewrite Hd3 in H. }
    unfold assign at 1. destruct d3 as [n cols] eqn:Hd3. simpl. f_equal.
    apply replace_col_same.
    assert (lookup_col "_week" (columns d3) = Some v3) as H.
    { unfold d3, assign. simpl. rewrite !lookup_replace_col. done. }
    by rewrite Hd3 in H.
Qed.

Ltac not_derived :=
  unfold derived_columns; rewrite !elem_of_cons, elem_of_nil;
  intros [?|[?|[?|[]]]]; discriminate.

(** X10.  The trend, severity and product queries degrade as the channel
    query does: on a dataset without the column they need (date and
    [_month] for the trend; severity; product_category, product and
    category for the products), a question that the dispatch hands to the
    query is answered without raising by the statement that the column was
    not found, with the empty map for payload. *)
Theorem queries_without_column L cleaned_df themes_df query :
  let h := init L cleaned_df themes_df in
  (dispatch query = TrendQuery ->
   has_col "date" cleaned_df = false -> has_col "_month" cleaned_df = false ->
   handle L h query =
     Ok (not_found "No `date` column found — trend analysis unavailable.")) /\
  (dispatch query = SeverityQuery ->
   has_col "severity" cleaned_df = false ->
   handle L h query = Ok (not_found "No `severity` column found in the dataset.")) /\
  (dispatch query = ProductQuery ->
   has_col "product_category" cleaned_df = false ->
   has_col "product" cleaned_df = false ->
   has_col "category" cleaned_df = false ->
   handle L h query =
     Ok (not_found "No product/category column found in the dataset.")).
Proof.
  intros h. unfold h. rewrite handle_dispatch. repeat split.
  - intros -> Hd Hm. unfold _trend_query, init.
    rewrite prepare_without_date by done. simpl. by rewrite Hm.
  - intros -> Hs. unfold _severity_query, init.
    rewrite prepare_has_col by not_derived. simpl. by rewrite Hs.
  - intros -> H1 H2 H3. unfold _product_query, init. simpl List.find.
    rewrite !prepare_has_col by not_derived. simpl. by rewrite H1, H2, H3.
Qed.

Lemma value_counts_nil l : Forall (fun c => c = NA) l -> value_counts l = [].
Proof.
  intros H. unfold value_counts. apply dropna_nil in H. by rewrite H.
Qed.

(** X11.  On a dataset with no row and a theme table with none: when the
    dataset has a channel column, the count query and the general summary
    raise IndexError, for want of a most frequent channel; when it has a
    severity column and no channel column, the general summary raises
    ZeroDivisionError on the share of high severity; when it has no channel
    column, the count query answers that there are 0 complaints. *)
Theorem empty_dataset_raises L cleaned_df themes_df query :
  wf cleaned_df -> nrows cleaned_df = 0%nat -> nrows themes_df = 0%nat ->
  let h := init L cleaned_df themes_df in
  (has_col "channel" cleaned_df = true ->
   dispatch query = CountQuery \/ dispatch query = GeneralStats ->
   handle L h query = Raise IndexError) /\
  (has_col "channel" cleaned_df = false ->
   has_col "severity" cleaned_df = true ->
   dispatch query = GeneralStats ->
   handle L h query = Raise ZeroDivisionError) /\
  (has_col "channel" cleaned_df = false ->
   dispatch query = CountQuery ->
   handle L h query =
     Ok (quant_result "There are **0** complaints in the dataset."
           (Dict [(Str "total_complaints", Int 0)]) "Based on all 0 rows")).
Proof.
  intros Hwf Hn Ht h. unfold h. rewrite handle_dispatch.
  assert (len (themes (init L cleaned_df themes_df)) = 0%Z) as Hlt
    by (unfold len, init; rewrite prepare_themes; simpl; lia).
  assert (len (df (init L cleaned_df themes_df)) = 0%Z) as Hld
    by (unfold len, init; rewrite prepare_nrows; simpl; lia).
  assert (forall name v, name ∉ derived_columns ->
            col name (df (init L cleaned_df themes_df)) = Ok v -> v = []) as Hempty.
  { intros name v Hname Hv. unfold init in Hv. rewrite prepare_col in Hv by done.
    simpl in Hv. apply (col_length _ _ _ Hwf) in Hv. rewrite Hn in Hv.
    by destruct v. }
  assert (forall name, name ∉ derived_columns ->
            has_col name cleaned_df = true ->
            col name (df (init L cleaned_df themes_df)) = Ok []) as Hcol.
  { intros name Hname Hhas.
    destruct (col name (df (init L cleaned_df themes_df))) as [v|e] eqn:E.
    - by rewrite (Hempty name v Hname E).
    - unfold init in E. rewrite prepare_col in E by done. simpl in E.
      apply has_col_lookup in Hhas as [w Hw]. unfold col in E. by rewrite Hw in E. }
  repeat split.
  - intros Hch Hq.
    assert (has_col "channel" (df (init L cleaned_df themes_df)) = true) as Hch'
      by (unfold init; rewrite prepare_has_col by not_derived; done).
    destruct Hq as [-> | ->].
    + unfold _count_query. rewrite Hlt, Hch'.
      rewrite (Hcol "channel") by (not_derived || done).
      by rewrite andb_false_r.
    + unfold _general_stats. rewrite Hlt, Hch'.
      rewrite (Hcol "channel") by (not_derived || done). done.
  - intros Hch Hsv ->.
    assert (has_col "channel" (df (init L cleaned_df themes_df)) = false) as Hch'
      by (unfold init; rewrite prepare_has_col by not_derived; done).
    assert (has_col "severity" (df (init L cleaned_df themes_df)) = true) as Hsv'
      by (unfold init; rewrite prepare_has_col by not_derived; done).
    unfold _general_stats. rewrite Hlt, Hld, Hch', Hsv'.
    rewrite (Hcol "severity") by (not_derived || done). done.
  - intros Hch ->.
    assert (has_col "channel" (df (init L cleaned_df themes_df)) = false) as Hch'
      by (unfold init; rewrite prepare_has_col by not_derived; done).
    unfold _count_query. rewrite Hlt, Hld, Hch', andb_false_r. done.
Qed.

Lemma tally_from_complete seen l k :
  k ∈ l -> k ∉ seen -> (k, cells_equal k l) ∈ tally_from seen l.
Proof.
  unfold cells_equal. revert seen. induction l as [|c l IH]; intros seen Hin Hs.
  - by apply elem_of_nil in Hin.
  - simpl. rewrite filter_cons. destruct (decide (c = k)) as [->|Hne].
    + rewrite bool_decide_eq_false_2 by done. apply elem_of_cons. by left.
    + apply elem_of_cons in Hin as [->|Hin]; [done|].
      case_bool_decide.
      * by apply IH.
      * apply elem_of_cons. right. apply IH; [done|].
        apply not_elem_of_cons. split; [congruence | done].
Qed.

Lemma tally_from_keys seen l :
  NoDup (tally_from seen l).*1 /\ Forall (fun k => k ∉ seen) (tally_from seen l).*1.
Proof.
  revert seen. induction l as [|c l IH]; intros seen; simpl.
  - split; constructor.
  - case_bool_decide as Hc; [apply IH|]. simpl.
    destruct (IH (c :: seen)) as [Hnd Hall]. split.
    + constructor; [|done]. intros Hin.
      apply (proj1 (Forall_forall _ _) Hall) in Hin.
      apply Hin. apply elem_of_cons. by left.
    + constructor; [done|]. eapply Forall_impl; [exact Hall|].
      simpl. intros k Hk Hin. apply Hk. apply elem_of_cons. by right.
Qed.

Lemma tally_from_total seen l :
  foldr (fun kv acc => (snd kv + acc)%Z) 0%Z (tally_from seen l) =
  Z.of_nat (length (filter (fun c => c ∉ seen) l)).
Proof.
  revert seen. induction l as [|c l IH]; intros seen; simpl; [done|].
  rewrite filter_cons. case_bool_decide as Hc.
  - rewrite IH. by destruct (decide (c ∉ seen)).
  - destruct (decide (c ∉ seen)); [|done]. simpl. rewrite IH.
    assert (length (filter (fun d => d ∉ seen) l) =
            length (filter (fun d => d = c) l) +
            length (filter (fun d => d ∉ c :: seen) l))%nat as ->; [|lia].
    clear IH. induction l as [|d l IHl]; [done|].
    rewrite !filter_cons.
    destruct (decide (d = c)) as [->|Hne].
    + destruct (decide (c ∉ seen)); [|done].
      destruct (decide (c ∉ c :: seen)) as [Hn|_].
      { destruct Hn. apply elem_of_cons. by left. }
      simpl. by rewrite IHl.
    + destruct (decide (d ∉ seen)) as [Hd|Hd].
      * destruct (decide (d ∉ c :: seen)) as [_|Hn].
        { simpl. rewrite IHl. lia. }
        destruct Hn. by apply not_elem_of_cons.
      * destruct (decide (d ∉ c :: seen)) as [Hn|_]; [|done].
        apply not_elem_of_cons in Hn as [_ Hn]. done.
Qed.

Lemma cells_equal_dropna k l : k <> NA -> cells_equal k (dropna l) = cells_equal k l.
Proof.
  intros Hk. unfold cells_equal, dropna. f_equal.
  induction l as [|c l IH]; [done|]. rewrite !filter_cons.
  destruct (decide (c <> NA)) as [Hc|Hc].
  - rewrite filter_cons. destruct (decide (c = k)); simpl; by rewrite IH.
  - destruct (decide (c = k)) as [->|]; [done | exact IH].
Qed.

(** [value_counts]: one entry for each value that occurs, missing values
    apart, with the number of its occurrences, the largest number first. *)
Lemma value_counts_spec l :
  let counts := value_counts l in
  (forall k n, (k, n) ∈ counts <-> k <> NA /\ k ∈ l /\ n = cells_equal k l) /\
  NoDup counts.*1 /\
  StronglySorted (fun a b => (snd b <= snd a)%Z) counts /\
  foldr (fun kv acc => (snd kv + acc)%Z) 0%Z counts = Z.of_nat (length (dropna l)).
Proof.
  intros counts. unfold counts, value_counts.
  assert (sort_by (fun a b => (snd b <? snd a)%Z) (tally (dropna l)) ≡ₚ
          tally (dropna l)) as Hperm by apply sort_by_perm.
  split; [|split; [|split]].
  - intros k n. rewrite Hperm. split.
    + intros H. apply tally_from_count in H as (Hin & _ & ->).
      unfold dropna in Hin. apply list_elem_of_filter in Hin as [Hk Hin].
      split; [done|]. split; [done|]. by apply cells_equal_dropna.
    + intros (Hk & Hin & ->). rewrite <- cells_equal_dropna by done.
      apply tally_from_complete; [|apply not_elem_of_nil].
      unfold dropna. by apply list_elem_of_filter.
  - rewrite Hperm. apply tally_from_keys.
  - apply (sort_by_key_sorted snd).
  - assert (forall a b : list (cell * Z), a ≡ₚ b ->
              foldr (fun kv acc => (snd kv + acc)%Z) 0%Z a =
              foldr (fun kv acc => (snd kv + acc)%Z) 0%Z b) as Hsum
      by (induction 1; simpl; lia).
    rewrite (Hsum _ _ Hperm). unfold tally. rewrite tally_from_total.
    do 2 f_equal. generalize (dropna l). intros x.
    induction x as [|c x IH]; [done|]. rewrite filter_cons.
    destruct (decide (c ∉ [])) as [_|Hn]; [by rewrite IH|].
    destruct Hn. apply not_elem_of_nil.
Qed.

Lemma mapM_result_ok {A B : Type} (f : A -> result B) (l : list A) :
  Forall (fun x => exists y, f x = Ok y) l -> exists ys, mapM f l = Ok ys.
Proof.
  induction 1 as [|x l [y Hy] _ [ys Hys]]; [by exists []|].
  exists (y :: ys). simpl. rewrite Hy. unfold mbind at 1, result_bind at 1.
  by rewrite Hys.
Qed.

(** On a frame with one cell per row a break-down never divides by
    zero. *)
Lemma breakdown_ok L h v :
  (v <> [] -> (0 < nrows (df h))%nat) ->
  exists lines, breakdown L h (value_counts v) = Ok lines.
Proof.
  intros Hn. unfold breakdown. apply mapM_result_ok.
  destruct (value_counts v) as [|kv counts] eqn:E; [constructor|].
  assert (len (df h) <> 0%Z) as Hlen.
  { unfold len. assert (v <> []) as Hv by (intros ->; done).
    specialize (Hn Hv). lia. }
  apply Forall_forall. intros [k n] _. unfold pct.
  destruct (Z.eqb_spec (len (df h)) 0); [done|]. by eexists.
Qed.

(** X12.  On a dataset with one cell per row, a question that the
    dispatch hands to the channel query, to the severity query or to the
    product query, the column being channel, severity or product_category,
    is answered without raising, also when every value is missing.  The
    payload maps each value of the column that is not missing, once, to the
    number of rows that hold it, the values of the largest number first, and
    the numbers add up to the number of rows whose value is not missing. *)
Theorem breakdown_query_counts L cleaned_df themes_df query kind name values :
  (kind, name) ∈ [(ChannelQuery, "channel"); (SeverityQuery, "severity");
                  (ProductQuery, "product_category")] ->
  wf cleaned_df ->
  col name cleaned_df = Ok values ->
  dispatch query = kind ->
  exists r,
    handle L (init L cleaned_df themes_df) query = Ok r /\
    data r = Some (counts_dict (value_counts values)) /\
    (forall k n, (k, n) ∈ value_counts values <->
       k <> NA /\ k ∈ values /\ n = cells_equal k values) /\
    NoDup (value_counts values).*1 /\
    StronglySorted (fun a b => (snd b <= snd a)%Z) (value_counts values) /\
    foldr (fun kv acc => (snd kv + acc)%Z) 0%Z (value_counts values) =
      Z.of_nat (length (dropna values)).
Proof.
  intros Hkind Hwf Hcol Hq. rewrite handle_dispatch, Hq.
  assert (name ∉ derived_columns) as Hname.
  { repeat (apply elem_of_cons in Hkind as [[= _ ->]|Hkind]; [not_derived|]).
    by apply elem_of_nil in Hkind. }
  assert (has_col name (df (init L cleaned_df themes_df)) = true) as Hhas.
  { unfold init. rewrite prepare_has_col by done. simpl.
    apply has_col_lookup. unfold col in Hcol.
    destruct (lookup_col name (columns cleaned_df)); [by eexists | done]. }
  assert (col name (df (init L cleaned_df themes_df)) = Ok values) as Hcol'
    by (unfold init; rewrite prepare_col by done; done).
  destruct (breakdown_ok L (init L cleaned_df themes_df) values) as [lines Hl].
  { intros Hne. unfold init. rewrite prepare_nrows. simpl.
    apply (col_length _ _ _ Hwf) in Hcol. destruct values; [done|]. simpl in Hcol. lia. }
  assert (forall title,
            (v ← col name (df (init L cleaned_df themes_df));
             lines ← breakdown L (init L cleaned_df themes_df) (value_counts v);
             Ok (quant_result (title lines) (counts_dict (value_counts v))
                   ("Based on " +:+ commas (len (df (init L cleaned_df themes_df))) +:+
                    " complaints"))) =
            Ok (quant_result (title lines) (counts_dict (value_counts values))
                  ("Based on " +:+ commas (len (df (init L cleaned_df themes_df))) +:+
                   " complaints"))) as Hquery.
  { intros title. rewrite Hcol'. simpl. by rewrite Hl. }
  repeat (apply elem_of_cons in Hkind as [[= -> ->]|Hkind]).
  - unfold _channel_query. rewrite Hhas. simpl negb. cbv iota.
    rewrite (Hquery (fun lines => "**Complaints by channel:**" +:+ nl +:+
                                  PyStr.join nl lines)).
    eexists. split; [done|]. split; [done|]. apply value_counts_spec.
  - unfold _severity_query. rewrite Hhas. simpl negb. cbv iota.
    rewrite (Hquery (fun lines => "**Complaints by severity:**" +:+ nl +:+
                                  PyStr.join nl lines)).
    eexists. split; [done|]. split; [done|]. apply value_counts_spec.
  - unfold _product_query. simpl List.find. rewrite Hhas.
    rewrite (Hquery (fun lines => "**Complaints by " +:+ spaced "product_category" +:+
                                  ":**" +:+ nl +:+ PyStr.join nl lines)).
    eexists. split; [done|]. split; [done|]. apply value_counts_spec.
  - by apply elem_of_nil in Hkind.
Qed.

End QueryFacts.

(** The fourth, fifth and sixth example questions of the help text, on one
    complaint with no column but its text. *)
Lemma queries_without_column_witness :
  QuantHandler.handle Sample.lib
    (QuantHandler.init Sample.lib Sample.single Sample.themes)
    "Show me the monthly complaint trend" =
    Ok (QuantHandler.not_found
          "No `date` column found — trend analysis unavailable.") /\
  QuantHandler.handle Sample.lib
    (QuantHandler.init Sample.lib Sample.single Sample.themes)
    "What percentage of complaints are high severity?" =
    Ok (QuantHandler.not_found "No `severity` column found in the dataset.") /\
  QuantHandler.handle Sample.lib
    (QuantHandler.init Sample.lib Sample.single Sample.themes)
    "Which product category has the most complaints?" =
    Ok (QuantHandler.not_found "No product/category column found in the dataset.").
Proof.
  split; [|split].
  - by apply (proj1 (queries_without_column Sample.lib Sample.single Sample.themes
                       "Show me the monthly complaint trend")).
  - by apply (proj1 (proj2 (queries_without_column Sample.lib Sample.single
                              Sample.themes
                              "What percentage of complaints are high severity?"))).
  - by apply (proj2 (proj2 (queries_without_column Sample.lib Sample.single
                              Sample.themes
                              "Which product category has the most complaints?"))).
Defined.

(** The first example question of the help text and a greeting, on the
    dataset with no row. *)
Lemma empty_dataset_raises_witness :
  QuantHandler.handle Sample.lib
    (QuantHandler.init Sample.lib Sample.empty Sample.no_themes)
    "How many complaints are there in total?" = Raise IndexError /\
  QuantHandler.handle Sample.lib
    (QuantHandler.init Sample.lib Sample.empty Sample.no_themes)
    "hello" = Raise IndexError.
Proof.
  assert (Frame.wf Sample.empty) as Hwf by (repeat constructor).
  split.
  - apply (proj1 (empty_dataset_raises Sample.lib Sample.empty Sample.no_themes
                    "How many complaints are there in total?" Hwf eq_refl eq_refl));
      [reflexivity | by left].
  - apply (proj1 (empty_dataset_raises Sample.lib Sample.empty Sample.no_themes
                    "hello" Hwf eq_refl eq_refl));
      [reflexivity | by right].
Defined.

(** The channels of four complaints: phone twice, email once, and one
    unknown. *)
Lemma breakdown_query_counts_witness :
  exists r,
    QuantHandler.handle Sample.lib
      (QuantHandler.init Sample.lib Sample.channels Sample.themes)
      "complaints by channel" = Ok r /\
    data r = Some (Dict [(Str "phone", Int 2); (Str "email", Int 1)]) /\
    (forall k n,
       (k, n) ∈ [(Str "phone", 2%Z); (Str "email", 1%Z)] <->
       k <> NA /\ k ∈ [Str "phone"; Str "email"; NA; Str "phone"] /\
       n = cells_equal k [Str "phone"; Str "email"; NA; Str "phone"]) /\
    NoDup [Str "phone"; Str "email"] /\
    StronglySorted (fun a b : cell * Z => (snd b <= snd a)%Z)
      [(Str "phone", 2%Z); (Str "email", 1%Z)] /\
    (2 + (1 + 0))%Z = 3%Z.
Proof.
  apply (breakdown_query_counts Sample.lib Sample.channels Sample.themes
           "complaints by channel" ChannelQuery "channel"
           [Str "phone"; Str "email"; NA; Str "phone"]).
  - apply elem_of_cons. by left.
  - repeat constructor.
  - reflexivity.
  - reflexivity.
Defined.

(** ** The retrieval handler, step by step *)

Section PoolFacts.

Import Frame QualHandler.

Lemma theme_pool_at h q_lower rows i row :
  rows !! i = Some row ->
  label_matches q_lower row ->
  (forall j r, (j < i)%nat -> rows !! j = Some r -> label_misses q_lower r) ->
  theme_pool h q_lower rows = rows_of_theme (df h) row.
Proof.
  revert i. induction rows as [|r0 rows IH]; intros i Hi Hm Hbefore; [done|].
  destruct i as [|i]; simpl in Hi.
  - injection Hi as ->. destruct Hm as (label & Hl & Hne).
    simpl. rewrite Hl. simpl. by rewrite bool_decide_eq_true_2.
  - destruct (Hbefore 0%nat r0) as (label & Hl & He); [lia | done |].
    simpl. rewrite Hl. simpl. rewrite bool_decide_eq_false_2 by (by intros []).
    apply (IH i); [done..|]. intros j r Hj Hr. apply (Hbefore (S j) r); [lia | done].
Qed.

Lemma theme_pool_none h q_lower rows :
  Forall (label_misses q_lower) rows -> theme_pool h q_lower rows = Ok (df h).
Proof.
  induction 1 as [|r0 rows (label & Hl & He) _ IH]; [done|].
  simpl. rewrite Hl. simpl. by rewrite bool_decide_eq_false_2 by (by intros []).
Qed.

End PoolFacts.

(** X13.  The candidate pool of the retrieval.  When the label of a row
    of the theme table shares a word with the question, and the labels of
    the rows before it do not, the pool is made of the rows of the dataset
    whose theme id is the one of that row: the first theme that matches
    wins, in the order of the table.  When no label shares a word with the
    question the pool is the whole dataset. *)
Theorem theme_pool_first_match (h : QualHandler.t) (q_lower : string)
    (rows : list (list (string * cell))) :
  (forall i row,
      rows !! i = Some row ->
      label_matches q_lower row ->
      (forall j r, (j < i)%nat -> rows !! j = Some r -> label_misses q_lower r) ->
      QualHandler.theme_pool h q_lower rows = rows_of_theme (QualHandler.df h) row) /\
  (Forall (label_misses q_lower) rows ->
      QualHandler.theme_pool h q_lower rows = Ok (QualHandler.df h)).
Proof.
  split.
  - intros i row. apply theme_pool_at.
  - apply theme_pool_none.
Qed.

(** The login theme is the first of the sample table, and the question
    names it. *)
Lemma theme_pool_first_match_witness :
  QualHandler.theme_pool (QualHandler.init Sample.labelled Sample.themes)
    "describe the login issues" (Frame.rows Sample.themes) =
  rows_of_theme Sample.labelled
    [("theme_id", Int 0); ("label", Str "App & Login Issues"); ("count", Int 2)].
Proof.
  apply (proj1 (theme_pool_first_match
                  (QualHandler.init Sample.labelled Sample.themes)
                  "describe the login issues" (Frame.rows Sample.themes)) 0%nat).
  - reflexivity.
  - exists (Str "App & Login Issues"). split; [reflexivity|]. vm_compute. done.
  - intros j r Hj. lia.
Defined.

(** X14.  On a dataset with no column theme_id, a question that shares a
    word with the label of a theme makes the handler raise KeyError: the
    narrowing to the theme reads the column. *)
Theorem theme_match_needs_theme_id env (h : QualHandler.t) (query : string) i row :
  Frame.rows (QualHandler.themes h) !! i = Some row ->
  label_matches (PyStr.lower query) row ->
  (forall j r, (j < i)%nat -> Frame.rows (QualHandler.themes h) !! j = Some r ->
     label_misses (PyStr.lower query) r) ->
  Frame.has_col "theme_id" (QualHandler.df h) = false ->
  QualHandler.handle env h query = Raise (KeyError "theme_id").
Proof.
  intros Hi Hm Hbefore Hno.
  unfold QualHandler.handle, QualHandler._retrieve.
  rewrite (theme_pool_at h _ _ i row Hi Hm Hbefore).
  unfold rows_of_theme, Frame.col.
  destruct (Frame.lookup_col "theme_id" (Frame.columns (QualHandler.df h))) eqn:E; [|done].
  assert (Frame.has_col "theme_id" (QualHandler.df h) = true)
    by (apply has_col_lookup; by rewrite E).
  congruence.
Qed.

(** The three sample complaints carry no theme id, and the question names
    the login theme. *)
Lemma theme_match_needs_theme_id_witness :
  QualHandler.handle Sample.env (QualHandler.init Sample.complaints Sample.themes)
    "Describe the login issues" = Raise (KeyError "theme_id").
Proof.
  apply (theme_match_needs_theme_id Sample.env
           (QualHandler.init Sample.complaints Sample.themes)
           "Describe the login issues" 0
           [("theme_id", Int 0); ("label", Str "App & Login Issues"); ("count", Int 2)]).
  - reflexivity.
  - exists (Str "App & Login Issues"). split; [reflexivity|]. vm_compute. done.
  - intros j r Hj. lia.
  - reflexivity.
Defined.

Section KeywordFacts.

Import PyStr Re QualHandler.

(** The pieces of [split_nonword]: the first one starts the text, every
    piece is a run of word characters of the text. *)
Lemma split_nonword_aux_pieces s w ws :
  split_nonword_aux s = (w, ws) ->
  (exists post, s = w +:+ post) /\
  all_word w = true /\
  Forall (fun p => all_word p = true /\ exists pre post, s = pre +:+ p +:+ post) ws.
Proof.
  revert w ws. induction s as [|c s IH]; intros w ws; simpl.
  - intros [= <- <-]. split; [by exists EmptyString|]. split; [done | constructor].
  - destruct (split_nonword_aux s) as [w0 ws0].
    destruct (IH w0 ws0 eq_refl) as ((post0 & Hs) & Hw0 & Hws0).
    assert (Forall (fun p => all_word p = true /\
                      exists pre post, String c s = pre +:+ p +:+ post) ws0) as Hws.
    { eapply Forall_impl; [exact Hws0|]. simpl. intros p (Hp & pre & post & Hps).
      split; [done|]. exists (String c pre), post. str_simpl. by rewrite <- Hps. }
    assert (all_word w0 = true /\ exists pre post, String c s = pre +:+ w0 +:+ post)
      as Hw0'.
    { split; [done|]. exists (String c EmptyString), post0. str_simpl. by rewrite <- Hs. }
    destruct (is_word c) eqn:Hc.
    + intros [= <- <-]. split; [exists post0; str_simpl; by rewrite <- Hs|].
      split; [simpl; by rewrite Hc, Hw0 | done].
    + destruct (head s) as [c2|] eqn:Hh.
      * destruct (is_word c2) eqn:Hc2.
        -- intros [= <- <-]. split; [by exists (String c s)|]. split; [done|].
           by constructor.
        -- intros [= <- <-].
           assert (w0 = EmptyString) as ->.
           { destruct s as [|c' s']; [done|]. simpl in Hh. injection Hh as ->.
             destruct w0 as [|a w0]; [done|]. str_simpl. injection Hs as -> _.
             simpl in Hw0. by rewrite Hc2 in Hw0. }
           split; [by exists (String c s)|]. split; done.
      * intros [= <- <-]. split; [by exists (String c s)|]. split; [done|].
        by constructor.
Qed.

End KeywordFacts.

(** X15.  Every keyword taken from a question is a run of word
    characters of the question, longer than three characters and outside the
    stop set: the pattern built from the escaped keywords holds no
    character that [re.escape] changes. *)
Theorem keywords_are_words (q_lower : string) :
  Forall (fun kw =>
            (3 < PyStr.len kw)%nat /\
            (kw ∉ QualHandler.stop_set) /\
            all_word kw = true /\
            exists pre post, q_lower = pre +:+ kw +:+ post)
    (QualHandler.keywords q_lower).
Proof.
  unfold QualHandler.keywords. apply Forall_forall. intros kw Hin.
  apply list_elem_of_filter in Hin as [[Hlen Hstop] Hin].
  split; [done|]. split; [done|].
  unfold Re.split_nonword in Hin.
  destruct (Re.split_nonword_aux q_lower) as [w ws] eqn:E.
  apply split_nonword_aux_pieces in E as ((post & Hs) & Hw & Hws).
  apply elem_of_cons in Hin as [->|Hin].
  - split; [done|]. by exists EmptyString, post.
  - by apply (proj1 (Forall_forall _ _) Hws).
Qed.

Section ResultFacts.

Import Frame QualHandler.

Lemma retrieve_bound h query examples info :
  _retrieve h query = Ok (examples, info) ->
  (length examples <= _MAX_EXAMPLES)%nat /\ Forall (fun c => c <> NA) examples.
Proof.
  unfold _retrieve.
  destruct (theme_pool h (PyStr.lower query) (rows (themes h))) as [pool|]; [|done].
  simpl. destruct (keyword_rows h (keywords (PyStr.lower query)) pool) as [matched|];
    [|done].
  simpl. destruct (col (_text_col h) matched) as [texts|]; [|done].
  simpl. intros [= <- _]. split.
  - rewrite length_take. lia.
  - apply Forall_take. unfold dropna. apply Forall_forall.
    intros c Hc. by apply list_elem_of_filter in Hc as [? _].
Qed.

Lemma mapM_example_head_texts examples heads :
  mapM example_head examples = Ok heads ->
  Forall (fun c => exists s, c = Str s) examples.
Proof.
  revert heads. induction examples as [|c examples IH]; intros heads; [constructor|].
  simpl. destruct c as [|s|z]; try done. simpl.
  unfold mbind at 1, result_bind at 1.
  destruct (mapM example_head examples) eqn:E; [|done]. intros _.
  constructor; [by eexists | by apply (IH _ eq_refl)].
Qed.

End ResultFacts.

(** X16.  Whenever the qualitative handler returns: the retrieval gave at
    most eight examples, each a text; the result carries the first three of
    them, the retrieval information for confidence, and no payload; with no
    example the completion client is not called and the answer is the fixed
    one, in mode no-key; with an example the client is called exactly once,
    and the answer and the mode are what it returns. *)
Theorem qualitative_result_shape env (h : QualHandler.t) (query : string) res calls :
  QualHandler.handle env h query = Ok (res, calls) ->
  exists retrieved,
    QualHandler._retrieve h query = Ok (retrieved, confidence res) /\
    (length retrieved <= 8)%nat /\
    Forall (fun c => exists s, c = Str s) retrieved /\
    examples res = Some (take 3 retrieved) /\
    data res = None /\
    (retrieved = [] ->
       calls = [] /\ llm_mode res = Some "no-key" /\
       answer res = "No relevant complaints found for this query.") /\
    (retrieved <> [] ->
       exists prompt mode,
         calls = [prompt] /\ llm_mode res = Some mode /\
         LlmClient.complete env prompt = (answer res, mode)).
Proof.
  unfold QualHandler.handle.
  destruct (QualHandler._retrieve h query) as [[retrieved info]|] eqn:Hret; [|done].
  simpl. destruct (retrieve_bound _ _ _ _ Hret) as [Hlen _].
  unfold QualHandler._summarise.
  destruct retrieved as [|c retrieved].
  - simpl. intros [= <- <-]. exists []. simpl. repeat split; done.
  - destruct (mapM QualHandler.example_head (c :: retrieved)) as [heads|] eqn:Hh; [|done].
    simpl mbind.
    destruct (LlmClient.complete env _) as [text mode] eqn:Hc.
    simpl. intros [= <- <-]. exists (c :: retrieved). simpl.
    repeat split; try done.
    + by apply mapM_example_head_texts in Hh.
    + intros _. by eexists _, _.
Qed.

(** The question about the late charge on the three sample complaints. *)
Lemma qualitative_result_shape_witness :
  exists retrieved,
    QualHandler._retrieve (QualHandler.init Sample.complaints Sample.themes)
      "What about that LATE charge?" =
      Ok (retrieved, confidence Sample.late_charge_result) /\
    (length retrieved <= 8)%nat /\
    Forall (fun c => exists s, c = Str s) retrieved /\
    examples Sample.late_charge_result = Some (take 3 retrieved) /\
    data Sample.late_charge_result = None /\
    (retrieved = [] ->
       [Sample.late_charge_prompt] = [] /\
       llm_mode Sample.late_charge_result = Some "no-key" /\
       answer Sample.late_charge_result =
         "No relevant complaints found for this query.") /\
    (retrieved <> [] ->
       exists prompt mode,
         [Sample.late_charge_prompt] = [prompt] /\
         llm_mode Sample.late_charge_result = Some mode /\
         LlmClient.complete Sample.env prompt =
           (answer Sample.late_charge_result, mode)).
Proof.
  apply (qualitative_result_shape Sample.env
           (QualHandler.init Sample.complaints Sample.themes)
           "What about that LATE charge?"
           Sample.late_charge_result [Sample.late_charge_prompt]).
  vm_compute. reflexivity.
Defined.

(** ** The summary and the offline fallback *)


Section StripFacts.

Import PyStr.

Lemma rstrip_by_snoc_keep p s c :
  p c = false -> rstrip_by p (snoc s c) = snoc s c.
Proof.
  intros Hc. unfold snoc. induction s as [|a s IH]; str_simpl; simpl.
  - by rewrite Hc.
  - str_simpl. rewrite IH. destruct s; str_simpl; done.
Qed.

Lemma rstrip_by_snoc_drop p s c :
  p c = true -> rstrip_by p (snoc s c) = rstrip_by p s.
Proof.
  intros Hc. unfold snoc. induction s as [|a s IH]; str_simpl; simpl.
  - by rewrite Hc.
  - str_simpl. by rewrite IH.
Qed.

Lemma strip_by_snoc_drop p s c :
  p c = true -> strip_by p (snoc s c) = strip_by p s.
Proof.
  intros Hc. unfold strip_by, snoc. induction s as [|a s IH]; str_simpl; simpl.
  - by rewrite Hc.
  - str_simpl. destruct (p a); [exact IH|].
    apply (rstrip_by_snoc_drop p (String a s) c Hc).
Qed.

Lemma strip_head_kept c s :
  is_space c = false -> strip (String c s) = String c (rstrip_by is_space s).
Proof.
  intros Hc. unfold strip, strip_by. simpl. rewrite Hc. simpl.
  by rewrite Hc, andb_false_r.
Qed.

End StripFacts.

Section BulletFacts.

Import PyStr LlmClient QualHandler.

Lemma quoted_bullet_snoc e :
  quoted_bullet e = String dash (String " " (String dquote (snoc e dquote))).
Proof. reflexivity. Qed.

Lemma bullet_text_quoted e :
  bullet_text (quoted_bullet e) = strip (strip_by (Ascii.eqb dquote) e).
Proof.
  rewrite quoted_bullet_snoc. unfold bullet_text. f_equal.
  change (String dash (String " " (String dquote (snoc e dquote))))
    with (snoc (String dash (String " " (String dquote e))) dquote).
  assert (strip (snoc (String dash (String " " (String dquote e))) dquote) =
          snoc (String dash (String " " (String dquote e))) dquote) as ->.
  { unfold strip, strip_by. change (lstrip_by is_space (snoc ?s dquote)) with (snoc s dquote).
    by apply rstrip_by_snoc_keep. }
  change (lstrip_by (Ascii.eqb dash) (snoc (String dash (String " " (String dquote e))) dquote))
    with (snoc (String " " (String dquote e)) dquote).
  assert (strip (snoc (String " " (String dquote e)) dquote) =
          snoc (String dquote e) dquote) as ->.
  { unfold strip, strip_by.
    change (lstrip_by is_space (snoc (String " " (String dquote e)) dquote))
      with (snoc (String dquote e) dquote).
    by apply rstrip_by_snoc_keep. }
  rewrite strip_by_snoc_drop by done.
  unfold strip_by. reflexivity.
Qed.

Lemma is_bullet_quoted e : is_bullet (quoted_bullet e) = true.
Proof.
  unfold is_bullet. rewrite quoted_bullet_snoc.
  rewrite strip_head_kept by done. reflexivity.
Qed.

End BulletFacts.

Section PromptFacts.

Import PyStr LlmClient QualHandler.

Lemma has_linebreak_app a b :
  has_linebreak (a +:+ b) = has_linebreak a || has_linebreak b.
Proof.
  induction a as [|c a IH]; str_simpl; simpl; [done|]. by rewrite IH, orb_assoc.
Qed.

Lemma has_linebreak_upto n s : has_linebreak s = false -> has_linebreak (upto n s) = false.
Proof.
  revert s. induction n as [|n IH]; intros s; [done|].
  destruct s as [|c s]; simpl; [done|].
  intros [Hc Hs]%orb_false_iff. by rewrite Hc, IH.
Qed.

Lemma has_linebreak_uint d : has_linebreak (NilZero.string_of_uint d) = false.
Proof.
  assert (forall d, has_linebreak (NilEmpty.string_of_uint d) = false) as H
    by (induction d0; simpl; done).
  destruct d; simpl; try done; apply H.
Qed.

Lemma has_linebreak_str_of_nat n : has_linebreak (str_of_Z (Z.of_nat n)) = false.
Proof.
  unfold str_of_Z, NilZero.string_of_int.
  destruct (Z.of_nat n) as [|p|p] eqn:E; simpl; [done | apply has_linebreak_uint | lia].
Qed.

(** A text without line boundary that a line feed follows is one line. *)
Lemma splitlines_line a b :
  has_linebreak a = false -> splitlines (a +:+ nl +:+ b) = a :: splitlines b.
Proof.
  induction a as [|c a IH]; str_simpl.
  - intros _. unfold nl. str_simpl. simpl. by destruct b.
  - simpl has_linebreak. intros [Hc Ha]%orb_false_iff.
    simpl splitlines at 1. rewrite Hc, (IH Ha). done.
Qed.

Lemma splitlines_lines ls b :
  ls <> [] -> Forall (fun l => has_linebreak l = false) ls ->
  splitlines (join nl ls +:+ nl +:+ b) = (ls ++ splitlines b)%list.
Proof.
  induction ls as [|l ls IH]; [done|]. intros _ Hall.
  apply Forall_cons in Hall as [Hl Hall].
  destruct ls as [|l' ls].
  - simpl. by apply splitlines_line.
  - change (join nl (l :: l' :: ls)) with (l +:+ nl +:+ join nl (l' :: ls)).
    rewrite !app_assoc_str. rewrite (splitlines_line _ _ Hl).
    simpl app. f_equal. by apply IH.
Qed.

Lemma splitlines_blank b : splitlines (nl +:+ b) = EmptyString :: splitlines b.
Proof. by apply (splitlines_line EmptyString b). Qed.

(** The lines of the prompt of [_summarise]. *)
Lemma build_prompt_lines query n bullets :
  bullets <> [] ->
  has_linebreak query = false ->
  Forall (fun l => has_linebreak l = false) bullets ->
  splitlines (build_prompt query n (join nl bullets)) =
  (["A customer experience analyst is reviewing customer complaints."; "";
    "Question: " +:+ query; "";
    "Relevant complaint examples (" +:+ str_of_Z (Z.of_nat n) +:+ " retrieved):"] ++
   bullets ++
   [""; "Provide a concise analysis (3–5 sentences) that:";
    "1. Identifies the core pain points";
    "2. Notes any patterns (urgency, frequency, channel, severity)";
    "3. Suggests one concrete, actionable recommendation"])%list.
Proof.
  intros Hne Hq Hb. unfold build_prompt.
  rewrite splitlines_line by done.
  rewrite splitlines_blank.
  rewrite <- (app_assoc_str "Question: " query).
  rewrite splitlines_line by (rewrite has_linebreak_app, Hq; done).
  rewrite splitlines_blank.
  rewrite <- (app_assoc_str (str_of_Z (Z.of_nat n)) " retrieved):").
  rewrite <- (app_assoc_str "Relevant complaint examples (").
  rewrite splitlines_line
    by (rewrite !has_linebreak_app, has_linebreak_str_of_nat; done).
  rewrite splitlines_lines by done.
  rewrite splitlines_blank.
  rewrite splitlines_line by done.
  rewrite splitlines_line by done.
  rewrite splitlines_line by done.
  reflexivity.
Qed.

Lemma filter_bullets_quoted heads :
  filter is_bullet (map quoted_bullet heads) = map quoted_bullet heads.
Proof.
  induction heads as [|e heads IH]; [done|]. simpl map. rewrite filter_cons.
  destruct (decide (is_bullet (quoted_bullet e))) as [_|Hn]; [by rewrite IH|].
  destruct Hn. by rewrite is_bullet_quoted.
Qed.

Lemma question_line_no_bullet query : is_bullet ("Question: " +:+ query) = false.
Proof.
  unfold is_bullet. str_simpl. rewrite strip_head_kept by done. reflexivity.
Qed.

Lemma count_line_no_bullet rest :
  is_bullet ("Relevant complaint examples (" +:+ rest) = false.
Proof.
  unfold is_bullet. str_simpl. rewrite strip_head_kept by done. reflexivity.
Qed.

(** What the offline fallback reads in the prompt of [_summarise]. *)
Lemma bullet_examples_of_prompt query n heads :
  heads <> [] ->
  has_linebreak query = false ->
  Forall (fun e => has_linebreak e = false) heads ->
  bullet_examples (build_prompt query n (join nl (map quoted_bullet heads))) =
  take 4 (filter (fun e => (15 < len e)%nat)
            (map (fun e => strip (strip_by (Ascii.eqb dquote) e)) heads)).
Proof.
  intros Hne Hq Hh. unfold bullet_examples.
  rewrite build_prompt_lines; [|by destruct heads|done|].
  2:{ apply Forall_fmap. eapply Forall_impl; [exact Hh|]. cbv beta. intros e He.
      unfold compose, quoted_bullet. rewrite !has_linebreak_app. simpl.
      by rewrite He. }
  do 2 f_equal.
  rewrite !filter_app, filter_bullets_quoted.
  rewrite !filter_cons, !filter_nil.
  rewrite question_line_no_bullet, count_line_no_bullet.
  simpl. rewrite app_nil_r, map_map. apply map_ext. intros e.
  apply bullet_text_quoted.
Qed.

Lemma mapM_example_head texts :
  mapM example_head (map Str texts) = Ok (map (upto 200) texts).
Proof.
  induction texts as [|t texts IH]; [done|]. simpl.
  unfold mbind at 1, result_bind at 1. by rewrite IH.
Qed.

End PromptFacts.

(** X17.  With no key set, a question without line break and retrieved
    examples without line break: the summary is the offline summary of the
    one prompt built, and what that summary lists is read back from the
    prompt exactly as the examples went in.  The texts listed are the
    examples cut at 200 characters and stripped of the quotes and of the
    white space at their two ends, those of them longer than 15 characters,
    the first four; with none such the summary is the fixed default. *)
Theorem offline_summary_lists_examples env query texts :
  LlmClient._ANTHROPIC_KEY env = EmptyString ->
  LlmClient._OPENAI_KEY env = EmptyString ->
  texts <> [] ->
  has_linebreak query = false ->
  Forall (fun t => has_linebreak t = false) texts ->
  let prompt :=
    QualHandler.build_prompt query (length texts)
      (PyStr.join LlmClient.nl
         (map QualHandler.quoted_bullet (map (PyStr.upto 200) texts))) in
  let shown :=
    take 4 (filter (fun e => (15 < PyStr.len e)%nat)
              (map (fun t => PyStr.strip
                               (PyStr.strip_by (Ascii.eqb PyStr.dquote)
                                  (PyStr.upto 200 t))) texts)) in
  QualHandler._summarise env query (map Str texts) =
    Ok (LlmClient._no_key prompt, "no-key", [prompt]) /\
  LlmClient.bullet_examples prompt = shown /\
  (shown = [] -> LlmClient._no_key prompt = LlmClient.no_key_default) /\
  (shown <> [] ->
     LlmClient._no_key prompt =
       LlmClient.no_key_intro +:+
       PyStr.join LlmClient.nl (map LlmClient.bullet shown) +:+
       LlmClient.nl +:+ LlmClient.nl +:+
       LlmClient.no_key_recommendation +:+ LlmClient.no_key_tag).
Proof.
  intros Ha Ho Hne Hq Ht prompt shown.
  assert (LlmClient.bullet_examples prompt = shown) as Hex.
  { unfold prompt, shown. rewrite bullet_examples_of_prompt.
    - by rewrite map_map.
    - by destruct texts.
    - done.
    - apply Forall_fmap. eapply Forall_impl; [exact Ht|]. cbv beta.
      intros t. apply has_linebreak_upto. }
  split; [|split; [done|split]].
  - unfold QualHandler._summarise. destruct texts as [|t texts]; [done|].
    rewrite mapM_example_head. simpl mbind. rewrite length_map. fold prompt.
    unfold LlmClient.complete. by rewrite Ha, Ho.
  - intros Hs. unfold LlmClient._no_key. by rewrite Hex, Hs.
  - intros Hs. unfold LlmClient._no_key. rewrite Hex. by destruct shown.
Qed.

(** Two examples of the sample, which the summary lists as they are. *)
Lemma offline_summary_lists_examples_witness :
  QualHandler._summarise Sample.env "Why do logins fail?"
    (map Str ["The app crashes at login"; "App login fails after update"]) =
    Ok (LlmClient._no_key Sample.logins_prompt, "no-key", [Sample.logins_prompt]) /\
  LlmClient.bullet_examples Sample.logins_prompt =
    ["The app crashes at login"; "App login fails after update"] /\
  (["The app crashes at login"; "App login fails after update"] = [] ->
     LlmClient._no_key Sample.logins_prompt = LlmClient.no_key_default) /\
  (["The app crashes at login"; "App login fails after update"] <> [] ->
     LlmClient._no_key Sample.logins_prompt =
       LlmClient.no_key_intro +:+
       PyStr.join LlmClient.nl
         (map LlmClient.bullet
            ["The app crashes at login"; "App login fails after update"]) +:+
       LlmClient.nl +:+ LlmClient.nl +:+
       LlmClient.no_key_recommendation +:+ LlmClient.no_key_tag).
Proof.
  apply (offline_summary_lists_examples Sample.env "Why do logins fail?"
           ["The app crashes at login"; "App login fails after update"]).
  - reflexivity.
  - reflexivity.
  - done.
  - reflexivity.
  - repeat constructor.
Defined.

(** ** Selections of a frame *)

Section AnsweredFacts.

Import Frame QualHandler.

Lemma selection_of_refl d : selection_of d d.
Proof.
  intros name. destruct (lookup_col name (columns d)) as [v|] eqn:E; [|done].
  by exists v.
Qed.

Lemma selection_of_filter_rows mask d' d :
  selection_of d' d -> selection_of (filter_rows mask d') d.
Proof.
  intros H name. specialize (H name). rewrite lookup_col_filter_rows.
  destruct (lookup_col name (columns d)) as [v|].
  - destruct H as (v' & -> & Hv'). exists (select mask v'). split; [done|].
    intros c Hc. apply Hv'. by apply elem_of_select in Hc.
  - by rewrite H.
Qed.

Lemma selection_of_col d' d name v :
  selection_of d' d -> col name d = Ok v ->
  exists v', col name d' = Ok v' /\ forall c, c ∈ v' -> c ∈ v.
Proof.
  intros H. specialize (H name). unfold col.
  destruct (lookup_col name (columns d)) as [w|]; [|done]. intros [= <-].
  destruct H as (v' & -> & Hv'). by exists v'.
Qed.

Lemma selection_of_has_col d' d name :
  selection_of d' d -> has_col name d' = true -> has_col name d = true.
Proof.
  intros H. specialize (H name). rewrite !has_col_lookup.
  destruct (lookup_col name (columns d)) as [w|]; [by eexists|].
  rewrite H. by intros [].
Qed.

Lemma has_col_col name d :
  has_col name d = true -> exists v, col name d = Ok v.
Proof.
  intros [v Hv]%has_col_lookup. exists v. unfold col. by rewrite Hv.
Qed.

Lemma row_attr d i name :
  has_col name d = true -> exists c, tuple_attr (row_at d i) name = Ok c.
Proof.
  unfold has_col, names, tuple_attr, row_at. rewrite bool_decide_eq_true.
  induction (columns d) as [|[n v] cols IH]; simpl; [by intros ?%elem_of_nil|].
  destruct (String.eqb_spec n name) as [->|Hn]; [by eexists|].
  intros [?|H]%elem_of_cons; [done | by apply IH].
Qed.

(** With the columns label and theme_id in the theme table, and theme_id in
    the dataset, the pool is found, and it is a selection of the
    dataset. *)
Lemma theme_pool_ok h q_lower theme_rows :
  Forall (fun row => (exists c, tuple_attr row "label" = Ok c) /\
                     (exists c, tuple_attr row "theme_id" = Ok c)) theme_rows ->
  has_col "theme_id" (df h) = true ->
  exists pool, theme_pool h q_lower theme_rows = Ok pool /\ selection_of pool (df h).
Proof.
  intros Hrows Hid. destruct (has_col_col _ _ Hid) as [ids Hids].
  induction Hrows as [|row rows [[label Hl] [tid Ht]] _ IH]; simpl.
  - exists (df h). split; [done | apply selection_of_refl].
  - rewrite Hl. simpl. case_bool_decide; [|exact IH].
    rewrite Hids, Ht. simpl. eexists. split; [done|].
    apply selection_of_filter_rows, selection_of_refl.
Qed.

Lemma keyword_rows_ok h kws pool :
  selection_of pool (df h) ->
  (exists v, col (_text_col h) (df h) = Ok v) ->
  exists matched, keyword_rows h kws pool = Ok matched /\ selection_of matched (df h).
Proof.
  intros Hsel [v Hv]. unfold keyword_rows.
  assert (forall matched, selection_of matched (df h) ->
            selection_of (if bool_decide (nrows matched = 0%nat) then pool else matched)
              (df h)) as Hpick
    by (intros matched Hm; by case_bool_decide).
  destruct kws as [|kw kws].
  - exists (if bool_decide (nrows pool = 0%nat) then pool else pool).
    split; [done|]. by apply Hpick.
  - assert (exists text_pool,
              (if has_col "text_clean" pool then col "text_clean" pool
               else col (_text_col h) pool) = Ok text_pool) as [text_pool ->].
    { destruct (has_col "text_clean" pool) eqn:E; [by apply has_col_col|].
      destruct (selection_of_col _ _ _ _ Hsel Hv) as (v' & Hv' & _). by exists v'. }
    set (matched := filter_rows
                      (map (cell_contains (Re.alts (map Re.lit (kw :: kws)))) text_pool)
                      pool).
    exists (if bool_decide (nrows matched = 0%nat) then pool else matched).
    split; [done|]. apply Hpick. by apply selection_of_filter_rows.
Qed.

Lemma mapM_example_head_ok examples :
  Forall (fun c => exists s, c = Str s) examples ->
  exists heads, mapM example_head examples = Ok heads.
Proof.
  intros H. apply mapM_result_ok. eapply Forall_impl; [exact H|].
  simpl. intros c [s ->]. by eexists.
Qed.

Lemma handle_ok env h query texts :
  Forall (fun row => (exists c, tuple_attr row "label" = Ok c) /\
                     (exists c, tuple_attr row "theme_id" = Ok c)) (rows (themes h)) ->
  has_col "theme_id" (df h) = true ->
  col (_text_col h) (df h) = Ok texts ->
  Forall text_or_missing texts ->
  exists res calls, handle env h query = Ok (res, calls).
Proof.
  intros Hrows Hid Htexts Hall.
  destruct (theme_pool_ok h (PyStr.lower query) _ Hrows Hid) as (pool & Hpool & Hsel).
  destruct (keyword_rows_ok h (keywords (PyStr.lower query)) pool Hsel)
    as (matched & Hm & Hsel'); [by eexists|].
  destruct (selection_of_col _ _ _ _ Hsel' Htexts) as (texts' & Ht' & Hsub).
  unfold handle, _retrieve. rewrite Hpool. simpl. rewrite Hm. simpl. rewrite Ht'. simpl.
  unfold _summarise.
  set (examples := take _MAX_EXAMPLES (dropna texts')).
  assert (Forall (fun c => exists s, c = Str s) examples) as Hex.
  { apply Forall_take, Forall_forall. intros c Hc.
    unfold dropna in Hc. apply list_elem_of_filter in Hc as [Hna Hc].
    apply Hsub in Hc. apply (proj1 (Forall_forall _ _) Hall) in Hc as [->|Hc]; done. }
  destruct examples as [|c examples]; [by eexists _, _|].
  destruct (mapM_example_head_ok _ Hex) as [heads ->]. simpl mbind.
  destruct (LlmClient.complete env _). by eexists _, _.
Qed.

End AnsweredFacts.

(** ** The completion client *)

(** X18.  The mode that [complete] reports is one of anthropic,
    anthropic-error, openai, openai-error and no-key, and it is no-key
    exactly when neither key is set.  With an Anthropic key the OpenAI key
    and provider play no part; the failure of the provider in use is not
    raised and leads to no other provider nor to the offline summary: the
    text is the bracketed message of the error, and the mode the error
    mode of that provider. *)
Theorem complete_priority (env : LlmClient.Env) (prompt : string) :
  (LlmClient.complete env prompt).2 ∈
    ["anthropic"; "anthropic-error"; "openai"; "openai-error"; "no-key"] /\
  ((LlmClient.complete env prompt).2 = "no-key" <->
     LlmClient._ANTHROPIC_KEY env = EmptyString /\
     LlmClient._OPENAI_KEY env = EmptyString) /\
  (LlmClient._ANTHROPIC_KEY env <> EmptyString ->
     (forall key api,
        LlmClient.complete
          (LlmClient.mkEnv (LlmClient._ANTHROPIC_KEY env) key
             (LlmClient.anthropic_api env) api) prompt =
        LlmClient.complete env prompt) /\
     (forall exc, LlmClient.anthropic_api env prompt = inr exc ->
        LlmClient.complete env prompt =
          ("[Anthropic error — " +:+ exc +:+ "]", "anthropic-error"))) /\
  (LlmClient._ANTHROPIC_KEY env = EmptyString ->
   LlmClient._OPENAI_KEY env <> EmptyString ->
     forall exc, LlmClient.openai_api env prompt = inr exc ->
       LlmClient.complete env prompt =
         ("[OpenAI error — " +:+ exc +:+ "]", "openai-error")).
Proof.
  unfold LlmClient.complete, LlmClient._anthropic, LlmClient._openai.
  destruct env as [ka ko fa fo]. simpl.
  assert (forall m : string,
            m ∈ ["anthropic"; "anthropic-error"; "openai"; "openai-error"; "no-key"] <->
            m = "anthropic" \/ m = "anthropic-error" \/ m = "openai" \/
            m = "openai-error" \/ m = "no-key") as Hmodes.
  { intros m. rewrite !elem_of_cons, elem_of_nil. tauto. }
  rewrite Hmodes.
  destruct ka as [|c ka]; simpl.
  - destruct ko as [|c ko]; simpl.
    { split; [by auto 10|]. split; [done|]. split; [done|]. by intros _ H. }
    destruct (fo prompt) as [text|exc] eqn:E; simpl.
    + split; [by auto 10|]. split; [split; [done | by intros [_ [=]]]|]. by split.
    + split; [by auto 10|]. split; [split; [done | by intros [_ [=]]]|].
      split; [done|]. by intros _ _ exc' [= <-].
  - destruct (fa prompt) as [text|exc] eqn:E; simpl.
    + split; [by auto 10|]. split; [split; [done | by intros [[=] _]]|].
      split; [|done]. intros _. split; [done | done].
    + split; [by auto 10|]. split; [split; [done | by intros [[=] _]]|].
      split; [|done]. intros _. split; [done | by intros exc' [= <-]].
Qed.

(** ** The chat *)

Section ChatFacts.

Import Frame Main.

Lemma mapM_example_line exs :
  Forall (fun c => exists s, c = Str s) exs ->
  exists l, mapM example_line exs = Ok l.
Proof.
  intros H. apply mapM_result_ok. eapply Forall_impl; [exact H|].
  simpl. intros c [s ->]. by eexists.
Qed.

Lemma fmt_ok r :
  (forall exs, examples r = Some exs -> Forall (fun c => exists s, c = Str s) exs) ->
  exists shown footer,
    _fmt r = Ok (PyStr.join nl
                   ([nl +:+ "[" +:+ PyStr.upper (default "?" (query_type r)) +:+ "]";
                     answer r] ++ shown ++ footer ++ [EmptyString])%list).
Proof.
  intros Hex. unfold _fmt.
  destruct (examples r) as [[|c exs]|] eqn:E.
  - simpl. by eexists [], _.
  - destruct (mapM_example_line (take 2 (c :: exs))) as [l Hl].
    { apply Forall_take. by apply Hex. }
    rewrite Hl. simpl. by eexists (_ :: l), _.
  - simpl. by eexists [], _.
Qed.

Lemma qual_handle_examples env h query res calls :
  QualHandler.handle env h query = Ok (res, calls) ->
  exists retrieved,
    examples res = Some (take 3 retrieved) /\
    Forall (fun c => exists s, c = Str s) retrieved.
Proof.
  unfold QualHandler.handle.
  destruct (QualHandler._retrieve h query) as [[retrieved info]|]; [|done].
  simpl. unfold QualHandler._summarise.
  destruct retrieved as [|c retrieved].
  - simpl. intros [= <- <-]. by exists [].
  - destruct (mapM QualHandler.example_head (c :: retrieved)) as [heads|] eqn:Hh; [|done].
    simpl mbind. destruct (LlmClient.complete env _) as [text mode].
    simpl. intros [= <- <-]. exists (c :: retrieved). split; [done|].
    by apply mapM_example_head_texts in Hh.
Qed.

Lemma quant_handle_no_examples L h query res :
  QuantHandler.handle L h query = Ok res -> examples res = None.
Proof.
  rewrite handle_dispatch.
  destruct (dispatch query).
  - unfold QuantHandler._count_query.
    match goal with |- mbind _ ?m = _ -> _ => destruct m; [|done] end. simpl.
    match goal with |- mbind _ ?m = _ -> _ => destruct m; [|done] end. simpl.
    by intros [= <-].
  - unfold QuantHandler._top_themes_query.
    match goal with |- mbind _ ?m = _ -> _ => destruct m; [|done] end. simpl.
    match goal with |- mbind _ ?m = _ -> _ => destruct m; [|done] end. simpl.
    by intros [= <-].
  - unfold QuantHandler._all_themes_query, QuantHandler._top_themes_query.
    match goal with |- mbind _ ?m = _ -> _ => destruct m; [|done] end. simpl.
    match goal with |- mbind _ ?m = _ -> _ => destruct m; [|done] end. simpl.
    by intros [= <-].
  - unfold QuantHandler._channel_query.
    destruct (negb _); [by intros [= <-]|].
    match goal with |- mbind _ ?m = _ -> _ => destruct m; [|done] end. simpl.
    match goal with |- mbind _ ?m = _ -> _ => destruct m; [|done] end. simpl.
    by intros [= <-].
  - unfold QuantHandler._trend_query.
    destruct (negb _); [by intros [= <-]|].
    match goal with |- mbind _ ?m = _ -> _ => destruct m; [|done] end. simpl.
    by intros [= <-].
  - unfold QuantHandler._severity_query.
    destruct (negb _); [by intros [= <-]|].
    match goal with |- mbind _ ?m = _ -> _ => destruct m; [|done] end. simpl.
    match goal with |- mbind _ ?m = _ -> _ => destruct m; [|done] end. simpl.
    by intros [= <-].
  - unfold QuantHandler._product_query.
    destruct (List.find _ _); [|by intros [= <-]].
    match goal with |- mbind _ ?m = _ -> _ => destruct m; [|done] end. simpl.
    match goal with |- mbind _ ?m = _ -> _ => destruct m; [|done] end. simpl.
    by intros [= <-].
  - unfold QuantHandler._general_stats.
    match goal with |- mbind _ ?m = _ -> _ => destruct m; [|done] end. simpl.
    match goal with |- mbind _ ?m = _ -> _ => destruct m; [|done] end. simpl.
    match goal with |- mbind _ ?m = _ -> _ => destruct m; [|done] end. simpl.
    by intros [= <-].
Qed.

(** A question for the theme queries is no command of the chat. *)
Lemma theme_question_no_command q :
  routed_to_themes q ->
  PyStr.is_empty q = false /\
  (q ∉ [":quit"; ":exit"; "quit"; "exit"]) /\
  (q ∉ [":help"; "help"; ":examples"; "examples"]) /\
  q <> ":mode".
Proof.
  intros (Hc & _ & _). repeat split.
  - destruct q; [vm_compute in Hc; discriminate | done].
  - intros Hin.
    repeat (apply elem_of_cons in Hin as [->|Hin]; [vm_compute in Hc; discriminate|]).
    by apply elem_of_nil in Hin.
  - intros Hin.
    repeat (apply elem_of_cons in Hin as [->|Hin]; [vm_compute in Hc; discriminate|]).
    by apply elem_of_nil in Hin.
  - intros ->. vm_compute in Hc. discriminate.
Qed.

Lemma answer_theme_question L env cleaned_df themes_df query :
  (0 < nrows themes_df)%nat ->
  routed_to_themes query ->
  Router.answer L env (Router.init L cleaned_df themes_df) query = Raise TypeError.
Proof.
  intros Hn (Hq & Hc & Ht). unfold Router.answer. rewrite Hq. simpl String.eqb.
  cbv iota. unfold Router.init. simpl Router.quant.
  assert (QuantHandler._top_themes_query L
            (QuantHandler.init L cleaned_df themes_df) = Raise TypeError) as Hr.
  { apply top_themes_query_raises. unfold QuantHandler.init.
    by rewrite prepare_themes. }
  rewrite handle_dispatch. unfold dispatch. rewrite Hc.
  destruct (Re.search false QuantHandler.top_themes_re (PyStr.lower query)) eqn:E.
  - by rewrite Hr.
  - destruct Ht as [Ht|Ht]; [done|]. rewrite Ht.
    unfold QuantHandler._all_themes_query. by rewrite Hr.
Qed.

Lemma chat_loop_app L env router pre :
  Forall (fun l => exists printed, turn L env router l = Continue printed) pre ->
  exists printed, forall lines,
    chat_loop L env router (pre ++ lines) =
    ((printed ++ (chat_loop L env router lines).1)%list,
     (chat_loop L env router lines).2).
Proof.
  induction 1 as [|l pre [p Hp] _ [printed IH]].
  - exists []. intros lines. simpl. by destruct (chat_loop L env router lines).
  - exists (p ++ printed)%list. intros lines. simpl. rewrite Hp, IH.
    by rewrite app_assoc.
Qed.

End ChatFacts.

(** X19.  Every result that [Router.answer] returns is displayed: [_fmt]
    does not raise on it.  The display starts with the query type in
    capitals between brackets, quantitative or qualitative as the
    classifier said, then the answer; it shows, under their heading, two of
    the examples at most, and none for a quantitative answer. *)
Theorem answers_are_displayed L env router query res :
  Router.answer L env router query = Ok res ->
  exists shown footer,
    Main._fmt res =
      Ok (PyStr.join Main.nl
            ([Main.nl +:+
              (if String.eqb (Router.classify query) "quant"
               then "[QUANTITATIVE]" else "[QUALITATIVE]");
              answer res] ++ shown ++ footer ++ [EmptyString])%list) /\
    (shown = [] \/
     exists lines,
       shown = (Main.nl +:+ "Top retrieved examples:") :: lines /\
       (1 <= length lines <= 2)%nat) /\
    (String.eqb (Router.classify query) "quant" = true -> shown = []).
Proof.
  unfold Router.answer.
  destruct (String.eqb (Router.classify query) "quant").
  - destruct (QuantHandler.handle L (Router.quant router) query) as [r|] eqn:Hh; [|done].
    simpl. intros [= <-]. apply quant_handle_no_examples in Hh.
    unfold Main._fmt. simpl. rewrite Hh. simpl. eexists [], _.
    split; [done|]. split; [by left | done].
  - destruct (QualHandler.handle env (Router.qual router) query) as [[r calls]|] eqn:Hh;
      [|done].
    simpl. intros [= <-].
    apply qual_handle_examples in Hh as (retrieved & Hex & Hall).
    unfold Main._fmt. simpl. rewrite Hex.
    destruct (take 3 retrieved) as [|c exs] eqn:E.
    + simpl. eexists [], _. split; [done|]. split; [by left | done].
    + destruct (mapM_example_line (take 2 (c :: exs))) as [l Hl].
      { apply Forall_take. rewrite <- E. by apply Forall_take. }
      rewrite Hl. simpl. eexists (_ :: l), _. split; [done|]. split; [|done].
      right. exists l. split; [done|].
      apply mapM_result_length in Hl. rewrite Hl, length_take. simpl length. lia.
Qed.

(** The display of the answer to the late charge question. *)
Lemma answers_are_displayed_witness :
  exists shown footer,
    Main._fmt (Router.set_query_type Sample.late_charge_result "qualitative") =
      Ok (PyStr.join Main.nl
            ([Main.nl +:+ "[QUALITATIVE]";
              answer (Router.set_query_type Sample.late_charge_result "qualitative")] ++
             shown ++ footer ++ [EmptyString])%list) /\
    (shown = [] \/
     exists lines,
       shown = (Main.nl +:+ "Top retrieved examples:") :: lines /\
       (1 <= length lines <= 2)%nat) /\
    (false = true -> shown = []).
Proof.
  apply (answers_are_displayed Sample.lib Sample.env Sample.router
           "What about that LATE charge?").
  vm_compute. reflexivity.
Defined.

(** X20.  In the chat, a question that reaches one of the two theme
    queries ends the session, whenever the theme table has a row: the
    TypeError of the ranking leaves [_run_chat], which catches no exception
    of the router.  Nothing is printed for the question, and the lines
    typed after it are not read: the session is the same whatever they
    are. *)
Theorem theme_question_ends_chat L env cleaned_df themes_df pre line post :
  (0 < Frame.nrows themes_df)%nat ->
  Forall (fun l => exists printed,
            Main.turn L env (Router.init L cleaned_df themes_df) l =
              Main.Continue printed) pre ->
  routed_to_themes (PyStr.strip line) ->
  (Main._run_chat L env (Router.init L cleaned_df themes_df)
     (pre ++ line :: post)).2 = Some TypeError /\
  forall post',
    Main._run_chat L env (Router.init L cleaned_df themes_df) (pre ++ line :: post') =
    Main._run_chat L env (Router.init L cleaned_df themes_df) (pre ++ line :: post).
Proof.
  intros Hn Hpre Hq.
  assert (Main.turn L env (Router.init L cleaned_df themes_df) line =
          Main.Propagate TypeError) as Hturn.
  { destruct (theme_question_no_command _ Hq) as (H1 & H2 & H3 & H4).
    unfold Main.turn. rewrite H1.
    rewrite !bool_decide_eq_false_2 by done.
    destruct (String.eqb_spec (PyStr.strip line) ":mode"); [done|].
    by rewrite (answer_theme_question L env cleaned_df themes_df _ Hn Hq). }
  assert (forall rest,
            Main.chat_loop L env (Router.init L cleaned_df themes_df) (line :: rest) =
            ([], Some TypeError)) as Hloop
    by (intros rest; simpl; by rewrite Hturn).
  destruct (chat_loop_app L env _ pre Hpre) as [printed Happ].
  unfold Main._run_chat. split.
  - by rewrite Happ, Hloop.
  - intros post'. by rewrite !Happ, !Hloop.
Qed.

(** A blank line, the help, then the second example question of the help
    text, on the sample. *)
Lemma theme_question_ends_chat_witness :
  (Main._run_chat Sample.lib Sample.env Sample.router
     ([""; ":help"] ++ "  What are the top complaint themes?" ::
        ["How many complaints are there in total?"; ":quit"])).2 = Some TypeError /\
  forall post',
    Main._run_chat Sample.lib Sample.env Sample.router
      ([""; ":help"] ++ "  What are the top complaint themes?" :: post') =
    Main._run_chat Sample.lib Sample.env Sample.router
      ([""; ":help"] ++ "  What are the top complaint themes?" ::
         ["How many complaints are there in total?"; ":quit"]).
Proof.
  apply (theme_question_ends_chat Sample.lib Sample.env Sample.complaints Sample.themes
           [""; ":help"] "  What are the top complaint themes?"
           ["How many complaints are there in total?"; ":quit"]).
  - simpl. lia.
  - repeat constructor; by eexists.
  - vm_compute. repeat split. by right.
Defined.

(** ** Questions that are answered *)

Section CountFacts.

Import Frame QuantHandler.

Lemma series_get_row_at d i name v :
  lookup_col name (columns d) = Some v ->
  series_get name (row_at d i) = Ok (nth i v NA).
Proof.
  unfold row_at. induction (columns d) as [|[n w] cols IH]; simpl; [done|].
  destruct (String.eqb n name); [by intros [= ->] | exact IH].
Qed.

Lemma iloc0_row d : (0 < nrows d)%nat -> iloc0 d = Ok (row_at d 0).
Proof.
  unfold iloc0, rows. destruct (nrows d); [lia | done].
Qed.

(** The label and the count of the first theme are read without raising. *)
Lemma top_theme_ok themes_df :
  themes_ready themes_df -> (0 < nrows themes_df)%nat ->
  exists label z,
    iloc0 themes_df = Ok (row_at themes_df 0) /\
    series_get "label" (row_at themes_df 0) = Ok label /\
    series_get "count" (row_at themes_df 0) = Ok (Int z).
Proof.
  intros [Hwf Hready] Hn. destruct (Hready Hn) as (Hl & counts & Hc & Hall).
  apply has_col_lookup in Hl as [labels Hl].
  pose proof (col_length _ _ _ Hwf Hc) as Hlen.
  unfold col in Hc. destruct (lookup_col "count" (columns themes_df)) as [v|] eqn:E;
    [|done]. injection Hc as ->.
  destruct counts as [|c counts]; [simpl in Hlen; lia|].
  apply Forall_cons in Hall as [[z ->] _].
  exists (nth 0 labels NA), z. split; [by apply iloc0_row|].
  split; [by apply series_get_row_at|].
  by rewrite (series_get_row_at _ _ _ _ E).
Qed.

Lemma top_channel_ok channel :
  (exists c, c ∈ channel /\ c <> NA) ->
  exists first, ThemeExtractor.get (value_counts channel) 0 = Ok first.
Proof.
  intros (c & Hin & Hna).
  assert ((c, cells_equal c channel) ∈ value_counts channel) as H
    by (by apply (proj1 (value_counts_spec channel))).
  unfold ThemeExtractor.get. destruct (value_counts channel) as [|kv kvs]; [|by eexists].
  by apply elem_of_nil in H.
Qed.

Section Ready.

Variable L : Lib.
Variables cleaned_df themes_df : DataFrame.
Hypothesis Hwf : wf cleaned_df.
Hypothesis Hrows : (0 < nrows cleaned_df)%nat.
Hypothesis Hthemes : themes_ready themes_df.
Hypothesis Hchannel : channel_ready cleaned_df.

Let h := init L cleaned_df themes_df.
Let total := Z.of_nat (nrows cleaned_df).

Lemma ready_len : len (df h) = total.
Proof. unfold h, len, init. by rewrite prepare_nrows. Qed.

Lemma ready_themes : themes h = themes_df.
Proof. unfold h, init. by rewrite prepare_themes. Qed.

Lemma ready_pct share : pct L share total = Ok (percent L share total).
Proof.
  unfold pct. destruct (Z.eqb_spec total 0); [unfold total in *; lia | done].
Qed.

Lemma ready_channel :
  has_col "channel" (df h) = true ->
  exists channel first,
    col "channel" (df h) = Ok channel /\
    ThemeExtractor.get (value_counts channel) 0 = Ok first.
Proof.
  intros Hhas. unfold h, init in *.
  rewrite prepare_has_col in Hhas
    by (unfold derived_columns; rewrite !elem_of_cons, elem_of_nil;
        intros [?|[?|[?|[]]]]; discriminate).
  rewrite prepare_col
    by (unfold derived_columns; rewrite !elem_of_cons, elem_of_nil;
        intros [?|[?|[?|[]]]]; discriminate).
  simpl in *. apply has_col_lookup in Hhas as [channel Hc].
  assert (col "channel" cleaned_df = Ok channel) as Hcol
    by (unfold col; by rewrite Hc).
  destruct (top_channel_ok channel (Hchannel channel Hcol)) as [first Hf].
  by exists channel, first.
Qed.

Lemma count_query_ok q :
  exists r, _count_query L h q = Ok r /\
    data r = Some (Dict [(Str "total_complaints", Int total)]).
Proof.
  unfold _count_query. rewrite ready_len, ready_themes.
  assert (exists extras1,
            (if PyStr.contains "theme" q && (0 <? len themes_df)%Z
             then
               top ← iloc0 themes_df;
               label ← series_get "label" top;
               c1 ← series_get "count" top;
               n1 ← py_int c1;
               c2 ← series_get "count" top;
               n2 ← py_int c2;
               share ← pct L n2 total;
               Ok ["The largest theme is **" +:+ cell_text label +:+ "** (" +:+
                   commas n1 +:+ " complaints, " +:+ share +:+ "% of total)."]
             else Ok []) = Ok extras1) as [extras1 ->].
  { destruct (PyStr.contains "theme" q); simpl; [|by eexists].
    destruct (Z.ltb_spec 0 (len themes_df)) as [Hlt|]; [|by eexists].
    destruct (top_theme_ok themes_df Hthemes) as (label & z & -> & Hl & Hc).
    { unfold len in Hlt. lia. }
    simpl. rewrite Hl. simpl. rewrite Hc. simpl. rewrite ready_pct. by eexists. }
  simpl.
  destruct (has_col "channel" (df h)) eqn:Hhas.
  - destruct (ready_channel Hhas) as (channel & first & -> & Hf). simpl. rewrite Hf.
    simpl. by eexists.
  - simpl. by eexists.
Qed.

Lemma general_stats_ok :
  exists r, _general_stats L h = Ok r /\
    data r = Some (Dict [(Str "total", Int total)]).
Proof.
  unfold _general_stats. rewrite ready_len, ready_themes.
  assert (exists lines1,
            (if (0 <? len themes_df)%Z
             then
               top ← iloc0 themes_df;
               label ← series_get "label" top;
               c ← series_get "count" top;
               n ← py_int c;
               Ok ["Top theme: **" +:+ cell_text label +:+ "** (" +:+
                   commas n +:+ " complaints)."]
             else Ok []) = Ok lines1) as [lines1 ->].
  { destruct (Z.ltb_spec 0 (len themes_df)) as [Hlt|]; [|by eexists].
    destruct (top_theme_ok themes_df Hthemes) as (label & z & -> & Hl & Hc).
    { unfold len in Hlt. lia. }
    simpl. rewrite Hl. simpl. rewrite Hc. simpl. by eexists. }
  simpl.
  assert (exists lines2,
            (if has_col "channel" (df h)
             then
               channel ← col "channel" (df h);
               first ← ThemeExtractor.get (value_counts channel) 0;
               Ok ["Top channel: **" +:+ cell_text (fst first) +:+ "** (" +:+
                   commas (snd first) +:+ ")."]
             else Ok []) = Ok lines2) as [lines2 ->].
  { destruct (has_col "channel" (df h)) eqn:Hhas; [|by eexists].
    destruct (ready_channel Hhas) as (channel & first & -> & Hf). simpl. rewrite Hf.
    by eexists. }
  simpl.
  destruct (has_col "severity" (df h)) eqn:Hsv.
  - destruct (has_col_col _ _ Hsv) as [severity ->]. simpl. rewrite ready_pct.
    simpl. by eexists.
  - simpl. by eexists.
Qed.

(** A break-down by the values of a column that the frame has. *)
Lemma breakdown_column_ok name (title : list string -> string) :
  has_col name (df h) = true ->
  exists r,
    (v ← col name (df h);
     lines ← breakdown L h (value_counts v);
     Ok (quant_result (title lines) (counts_dict (value_counts v))
           ("Based on " +:+ commas (len (df h)) +:+ " complaints"))) = Ok r.
Proof.
  intros Hhas. destruct (has_col_col _ _ Hhas) as [v ->]. simpl.
  destruct (breakdown_ok L h v) as [lines ->]; [|by eexists].
  intros _. unfold h, init. by rewrite prepare_nrows.
Qed.

Lemma channel_query_ok : exists r, _channel_query L h = Ok r.
Proof.
  unfold _channel_query. destruct (has_col "channel" (df h)) eqn:E; [|by eexists].
  apply (breakdown_column_ok "channel"
           (fun lines => "**Complaints by channel:**" +:+ nl +:+ PyStr.join nl lines) E).
Qed.

Lemma severity_query_ok : exists r, _severity_query L h = Ok r.
Proof.
  unfold _severity_query. destruct (has_col "severity" (df h)) eqn:E; [|by eexists].
  apply (breakdown_column_ok "severity"
           (fun lines => "**Complaints by severity:**" +:+ nl +:+ PyStr.join nl lines) E).
Qed.

Lemma product_query_ok : exists r, _product_query L h = Ok r.
Proof.
  unfold _product_query.
  destruct (List.find (fun c => has_col c (df h))
              ["product_category"; "product"; "category"]) as [name|] eqn:E;
    [|by eexists].
  apply List.find_some in E as [_ E].
  apply (breakdown_column_ok name
           (fun lines => "**Complaints by " +:+ spaced name +:+ ":**" +:+ nl +:+
                         PyStr.join nl lines) E).
Qed.

Lemma trend_query_ok q :
  has_col "date" cleaned_df = true \/ has_col "_month" cleaned_df = false ->
  exists r, _trend_query L h q = Ok r.
Proof.
  intros Hdate. unfold _trend_query.
  destruct (has_col "_month" (df h)) eqn:E; [|by eexists]. simpl.
  destruct (has_col "date" cleaned_df) eqn:Hd.
  - apply has_col_col in Hd as [dates Hd].
    assert (exists keys,
              col (if PyStr.contains "week" q then "_week" else "_month") (df h) =
              Ok keys) as [keys ->]; [|by eexists].
    unfold h, init, _prepare. simpl. rewrite Hd. simpl.
    destruct (PyStr.contains "week" q); rewrite !col_assign; by eexists.
  - destruct Hdate as [|Hm]; [done|].
    unfold h, init in E. rewrite prepare_without_date in E by done.
    simpl in E. congruence.
Qed.

End Ready.

End CountFacts.

(** X21.  The count question and the general summary are answered: on a
    dataset with a row and one cell per row, with a theme table that is
    empty or has a label and an integer count for each theme, and with a
    channel column, if there is one, that names a channel on some row, a
    question that the dispatch hands to the count query or to the general
    summary gets a result, whose payload holds the number of rows of the
    dataset. *)
Theorem count_and_summary_are_answered L cleaned_df themes_df query :
  Frame.wf cleaned_df ->
  (0 < Frame.nrows cleaned_df)%nat ->
  themes_ready themes_df ->
  channel_ready cleaned_df ->
  let h := QuantHandler.init L cleaned_df themes_df in
  let total := Z.of_nat (Frame.nrows cleaned_df) in
  (dispatch query = CountQuery ->
   exists r, QuantHandler.handle L h query = Ok r /\
     data r = Some (Dict [(Str "total_complaints", Int total)])) /\
  (dispatch query = GeneralStats ->
   exists r, QuantHandler.handle L h query = Ok r /\
     data r = Some (Dict [(Str "total", Int total)])).
Proof.
  intros Hwf Hn Hthemes Hchannel h total. unfold h.
  rewrite handle_dispatch. split; intros ->.
  - by apply count_query_ok.
  - by apply general_stats_ok.
Qed.

Section AnswerFacts.

Lemma dispatch_theme_query query :
  Router.classify query = "quant" ->
  dispatch query = TopThemesQuery \/ dispatch query = AllThemesQuery ->
  routed_to_themes query.
Proof.
  intros Hq Hd. split; [done|]. unfold dispatch in Hd.
  destruct (Re.search false QuantHandler.count_re (PyStr.lower query));
    [by destruct Hd|]. split; [done|].
  destruct (Re.search false QuantHandler.top_themes_re (PyStr.lower query));
    [by left|].
  destruct (Re.search false QuantHandler.themes_re (PyStr.lower query));
    [by right|].
  repeat match type of Hd with context [if ?b then _ else _] => destruct b end;
    by destruct Hd.
Qed.

(** The quantitative handler answers every question that does not reach
    one of its two theme queries. *)
Lemma quant_handle_ok L cleaned_df themes_df query :
  quant_ready cleaned_df themes_df ->
  Router.classify query = "quant" ->
  ~ routed_to_themes query ->
  exists r,
    QuantHandler.handle L (QuantHandler.init L cleaned_df themes_df) query = Ok r.
Proof.
  intros (Hwf & Hn & Hthemes & Hchannel & Hdate) Hq Hnot.
  rewrite handle_dispatch.
  destruct (dispatch query) eqn:Hd.
  - destruct (count_query_ok L cleaned_df themes_df Hn Hthemes Hchannel
                (PyStr.lower query)) as (r & Hr & _). by exists r.
  - destruct Hnot. apply dispatch_theme_query; [done | by left].
  - destruct Hnot. apply dispatch_theme_query; [done | by right].
  - by apply channel_query_ok.
  - by apply trend_query_ok.
  - by apply severity_query_ok.
  - by apply product_query_ok.
  - destruct (general_stats_ok L cleaned_df themes_df Hn Hthemes Hchannel)
      as (r & Hr & _). by exists r.
Qed.

(** The retrieval handler answers every question. *)
Lemma qual_handle_ok env cleaned_df themes_df query :
  qual_ready cleaned_df themes_df ->
  exists res calls,
    QualHandler.handle env (QualHandler.init cleaned_df themes_df) query =
      Ok (res, calls).
Proof.
  intros (Hl & Ht & Hid & (texts & Htexts & Hall) & _).
  apply (handle_ok env (QualHandler.init cleaned_df themes_df) query texts);
    try done.
  - unfold Frame.rows. apply Forall_fmap, Forall_forall. intros i _. simpl.
    split; by apply row_attr.
  - eapply Forall_impl; [exact Hall|]. simpl. intros c Hc. by right.
Qed.

Lemma answer_examples_texts L env router query res :
  Router.answer L env router query = Ok res ->
  forall exs, examples res = Some exs -> Forall (fun c => exists s, c = Str s) exs.
Proof.
  unfold Router.answer.
  destruct (String.eqb (Router.classify query) "quant").
  - destruct (QuantHandler.handle L (Router.quant router) query) as [r|] eqn:Hh; [|done].
    simpl. intros [= <-]. apply quant_handle_no_examples in Hh. simpl.
    rewrite Hh. by intros exs.
  - destruct (QualHandler.handle env (Router.qual router) query) as [[r calls]|] eqn:Hh;
      [|done].
    simpl. intros [= <-].
    apply qual_handle_examples in Hh as (retrieved & Hex & Hall). simpl.
    rewrite Hex. intros exs [= <-]. by apply Forall_take.
Qed.

(** On a dataset fit for the two handlers, a turn of the chat on a line
    that is no theme question goes on, or leaves the loop with the
    goodbye. *)
Lemma turn_ok L env cleaned_df themes_df line :
  quant_ready cleaned_df themes_df ->
  qual_ready cleaned_df themes_df ->
  ~ routed_to_themes (PyStr.strip line) ->
  (exists printed,
     Main.turn L env (Router.init L cleaned_df themes_df) line = Main.Continue printed) \/
  Main.turn L env (Router.init L cleaned_df themes_df) line = Main.Break ["Goodbye!"].
Proof.
  intros Hquant Hqual Hnot. unfold Main.turn.
  destruct (PyStr.is_empty (PyStr.strip line)); [left; by eexists|].
  case_bool_decide; [by right|].
  case_bool_decide; [left; by eexists|].
  destruct (String.eqb (PyStr.strip line) ":mode"); [left; by eexists|].
  assert (exists res,
            Router.answer L env (Router.init L cleaned_df themes_df)
              (PyStr.strip line) = Ok res) as [res Hres].
  { unfold Router.answer, Router.init. simpl.
    destruct (String.eqb_spec (Router.classify (PyStr.strip line)) "quant") as [Hq|Hq].
    - destruct (quant_handle_ok L cleaned_df themes_df _ Hquant Hq Hnot) as [r ->].
      by eexists.
    - destruct (qual_handle_ok env cleaned_df themes_df (PyStr.strip line) Hqual)
        as (r & calls & ->). by eexists. }
  rewrite Hres. simpl.
  destruct (fmt_ok res (answer_examples_texts _ _ _ _ _ Hres)) as (shown & footer & ->).
  left. by eexists.
Qed.

Lemma chat_loop_ok L env router lines :
  Forall (fun l =>
            (exists printed, Main.turn L env router l = Main.Continue printed) \/
            Main.turn L env router l = Main.Break ["Goodbye!"]) lines ->
  (Main.chat_loop L env router lines).2 = None /\
  (last (Main.chat_loop L env router lines).1 = Some "Goodbye!" \/
   last (Main.chat_loop L env router lines).1 = Some (Main.nl +:+ "Goodbye!")).
Proof.
  induction 1 as [|l lines [[printed Hl]|Hl] _ [IH1 IH2]]; simpl.
  - split; [done | by right].
  - rewrite Hl. destruct (Main.chat_loop L env router lines) as [more e] eqn:E.
    simpl in *. split; [done|].
    assert (more <> []) as Hne by (intros ->; by destruct IH2).
    assert (last (printed ++ more) = last more) as ->; [|done].
    destruct more as [|m more]; [done|]. clear -m.
    induction printed as [|p printed IH]; [done|]. simpl.
    rewrite <- IH. by destruct (printed ++ m :: more)%list eqn:E; [destruct printed|].
  - rewrite Hl. simpl. split; [done | by left].
Qed.

End AnswerFacts.

(** X22.  On a dataset and a theme table fit for the quantitative
    queries, every question that the classifier sends to the quantitative
    handler and that does not reach one of the two theme queries is
    answered: [Router.answer] returns a result, of type quantitative.  The
    theme questions are the only quantitative questions that fail. *)
Theorem quantitative_questions_are_answered L env cleaned_df themes_df query :
  quant_ready cleaned_df themes_df ->
  Router.classify query = "quant" ->
  ~ routed_to_themes query ->
  exists res,
    Router.answer L env (Router.init L cleaned_df themes_df) query = Ok res /\
    query_type res = Some "quantitative".
Proof.
  intros Hready Hq Hnot.
  destruct (quant_handle_ok L cleaned_df themes_df query Hready Hq Hnot) as [r Hr].
  exists (Router.set_query_type r "quantitative"). split; [|done].
  unfold Router.answer. rewrite Hq. simpl String.eqb. cbv iota.
  unfold Router.init. simpl Router.quant. by rewrite Hr.
Qed.

(** X23.  On a dataset as the first tool leaves it, every question that
    the classifier does not send to the quantitative handler is answered:
    when the theme table has the columns label and theme_id, the dataset
    has the column theme_id, and the text columns that the handler reads
    (the one of the examples, and text_clean when there is one) hold a text
    on every row, [Router.answer] returns a result, of type qualitative. *)
Theorem qualitative_questions_are_answered L env cleaned_df themes_df query :
  qual_ready cleaned_df themes_df ->
  Router.classify query <> "quant" ->
  exists res,
    Router.answer L env (Router.init L cleaned_df themes_df) query = Ok res /\
    query_type res = Some "qualitative".
Proof.
  intros Hready Hq.
  destruct (qual_handle_ok env cleaned_df themes_df query Hready)
    as (r & calls & Hr).
  exists (Router.set_query_type r "qualitative"). split; [|done].
  unfold Router.answer.
  destruct (String.eqb_spec (Router.classify query) "quant"); [done|].
  unfold Router.init. simpl Router.qual. by rewrite Hr.
Qed.

(** X24.  On a dataset and a theme table fit for the two handlers, a
    session of the chat in which no line is a theme question never ends on
    an exception, whatever is typed: it ends at a quit command or at the end
    of the input, and the last line printed is the goodbye. *)
Theorem chat_ends_with_goodbye L env cleaned_df themes_df lines :
  quant_ready cleaned_df themes_df ->
  qual_ready cleaned_df themes_df ->
  Forall (fun line => ~ routed_to_themes (PyStr.strip line)) lines ->
  (Main._run_chat L env (Router.init L cleaned_df themes_df) lines).2 = None /\
  (last (Main._run_chat L env (Router.init L cleaned_df themes_df) lines).1 =
     Some "Goodbye!" \/
   last (Main._run_chat L env (Router.init L cleaned_df themes_df) lines).1 =
     Some (Main.nl +:+ "Goodbye!")).
Proof.
  intros Hquant Hqual Hlines.
  destruct (chat_loop_ok L env (Router.init L cleaned_df themes_df) lines)
    as [He Hlast].
  { eapply Forall_impl; [exact Hlines|]. simpl. intros line. by apply turn_ok. }
  unfold Main._run_chat.
  destruct (Main.chat_loop L env (Router.init L cleaned_df themes_df) lines)
    as [printed e]. simpl in *. split; [done|].
  destruct printed as [|p printed]; [by destruct Hlast|]. exact Hlast.
Qed.

Lemma sample_cleaned_quant_ready : quant_ready Sample.cleaned Sample.themes.
Proof.
  split; [repeat constructor|]. split; [simpl; lia|]. split; [|split].
  - split; [repeat constructor|]. intros _. split; [reflexivity|].
    exists [Int 2; Int 1]. split; [reflexivity|].
    repeat (apply Forall_cons; split; [by eexists|]). constructor.
  - intros channel [= <-]. exists (Str "phone"). split; [|done].
    apply elem_of_cons. by left.
  - by right.
Qed.

Lemma sample_cleaned_qual_ready : qual_ready Sample.cleaned Sample.themes.
Proof.
  split; [reflexivity|]. split; [reflexivity|]. split; [reflexivity|]. split.
  - eexists. split; [reflexivity|].
    repeat (apply Forall_cons; split; [by eexists|]). constructor.
  - intros v [= <-]. repeat (apply Forall_cons; split; [by eexists|]). constructor.
Qed.

(** The first example question of the help text, on the four complaints
    with their channel. *)
Lemma count_and_summary_are_answered_witness :
  (dispatch "How many complaints are there in total?" = CountQuery ->
   exists r,
     QuantHandler.handle Sample.lib
       (QuantHandler.init Sample.lib Sample.channels Sample.themes)
       "How many complaints are there in total?" = Ok r /\
     data r = Some (Dict [(Str "total_complaints", Int 4)])) /\
  (dispatch "How many complaints are there in total?" = GeneralStats ->
   exists r,
     QuantHandler.handle Sample.lib
       (QuantHandler.init Sample.lib Sample.channels Sample.themes)
       "How many complaints are there in total?" = Ok r /\
     data r = Some (Dict [(Str "total", Int 4)])).
Proof.
  apply (count_and_summary_are_answered Sample.lib Sample.channels Sample.themes
           "How many complaints are there in total?").
  - repeat constructor.
  - simpl. lia.
  - split; [repeat constructor|]. intros _. split; [reflexivity|].
    exists [Int 2; Int 1]. split; [reflexivity|].
    repeat (apply Forall_cons; split; [by eexists|]). constructor.
  - intros channel [= <-]. exists (Str "phone"). split; [|done].
    apply elem_of_cons. by left.
Defined.

(** The third example question of the help text, on the cleaned sample. *)
Lemma quantitative_questions_are_answered_witness :
  exists res,
    Router.answer Sample.lib Sample.env
      (Router.init Sample.lib Sample.cleaned Sample.themes)
      "How many complaints came through the phone channel?" = Ok res /\
    query_type res = Some "quantitative".
Proof.
  apply (quantitative_questions_are_answered Sample.lib Sample.env Sample.cleaned
           Sample.themes "How many complaints came through the phone channel?").
  - exact sample_cleaned_quant_ready.
  - vm_compute. reflexivity.
  - intros (_ & Hn & _). vm_compute in Hn. discriminate.
Defined.

(** The seventh example question of the help text, on the cleaned
    sample. *)
Lemma qualitative_questions_are_answered_witness :
  exists res,
    Router.answer Sample.lib Sample.env
      (Router.init Sample.lib Sample.cleaned Sample.themes)
      "Why are customers frustrated with the mobile app?" = Ok res /\
    query_type res = Some "qualitative".
Proof.
  apply (qualitative_questions_are_answered Sample.lib Sample.env Sample.cleaned
           Sample.themes "Why are customers frustrated with the mobile app?").
  - exact sample_cleaned_qual_ready.
  - vm_compute. discriminate.
Defined.

(** A session on the cleaned sample: a blank line, the help, a count
    question, a question about the app, the quit command, and a line that
    is not read. *)
Lemma chat_ends_with_goodbye_witness :
  (Main._run_chat Sample.lib Sample.env
     (Router.init Sample.lib Sample.cleaned Sample.themes) Sample.session).2 = None /\
  (last (Main._run_chat Sample.lib Sample.env
           (Router.init Sample.lib Sample.cleaned Sample.themes) Sample.session).1 =
     Some "Goodbye!" \/
   last (Main._run_chat Sample.lib Sample.env
           (Router.init Sample.lib Sample.cleaned Sample.themes) Sample.session).1 =
     Some (Main.nl +:+ "Goodbye!")).
Proof.
  apply (chat_ends_with_goodbye Sample.lib Sample.env Sample.cleaned Sample.themes
           Sample.session).
  - exact sample_cleaned_quant_ready.
  - exact sample_cleaned_qual_ready.
  - repeat (apply Forall_cons; split;
            [intros (Hc & Hn & Ht); vm_compute in Hc, Hn; discriminate|]).
    constructor.
Defined.
